(** * ALPS GlidePoint PS/2 touchpad driver: a shallow embedding

    The definitions below follow [VoodooPS2ALPSGlidePoint.cpp].  C integers
    are modelled as [Z] (bytes are the values 0..255, [int] values are used
    inside their range), C integer division and remainder as [Z.quot] and
    [Z.rem], bit operations as [Z.land], [Z.lor], [Z.shiftl], [Z.shiftr].
    Functions that mutate the driver object take the relevant part of the
    object as an argument and return the updated part. *)

From Stdlib Require Import ZArith List Bool Lia.
Import ListNotations.
Local Open Scope Z_scope.

(* ------------------------------------------------------------------------- *)
(** * Data model *)

(** Protocol versions ([ALPS_PROTO_V1] .. [ALPS_PROTO_V5]). *)
Inductive alps_proto : Type :=
| ALPS_PROTO_V1 | ALPS_PROTO_V2 | ALPS_PROTO_V3 | ALPS_PROTO_V4 | ALPS_PROTO_V5.

Definition alps_proto_eqb (a b : alps_proto) : bool :=
  match a, b with
  | ALPS_PROTO_V1, ALPS_PROTO_V1 | ALPS_PROTO_V2, ALPS_PROTO_V2
  | ALPS_PROTO_V3, ALPS_PROTO_V3 | ALPS_PROTO_V4, ALPS_PROTO_V4
  | ALPS_PROTO_V5, ALPS_PROTO_V5 => true
  | _, _ => false
  end.

(** The two nibble command tables a profile can point to. *)
Inductive nibble_table : Type :=
| no_nibble_commands | alps_v3_nibble_commands | alps_v4_nibble_commands.

(** [struct alps_data] (the member [modelData]): the fields this file uses. *)
Record alps_data : Type := mk_alps_data {
  proto_version : alps_proto;
  byte0 : Z;
  mask0 : Z;
  flags : Z;
  x_max : Z;
  y_max : Z;
  x_bits : Z;
  y_bits : Z;
  pktsize : Z;
  multi_packet : Z;
  multi_data : list Z;
  second_touch : Z;
  fingers : Z;
  quirks : Z;
  prev_fin : Z;
  lastz : Z;
  nibble_commands : nibble_table;
  addr_command : Z
}.

(** [p[i]] for a packet held as a list of bytes. *)
Definition byte_at (p : list Z) (i : nat) : Z := nth i p 0.

(* ------------------------------------------------------------------------- *)
(** * Packet framing: [interruptOccurred] *)

Inductive PS2InterruptResult : Type :=
| kPS2IR_packetBuffering
| kPS2IR_packetReady.

Definition kPacketLengthSmall : Z := 3.

(** The framer state is the in-progress packet: the bytes
    [packet[0 .. _packetByteCount)] written at the head of the ring buffer,
    so that [_packetByteCount] is the length of the list.  The third
    component of the result is the packet completed by this byte, empty
    while buffering.  The ring buffer itself, whose head is advanced by
    [pktsize] whatever the length of the completed packet, is in
    [interruptOccurred_ring] below. *)
Definition interruptOccurred (modelData : alps_data) (in_progress : list Z)
    (data : Z) : PS2InterruptResult * list Z * list Z :=
  let _packetByteCount := Z.of_nat (length in_progress) in
  if (_packetByteCount =? 0)
     && negb (Z.land data 0xc8 =? 0x08)
     && negb (Z.land data (mask0 modelData) =? byte0 modelData)
  then (kPS2IR_packetBuffering, in_progress, [])
  else if (1 <=? _packetByteCount) && (data =? 0x80)
  then (kPS2IR_packetBuffering, [], [])
  else
    let packet := in_progress ++ [data] in
    let _packetByteCount := Z.of_nat (length packet) in
    if (pktsize modelData =? _packetByteCount)
       || ((kPacketLengthSmall =? _packetByteCount)
           && (Z.land (byte_at packet 0) 0xc8 =? 0x08))
    then (kPS2IR_packetReady, [], packet)
    else (kPS2IR_packetBuffering, packet, []).

(** Feeding a byte stream one byte at a time.  [consumed] counts the source
    bytes already fed; every [kPS2IR_packetReady] is recorded with the number
    of source bytes consumed when it was raised and the packet it completed. *)
Fixpoint feed (modelData : alps_data) (in_progress : list Z) (consumed : nat)
    (input : list Z) : list (nat * list Z) :=
  match input with
  | [] => []
  | data :: rest =>
      match interruptOccurred modelData in_progress data with
      | (kPS2IR_packetReady, st, packet) =>
          (S consumed, packet) :: feed modelData st (S consumed) rest
      | (kPS2IR_packetBuffering, st, _) =>
          feed modelData st (S consumed) rest
      end
  end.

(** [packet] is the stretch of [source] that ends right before offset [e]. *)
Definition source_segment (source : list Z) (e : nat) (packet : list Z) : Prop :=
  exists before after,
    source = before ++ packet ++ after /\ length (before ++ packet) = e.

(** The lengths a completed packet may have. *)
Definition packet_length_ok (modelData : alps_data) (packet : list Z) : Prop :=
  Z.of_nat (length packet) = pktsize modelData
  \/ (length packet = 3%nat /\ Z.land (byte_at packet 0) 0xc8 = 0x08).

(** Emitted packets follow each other without sharing source bytes. *)
Fixpoint in_sequence (lo : nat) (out : list (nat * list Z)) : Prop :=
  match out with
  | [] => True
  | (e, packet) :: rest => (lo + length packet <= e)%nat /\ in_sequence e rest
  end.

(* ------------------------------------------------------------------------- *)
(** * Field updates of [alps_data] *)

Definition set_pktsize (v : Z) (m : alps_data) : alps_data :=
  mk_alps_data (proto_version m) (byte0 m) (mask0 m) (flags m) (x_max m)
    (y_max m) (x_bits m) (y_bits m) v (multi_packet m) (multi_data m)
    (second_touch m) (fingers m) (quirks m) (prev_fin m) (lastz m)
    (nibble_commands m) (addr_command m).

Definition set_multi_packet (v : Z) (m : alps_data) : alps_data :=
  mk_alps_data (proto_version m) (byte0 m) (mask0 m) (flags m) (x_max m)
    (y_max m) (x_bits m) (y_bits m) (pktsize m) v (multi_data m)
    (second_touch m) (fingers m) (quirks m) (prev_fin m) (lastz m)
    (nibble_commands m) (addr_command m).

Definition set_multi_data (v : list Z) (m : alps_data) : alps_data :=
  mk_alps_data (proto_version m) (byte0 m) (mask0 m) (flags m) (x_max m)
    (y_max m) (x_bits m) (y_bits m) (pktsize m) (multi_packet m) v
    (second_touch m) (fingers m) (quirks m) (prev_fin m) (lastz m)
    (nibble_commands m) (addr_command m).

Definition set_second_touch (v : Z) (m : alps_data) : alps_data :=
  mk_alps_data (proto_version m) (byte0 m) (mask0 m) (flags m) (x_max m)
    (y_max m) (x_bits m) (y_bits m) (pktsize m) (multi_packet m) (multi_data m)
    v (fingers m) (quirks m) (prev_fin m) (lastz m)
    (nibble_commands m) (addr_command m).

Definition set_fingers (v : Z) (m : alps_data) : alps_data :=
  mk_alps_data (proto_version m) (byte0 m) (mask0 m) (flags m) (x_max m)
    (y_max m) (x_bits m) (y_bits m) (pktsize m) (multi_packet m) (multi_data m)
    (second_touch m) v (quirks m) (prev_fin m) (lastz m)
    (nibble_commands m) (addr_command m).

Definition set_quirks (v : Z) (m : alps_data) : alps_data :=
  mk_alps_data (proto_version m) (byte0 m) (mask0 m) (flags m) (x_max m)
    (y_max m) (x_bits m) (y_bits m) (pktsize m) (multi_packet m) (multi_data m)
    (second_touch m) (fingers m) v (prev_fin m) (lastz m)
    (nibble_commands m) (addr_command m).

Definition set_flags (v : Z) (m : alps_data) : alps_data :=
  mk_alps_data (proto_version m) (byte0 m) (mask0 m) v (x_max m)
    (y_max m) (x_bits m) (y_bits m) (pktsize m) (multi_packet m) (multi_data m)
    (second_touch m) (fingers m) (quirks m) (prev_fin m) (lastz m)
    (nibble_commands m) (addr_command m).

(** [list[i] = v] for an array held as a list (the index is in range wherever
    the driver writes). *)
Fixpoint array_set (l : list Z) (i : nat) (v : Z) : list Z :=
  match l, i with
  | [], _ => []
  | _ :: t, O => v :: t
  | h :: t, S i' => h :: array_set t i' v
  end.

(* ------------------------------------------------------------------------- *)
(** * Bitmap scanning: [alps_get_bitmap_points] *)

Record alps_bitmap_point : Type := mk_point {
  start_bit : Z;
  num_bits : Z
}.

(** The pointer [point], which designates [low] or [high]. *)
Inductive point_ref : Type := to_low | to_high.

(** What the loop of [alps_get_bitmap_points] reads and writes through its
    pointer arguments, and its local [point]. *)
Record bitmap_scan : Type := mk_scan {
  scan_low : alps_bitmap_point;
  scan_high : alps_bitmap_point;
  scan_fingers : Z;
  scan_point : point_ref
}.

Definition deref (s : bitmap_scan) : alps_bitmap_point :=
  match scan_point s with to_low => scan_low s | to_high => scan_high s end.

Definition assign (s : bitmap_scan) (p : alps_bitmap_point) : bitmap_scan :=
  match scan_point s with
  | to_low => mk_scan p (scan_high s) (scan_fingers s) to_low
  | to_high => mk_scan (scan_low s) p (scan_fingers s) to_high
  end.

(** One iteration of the loop body, at bit index [i]. *)
Definition bitmap_loop_body (i bit prev_bit : Z) (s : bitmap_scan) : bitmap_scan :=
  if negb (bit =? 0) then
    let s1 :=
      if prev_bit =? 0 then
        let s0 := assign s (mk_point i 0) in
        mk_scan (scan_low s0) (scan_high s0) (scan_fingers s0 + 1) (scan_point s0)
      else s in
    assign s1 (mk_point (start_bit (deref s1)) (num_bits (deref s1) + 1))
  else
    if negb (prev_bit =? 0)
    then mk_scan (scan_low s) (scan_high s) (scan_fingers s) to_high
    else s.

(** [for (i = 0; map != 0; i++, map >>= 1)].  [map] is an [unsigned int], so
    the loop runs at most 32 times; [fuel] bounds the iterations. *)
Fixpoint bitmap_loop (fuel : nat) (i map prev_bit : Z) (s : bitmap_scan)
  : bitmap_scan :=
  match fuel with
  | O => s
  | S fuel' =>
      if map =? 0 then s
      else
        let bit := Z.land map 1 in
        bitmap_loop fuel' (i + 1) (Z.shiftr map 1) bit
          (bitmap_loop_body i bit prev_bit s)
  end.

Definition alps_get_bitmap_points (map : Z) (low high : alps_bitmap_point)
    (fingers : Z) : alps_bitmap_point * alps_bitmap_point * Z :=
  let s := bitmap_loop 32 0 map 0 (mk_scan low high fingers to_low) in
  (scan_low s, scan_high s, scan_fingers s).

(** Bit [i] starts a maximal run of set bits when it is set and bit [i - 1]
    is not; the number of maximal runs of a 32-bit word is the number of
    such positions. *)
Definition run_start (map : Z) (i : Z) : bool :=
  Z.testbit map i && negb (Z.testbit map (i - 1)).

Definition maximal_runs (map : Z) : Z :=
  Z.of_nat (length (filter (run_start map) (List.map Z.of_nat (seq 0 32)))).

(** The same count, taken bit by bit from the low end; [prev] is the bit
    below the word. *)
Fixpoint run_starts (n : nat) (map : Z) (prev : bool) : Z :=
  match n with
  | O => 0
  | S n' =>
      (if Z.odd map && negb prev then 1 else 0)
      + run_starts n' (Z.shiftr map 1) (Z.odd map)
  end.

(* ------------------------------------------------------------------------- *)
(** * Bitmap reconstruction: [processBitmap] *)

(** [struct alps_fields]; a field [f->name] is the projection [f_name]. *)
Record alps_fields : Type := mk_alps_fields {
  f_x_map : Z;
  f_y_map : Z;
  f_fingers : Z;
  f_x : Z;
  f_y : Z;
  f_z : Z;
  f_first_mp : bool;
  f_is_mp : bool;
  f_left : bool;
  f_right : bool;
  f_middle : bool;
  f_ts_left : bool;
  f_ts_right : bool;
  f_ts_middle : bool;
  f_x1 : Z;
  f_y1 : Z;
  f_x2 : Z;
  f_y2 : Z
}.

Definition set_f_z (v : Z) (f : alps_fields) : alps_fields :=
  mk_alps_fields (f_x_map f) (f_y_map f) (f_fingers f) (f_x f) (f_y f) v
    (f_first_mp f) (f_is_mp f) (f_left f) (f_right f) (f_middle f)
    (f_ts_left f) (f_ts_right f) (f_ts_middle f)
    (f_x1 f) (f_y1 f) (f_x2 f) (f_y2 f).

Definition set_f_mt (x1 y1 x2 y2 : Z) (f : alps_fields) : alps_fields :=
  mk_alps_fields (f_x_map f) (f_y_map f) (f_fingers f) (f_x f) (f_y f) (f_z f)
    (f_first_mp f) (f_is_mp f) (f_left f) (f_right f) (f_middle f)
    (f_ts_left f) (f_ts_right f) (f_ts_middle f) x1 y1 x2 y2.

(** The division of a single contact between the two points of an axis
    ([if (fingers_x == 1) { ... }], and the same for y). *)
Definition split_single_contact (fingers_axis : Z)
    (low high : alps_bitmap_point) : alps_bitmap_point * alps_bitmap_point :=
  if fingers_axis =? 1 then
    let i := Z.quot (num_bits low) 2 in
    let low' := mk_point (start_bit low) (num_bits low - i) in
    let high' := mk_point (start_bit low' + i) (Z.max i 1) in
    (low', high')
  else (low, high).

(** [max * (2 * start_bit + num_bits - 1) / (2 * (bits - 1))] *)
Definition corner_coord (max bits : Z) (p : alps_bitmap_point) : Z :=
  Z.quot (max * (2 * start_bit p + num_bits p - 1)) (2 * (bits - 1)).

(** The four bounding corners (top-left, top-right, bottom-right,
    bottom-left), after the per-version axis reversals. *)
Definition bitmap_corners (modelData : alps_data)
    (x_low x_high y_low y_high : alps_bitmap_point) : list (Z * Z) :=
  let cx := corner_coord (x_max modelData) (x_bits modelData) in
  let cy := corner_coord (y_max modelData) (y_bits modelData) in
  let corner :=
    [ (cx x_low, cy y_low); (cx x_high, cy y_low);
      (cx x_high, cy y_high); (cx x_low, cy y_high) ] in
  let corner :=
    if alps_proto_eqb (proto_version modelData) ALPS_PROTO_V5
    then List.map (fun c => (x_max modelData - fst c, snd c)) corner
    else corner in
  if alps_proto_eqb (proto_version modelData) ALPS_PROTO_V3
     || alps_proto_eqb (proto_version modelData) ALPS_PROTO_V4
  then List.map (fun c => (fst c, y_max modelData - snd c)) corner
  else corner.

Definition corner_at (corner : list (Z * Z)) (i : Z) : Z * Z :=
  nth (Z.to_nat i) corner (0, 0).

(** [dx * dx + dy * dy] for corner [i]. *)
Definition corner_distance (f : alps_fields) (corner : list (Z * Z)) (i : Z) : Z :=
  let dx := f_x f - fst (corner_at corner i) in
  let dy := f_y f - snd (corner_at corner i) in
  dx * dx + dy * dy.

(** One iteration of the search for the closest corner; the accumulator is
    ([modelData->second_touch], [closest]). *)
Definition closest_step (f : alps_fields) (corner : list (Z * Z))
    (acc : Z * Z) (i : Z) : Z * Z :=
  let distance := corner_distance f corner i in
  if distance <? snd acc then (i, distance) else acc.

Definition select_second_touch (f : alps_fields) (corner : list (Z * Z))
    (second_touch : Z) : Z :=
  if second_touch =? -1 then
    let closest := 0x7fffffff in
    let '(st, _) :=
      fold_left (closest_step f corner) [0; 1; 2; 3] (second_touch, closest) in
    Z.rem (st + 2) 4
  else second_touch.

(** The corners [processBitmap] computes from the two bitmap words. *)
Definition corners_of (modelData : alps_data) (x_map y_map : Z) : list (Z * Z) :=
  let '(x_low, x_high, fingers_x) :=
    alps_get_bitmap_points x_map (mk_point 0 0) (mk_point 0 0) 0 in
  let '(y_low, y_high, fingers_y) :=
    alps_get_bitmap_points y_map (mk_point 0 0) (mk_point 0 0) 0 in
  let '(x_low, x_high) := split_single_contact fingers_x x_low x_high in
  let '(y_low, y_high) := split_single_contact fingers_y y_low y_high in
  bitmap_corners modelData x_low x_high y_low y_high.

(** [processBitmap]: the return value, the updated [modelData] and the
    updated fields. *)
Definition processBitmap (modelData : alps_data) (f : alps_fields)
  : Z * alps_data * alps_fields :=
  if (f_x_map f =? 0) || (f_y_map f =? 0) then (0, modelData, f)
  else
    let '(x_low, x_high, fingers_x) :=
      alps_get_bitmap_points (f_x_map f) (mk_point 0 0) (mk_point 0 0) 0 in
    let '(y_low, y_high, fingers_y) :=
      alps_get_bitmap_points (f_y_map f) (mk_point 0 0) (mk_point 0 0) 0 in
    let fingers' := Z.max fingers_x fingers_y in
    let '(x_low, x_high) := split_single_contact fingers_x x_low x_high in
    let '(y_low, y_high) := split_single_contact fingers_y y_low y_high in
    let corner := bitmap_corners modelData x_low x_high y_low y_high in
    let st := select_second_touch f corner (second_touch modelData) in
    let modelData := set_second_touch st modelData in
    let f := set_f_mt (f_x f) (f_y f)
               (fst (corner_at corner st)) (snd (corner_at corner st)) f in
    (fingers', modelData, f).

(* ------------------------------------------------------------------------- *)
(** * Notions used to state the properties of the reconstruction *)

(** [a] lies between 0 and [A]. *)
Definition bounded (a A : Z) : Prop := 0 <= a <= A.

(** A point that lies within the bits below index [i]. *)
Definition point_below (i : Z) (p : alps_bitmap_point) : Prop :=
  0 <= start_bit p /\ 0 <= num_bits p /\ start_bit p + num_bits p <= i.

Definition scan_below (i : Z) (s : bitmap_scan) : Prop :=
  point_below i (scan_low s) /\ point_below i (scan_high s).

(** The ranges of the profile parameters that [setDefaults] and [identify]
    assign: maxima up to 2000, at least 11 bitmap bits per axis. *)
Definition profile_in_range (modelData : alps_data) : Prop :=
  0 <= x_max modelData <= 2000 /\ 0 <= y_max modelData <= 2000
  /\ 11 <= x_bits modelData /\ 11 <= y_bits modelData.

Definition corner_in_range (c : Z * Z) : Prop :=
  -6500 <= fst c <= 6500 /\ -6500 <= snd c <= 6500.

(** Corner [c] is a corner nearest to the single-touch coordinate of [f] by
    squared Euclidean distance. *)
Definition nearest_corner (f : alps_fields) (corner : list (Z * Z)) (c : Z) : Prop :=
  0 <= c <= 3
  /\ forall j, 0 <= j <= 3 ->
       corner_distance f corner c <= corner_distance f corner j.

(* ------------------------------------------------------------------------- *)
(** * Field decoding for the V3 and V5 protocols *)

(** [!!v] *)
Definition nonzero (v : Z) : bool := negb (v =? 0).

Definition decodeButtonsV3 (fields : alps_fields) (packet : list Z) : alps_fields :=
  let p := byte_at packet in
  mk_alps_fields (f_x_map fields) (f_y_map fields) (f_fingers fields)
    (f_x fields) (f_y fields) (f_z fields) (f_first_mp fields) (f_is_mp fields)
    (nonzero (Z.land (p 3%nat) 0x01))
    (nonzero (Z.land (p 3%nat) 0x02))
    (nonzero (Z.land (p 3%nat) 0x04))
    (nonzero (Z.land (p 3%nat) 0x10))
    (nonzero (Z.land (p 3%nat) 0x20))
    (nonzero (Z.land (p 3%nat) 0x40))
    (f_x1 fields) (f_y1 fields) (f_x2 fields) (f_y2 fields).

Definition set_f_mp (first_mp is_mp : bool) (f : alps_fields) : alps_fields :=
  mk_alps_fields (f_x_map f) (f_y_map f) (f_fingers f) (f_x f) (f_y f) (f_z f)
    first_mp is_mp (f_left f) (f_right f) (f_middle f)
    (f_ts_left f) (f_ts_right f) (f_ts_middle f)
    (f_x1 f) (f_y1 f) (f_x2 f) (f_y2 f).

Definition set_f_maps (fingers' x_map y_map : Z) (f : alps_fields) : alps_fields :=
  mk_alps_fields x_map y_map fingers' (f_x f) (f_y f) (f_z f)
    (f_first_mp f) (f_is_mp f) (f_left f) (f_right f) (f_middle f)
    (f_ts_left f) (f_ts_right f) (f_ts_middle f)
    (f_x1 f) (f_y1 f) (f_x2 f) (f_y2 f).

Definition set_f_xyz (x y z : Z) (f : alps_fields) : alps_fields :=
  mk_alps_fields (f_x_map f) (f_y_map f) (f_fingers f) x y z
    (f_first_mp f) (f_is_mp f) (f_left f) (f_right f) (f_middle f)
    (f_ts_left f) (f_ts_right f) (f_ts_middle f)
    (f_x1 f) (f_y1 f) (f_x2 f) (f_y2 f).

Definition decodePinnacle (f : alps_fields) (packet : list Z) : alps_fields :=
  let p := byte_at packet in
  let f := set_f_mp (nonzero (Z.land (p 4%nat) 0x40))
                    (nonzero (Z.land (p 0%nat) 0x40)) f in
  if f_is_mp f then
    set_f_maps
      (Z.land (p 5%nat) 0x3 + 1)
      (Z.lor (Z.lor (Z.shiftl (Z.land (p 4%nat) 0x7e) 8)
                    (Z.shiftl (Z.land (p 1%nat) 0x7f) 2))
             (Z.shiftr (Z.land (p 0%nat) 0x30) 4))
      (Z.lor (Z.lor (Z.shiftl (Z.land (p 3%nat) 0x70) 4)
                    (Z.shiftl (Z.land (p 2%nat) 0x7f) 1))
             (Z.land (p 4%nat) 0x01))
      f
  else
    let f :=
      set_f_xyz
        (Z.lor (Z.lor (Z.shiftl (Z.land (p 1%nat) 0x7f) 4)
                      (Z.shiftr (Z.land (p 4%nat) 0x30) 2))
               (Z.shiftr (Z.land (p 0%nat) 0x30) 4))
        (Z.lor (Z.shiftl (Z.land (p 2%nat) 0x7f) 4) (Z.land (p 4%nat) 0x0f))
        (Z.land (p 5%nat) 0x7f)
        f in
    decodeButtonsV3 f packet.

Definition decodeRushmore (f : alps_fields) (packet : list Z) : alps_fields :=
  let p := byte_at packet in
  let f := set_f_mp (nonzero (Z.land (p 4%nat) 0x40))
                    (nonzero (Z.land (p 5%nat) 0x40)) f in
  if f_is_mp f then
    set_f_maps
      (Z.max (Z.land (p 5%nat) 0x3) (Z.land (Z.shiftr (p 5%nat) 2) 0x3) + 1)
      (Z.lor (Z.lor (Z.lor (Z.shiftl (Z.land (p 5%nat) 0x10) 11)
                           (Z.shiftl (Z.land (p 4%nat) 0x7e) 8))
                    (Z.shiftl (Z.land (p 1%nat) 0x7f) 2))
             (Z.shiftr (Z.land (p 0%nat) 0x30) 4))
      (Z.lor (Z.lor (Z.lor (Z.shiftl (Z.land (p 5%nat) 0x20) 6)
                           (Z.shiftl (Z.land (p 3%nat) 0x70) 4))
                    (Z.shiftl (Z.land (p 2%nat) 0x7f) 1))
             (Z.land (p 4%nat) 0x01))
      f
  else
    let f :=
      set_f_xyz
        (Z.lor (Z.lor (Z.shiftl (Z.land (p 1%nat) 0x7f) 4)
                      (Z.shiftr (Z.land (p 4%nat) 0x30) 2))
               (Z.shiftr (Z.land (p 0%nat) 0x30) 4))
        (Z.lor (Z.shiftl (Z.land (p 2%nat) 0x7f) 4) (Z.land (p 4%nat) 0x0f))
        (Z.land (p 5%nat) 0x7f)
        f in
    decodeButtonsV3 f packet.

Definition decodeDolphin (f : alps_fields) (packet : list Z) : alps_fields :=
  let p := byte_at packet in
  let f := set_f_mp (nonzero (Z.land (p 0%nat) 0x02))
                    (nonzero (Z.land (p 0%nat) 0x20)) f in
  let f :=
    set_f_maps
      (Z.lor (Z.shiftr (Z.land (p 0%nat) 0x6) 1)
             (Z.shiftr (Z.land (p 0%nat) 0x10) 2))
      (Z.lor (Z.lor (Z.lor (Z.lor (Z.lor
         (Z.shiftr (Z.land (p 2%nat) 0x60) 5)
         (Z.shiftl (Z.land (p 4%nat) 0x7f) 2))
         (Z.shiftl (Z.land (p 5%nat) 0x7f) 9))
         (Z.shiftl (Z.land (p 3%nat) 0x07) 16))
         (Z.shiftl (Z.land (p 3%nat) 0x70) 15))
         (Z.shiftl (Z.land (p 0%nat) 0x01) 22))
      (Z.lor (Z.land (p 1%nat) 0x7f) (Z.shiftl (Z.land (p 2%nat) 0x1f) 7))
      f in
  let f :=
    set_f_xyz
      (Z.lor (Z.land (p 1%nat) 0x7f) (Z.shiftl (Z.land (p 4%nat) 0x0f) 7))
      (Z.lor (Z.land (p 2%nat) 0x7f) (Z.shiftl (Z.land (p 4%nat) 0xf0) 3))
      (if nonzero (Z.land (p 0%nat) 4) then 0 else Z.land (p 5%nat) 0x7f)
      f in
  decodeButtonsV3 f packet.

(** The member function pointer [decode_fields]. *)
Inductive decoder : Type := Pinnacle | Rushmore | Dolphin.

Definition decode_fields (d : decoder) : alps_fields -> list Z -> alps_fields :=
  match d with
  | Pinnacle => decodePinnacle
  | Rushmore => decodeRushmore
  | Dolphin => decodeDolphin
  end.

(* ------------------------------------------------------------------------- *)
(** * The touchpad object: members inherited from [VoodooPS2TouchPadBase] *)

Inductive touch_mode : Type :=
| MODE_NOTOUCH | MODE_PREDRAG | MODE_DRAGNOTOUCH
| MODE_MOVE | MODE_VSCROLL | MODE_HSCROLL | MODE_CSCROLL
| MODE_MTOUCH | MODE_DRAG | MODE_DRAGLOCK.

Definition touch_mode_eqb (a b : touch_mode) : bool :=
  match a, b with
  | MODE_NOTOUCH, MODE_NOTOUCH | MODE_PREDRAG, MODE_PREDRAG
  | MODE_DRAGNOTOUCH, MODE_DRAGNOTOUCH | MODE_MOVE, MODE_MOVE
  | MODE_VSCROLL, MODE_VSCROLL | MODE_HSCROLL, MODE_HSCROLL
  | MODE_CSCROLL, MODE_CSCROLL | MODE_MTOUCH, MODE_MTOUCH
  | MODE_DRAG, MODE_DRAG | MODE_DRAGLOCK, MODE_DRAGLOCK => true
  | _, _ => false
  end.

(** Modelled from the spec: [isTouchMode()] is declared in the base class
    header, which is not part of the sources.  The gesture states are
    NoTouch, Move, Drag, DragLock, DragNoTouch, PreDrag, MultiTouch, VScroll,
    HScroll and CornerScroll; a finger lift is detected "while previously in
    a touch state", the states without contact being NoTouch, PreDrag and
    DragNoTouch. *)
Definition isTouchMode (m : touch_mode) : bool :=
  match m with
  | MODE_NOTOUCH | MODE_PREDRAG | MODE_DRAGNOTOUCH => false
  | _ => true
  end.

Inductive MBComingFrom : Type := fromPassthru | fromTrackpad | fromCancel.

Inductive timer : Type := scrollTimer | dragTimer | buttonTimer.

Inductive ps2_message : Type :=
| kPS2M_swipeUp | kPS2M_swipeDown | kPS2M_swipeLeft | kPS2M_swipeRight
| kPS2M_swipe4Up | kPS2M_swipe4Down | kPS2M_swipe4Left | kPS2M_swipe4Right.

(** What the driver hands to the rest of the system, in program order. *)
Inductive Event : Type :=
| dispatchRelativePointerEventX (dx dy buttons now_abs : Z)
| dispatchScrollWheelEventX (deltaAxis1 deltaAxis2 deltaAxis3 now_abs : Z)
| dispatchKeyboardMessage (message : ps2_message) (now_abs : Z)
| setTimerTimeout (t : timer) (timeout : Z)
| cancelTimer (t : timer).

(** The integer and boolean members read or written by the code below; a
    boolean member holds 0 for false. *)
Inductive member : Type :=
| xupmm | yupmm | clickpadtype | passbuttons | last_fingers
| ignoredeltas | ignoredeltasstart | unsmoothinput | smoothinput
| lastx | lasty | outzone_wt | z_finger | keytime | maxaftertyping
| zonel | zoner | zoneb | zonet | ignoreall
| xrest | yrest | scrollrest
| inSwipeLeft | inSwipeRight | inSwipeUp | inSwipeDown
| inSwipe4Left | inSwipe4Right | inSwipe4Up | inSwipe4Down
| xmoved | ymoved | untouchtime | tracksecondary
| momentumscroll | momentumscrolltimer | momentumscrollsamplesmin
| momentumscrollinterval | momentumscrollsum | momentumscrollcurrent
| momentumscrollrest1 | momentumscrollrest2
| lastbuttons | lastx2 | lasty2.

Definition member_eq_dec (a b : member) : {a = b} + {a <> b}.
Proof. decide equality. Defined.

Definition members : Type := member -> Z.

Definition assign_member (m : members) (k : member) (v : Z) : members :=
  fun k' => if member_eq_dec k' k then v else m k'.

Definition assign_members (m : members) (ks : list member) (v : Z) : members :=
  fold_left (fun acc k => assign_member acc k v) ks m.

(** Modelled from the spec: the history class behind [dy_history] and
    [time_history] is declared in a header that is not part of the sources.
    It is "a bounded history of recent vertical deltas and their
    timestamps"; the samples are kept oldest first. *)
Definition history : Type := list Z.
Definition history_count (h : history) : Z := Z.of_nat (length h).
Definition history_sum (h : history) : Z := fold_right Z.add 0 h.
Definition history_newest (h : history) : Z := last h 0.
Definition history_oldest (h : history) : Z := hd 0 h.
Definition history_reset : history := [].

(** What the base class provides and the sources do not contain: the
    smoothing filters, the simulation of the middle button (which keeps a
    state of its own, reads the members, and may dispatch events and arm or
    cancel its timer) and the value of one quirk flag. *)
Class TouchPadBase : Type := {
  UndoFilter : Type;
  undo_filter : UndoFilter -> Z -> UndoFilter * Z;
  undo_reset : UndoFilter -> UndoFilter;
  AvgFilter : Type;
  avg_filter : AvgFilter -> Z -> AvgFilter * Z;
  avg_reset : AvgFilter -> AvgFilter;
  MiddleButton : Type;
  middleButton :
    members -> MiddleButton -> Z -> Z -> MBComingFrom ->
    MiddleButton * Z * list Event;
  OtherMembers : Type;
  ALPS_QUIRK_TRACKSTICK_BUTTONS : Z
}.

Record touchpad `{TouchPadBase} : Type := mk_touchpad {
  mem : members;
  touchmode : touch_mode;
  x_undo : UndoFilter;
  y_undo : UndoFilter;
  x_avg : AvgFilter;
  y_avg : AvgFilter;
  dy_history : history;
  time_history : history;
  mbutton : MiddleButton;
  other : OtherMembers
}.

Definition set_mem `{TouchPadBase} (v : members) (t : touchpad) : touchpad :=
  mk_touchpad _ v (touchmode t) (x_undo t) (y_undo t) (x_avg t) (y_avg t)
    (dy_history t) (time_history t) (mbutton t) (other t).

Definition set_filters `{TouchPadBase} (xu yu : UndoFilter) (xa ya : AvgFilter)
    (t : touchpad) : touchpad :=
  mk_touchpad _ (mem t) (touchmode t) xu yu xa ya
    (dy_history t) (time_history t) (mbutton t) (other t).

Definition set_histories `{TouchPadBase} (dy time : history) (t : touchpad)
  : touchpad :=
  mk_touchpad _ (mem t) (touchmode t) (x_undo t) (y_undo t) (x_avg t) (y_avg t)
    dy time (mbutton t) (other t).

Definition set_mbutton `{TouchPadBase} (v : MiddleButton) (t : touchpad)
  : touchpad :=
  mk_touchpad _ (mem t) (touchmode t) (x_undo t) (y_undo t) (x_avg t) (y_avg t)
    (dy_history t) (time_history t) v (other t).

(** [x_undo.reset(); y_undo.reset(); x_avg.reset(); y_avg.reset();] *)
Definition reset_filters `{TouchPadBase} (t : touchpad) : touchpad :=
  set_filters (undo_reset (x_undo t)) (undo_reset (y_undo t))
              (avg_reset (x_avg t)) (avg_reset (y_avg t)) t.

(** Subtraction of two [uint64_t] values. *)
Definition u64_sub (a b : Z) : Z := (a - b) mod 2 ^ 64.

(** The driver object: [modelData] and the inherited members. *)
Record driver `{TouchPadBase} : Type := mk_driver {
  modelData_of : alps_data;
  touchpad_of : touchpad
}.

(* ------------------------------------------------------------------------- *)
(** * Gesture processing: [dispatchEventsWithInfo] *)

Section Dispatch.
Context `{TouchPadBase}.

(** The part of [dispatchEventsWithInfo] that follows the reset of the two
    histories at a finger lift: tap resolution, the motion of each touch
    mode, the mode changes and the final pointer event.  Nothing below
    depends on what it does, so it is left open.  Its arguments are the
    driver object, whether control is inside the finger-lift block, and the
    locals [x], [y], [xraw], [yraw], [z], [fingers], [buttons], [now_abs]
    and [now_ns]. *)
Variable gestureTail :
  driver -> bool -> Z -> Z -> Z -> Z -> Z -> Z -> Z -> Z -> Z ->
  driver * list Event.

(** The finger-lift block up to the reset of the histories. *)
Definition fingerLifted (t : touchpad) (now_ns : Z) : touchpad * list Event :=
  let m := assign_members (mem t) [scrollrest; yrest; xrest] 0 in
  let m := assign_members m [inSwipeDown; inSwipeUp; inSwipeRight; inSwipeLeft] 0 in
  let m := assign_members m
             [inSwipe4Down; inSwipe4Up; inSwipe4Right; inSwipe4Left] 0 in
  let m := assign_members m [ymoved; xmoved] 0 in
  let m := assign_member m untouchtime now_ns in
  let m := assign_member m tracksecondary 0 in
  let '(m, ev) :=
    if touch_mode_eqb MODE_MTOUCH (touchmode t)
       && nonzero (m momentumscroll) && nonzero (m momentumscrolltimer)
    then
      if m momentumscrollsamplesmin <? history_count (dy_history t) then
        let m := assign_member m momentumscrollinterval
                   (u64_sub (history_newest (time_history t))
                            (history_oldest (time_history t))) in
        if nonzero (m momentumscrollinterval) then
          let m := assign_member m momentumscrollsum
                     (history_sum (dy_history t)) in
          let m := assign_member m momentumscrollcurrent
                     (m momentumscrolltimer * - m momentumscrollsum) in
          let m := assign_member m momentumscrollrest1 0 in
          let m := assign_member m momentumscrollrest2 0 in
          (m, [setTimerTimeout scrollTimer (m momentumscrolltimer)])
        else (m, [])
      else (m, [])
    else (m, []) in
  (set_histories history_reset history_reset (set_mem m t), ev).

(** The statements from the start of the function to the test of
    [ignoreall]: the updated object, the locals [x], [y], [xraw], [yraw]
    and [buttons], the events of the middle button simulation, and whether
    the touch is suppressed after typing. *)
Definition beforeIgnoreAll (t : touchpad)
    (xraw yraw z fingers' buttonsraw now_abs now_ns : Z)
  : touchpad * (Z * Z * Z * Z * Z) * list Event * bool :=
  let '(xraw, yraw) :=
    if mem t xupmm <? mem t yupmm
    then (Z.quot (xraw * mem t yupmm) (mem t xupmm), yraw)
    else if mem t yupmm <? mem t xupmm
    then (xraw, Z.quot (yraw * mem t xupmm) (mem t yupmm))
    else (xraw, yraw) in
  let x := xraw in
  let y := yraw in
  let buttons := buttonsraw in
  let t := set_mem (assign_member (mem t) lastbuttons buttons) t in
  let '(t, buttons, ev1) :=
    if (mem t clickpadtype =? 0) || (fingers' =? 3) then
      let '(mb, b, ev) :=
        middleButton (mem t) (mbutton t) buttons now_abs
          (if fingers' =? 3 then fromPassthru else fromTrackpad) in
      (set_mbutton mb t, b, ev)
    else (t, buttons, []) in
  let '(t, buttons, ev2) :=
    if (0 =? mem t last_fingers) && (0 <? fingers') then
      let '(mb, b, ev) :=
        middleButton (mem t) (mbutton t)
          (Z.lor buttonsraw (mem t passbuttons)) now_abs fromCancel in
      (set_mbutton mb t, b, ev)
    else (t, buttons, []) in
  let t :=
    if (0 <? mem t last_fingers) && (0 <? fingers')
       && negb (mem t last_fingers =? fingers')
    then set_mem (assign_member (mem t) ignoredeltas (mem t ignoredeltasstart)) t
    else t in
  let t :=
    if negb (mem t last_fingers =? fingers') then reset_filters t else t in
  let '(t, x, y) :=
    if nonzero (mem t unsmoothinput) then
      let '(xu, x) := undo_filter (x_undo t) x in
      let '(yu, y) := undo_filter (y_undo t) y in
      (set_filters xu yu (x_avg t) (y_avg t) t, x, y)
    else (t, x, y) in
  let '(t, x, y) :=
    if nonzero (mem t smoothinput) then
      let '(xa, x) := avg_filter (x_avg t) x in
      let '(ya, y) := avg_filter (y_avg t) y in
      (set_filters (x_undo t) (y_undo t) xa ya t, x, y)
    else (t, x, y) in
  let t :=
    if nonzero (mem t ignoredeltas) then
      let t := set_mem (assign_member (mem t) lastx x) t in
      let t := set_mem (assign_member (mem t) lasty y) t in
      let t := set_mem (assign_member (mem t) ignoredeltas
                          (mem t ignoredeltas - 1)) t in
      if mem t ignoredeltas =? 0 then reset_filters t else t
    else t in
  let after_typing :=
    nonzero (mem t outzone_wt) && (mem t z_finger <? z)
    && (u64_sub now_ns (mem t keytime) <? mem t maxaftertyping)
    && ((x <? mem t zonel) || (mem t zoner <? x)
        || (y <? mem t zoneb) || (mem t zonet <? y)) in
  (t, (x, y, xraw, yraw, buttons), ev1 ++ ev2, after_typing).

Definition dispatchEventsWithInfo (d : driver)
    (xraw yraw z fingers' buttonsraw now_abs now_ns : Z) : driver * list Event :=
  let '(t, (x, y, xraw, yraw, buttons), ev, after_typing) :=
    beforeIgnoreAll (touchpad_of d) xraw yraw z fingers' buttonsraw
      now_abs now_ns in
  if after_typing then (mk_driver _ (modelData_of d) t, ev)
  else if nonzero (mem t ignoreall) then (mk_driver _ (modelData_of d) t, ev)
  else if (z <? mem t z_finger) && isTouchMode (touchmode t) then
    let '(t, ev_lift) := fingerLifted t now_ns in
    let '(d', ev_tail) :=
      gestureTail (mk_driver _ (modelData_of d) t) true
        x y xraw yraw z fingers' buttons now_abs now_ns in
    (d', ev ++ ev_lift ++ ev_tail)
  else
    let '(d', ev_tail) :=
      gestureTail (mk_driver _ (modelData_of d) t) false
        x y xraw yraw z fingers' buttons now_abs now_ns in
    (d', ev ++ ev_tail).

(* ------------------------------------------------------------------------- *)
(** * V3 packets *)

(** [(SInt8) v] for a byte value [v]. *)
Definition SInt8 (v : Z) : Z := if 128 <=? v then v - 256 else v.

(** The [abs] macro. *)
Definition abs_macro (v : Z) : Z := if v <? 0 then - v else v.

(** The motion a trackstick packet holds once the sign of y is reversed and
    a packet that is large on both axes is removed. *)
Definition trackstick_motion (packet : list Z) : Z * Z :=
  let p := byte_at packet in
  let x := SInt8 (Z.lor (Z.shiftl (Z.land (p 0%nat) 0x20) 2)
                        (Z.land (p 1%nat) 0x7f)) in
  let y := SInt8 (Z.lor (Z.shiftl (Z.land (p 0%nat) 0x10) 3)
                        (Z.land (p 2%nat) 0x7f)) in
  let y := - y in
  if (0x7f <=? abs_macro x) && (0x7f <=? abs_macro y) then (0, 0) else (x, y).

Definition processTrackstickPacketV3 (d : driver) (packet : list Z) (now_abs : Z)
  : driver * list Event :=
  let p := byte_at packet in
  if Z.land (p 0%nat) 0x40 =? 0 then (d, [])
  else if (p 1%nat =? 0x7f) && (p 2%nat =? 0x7f) && (p 3%nat =? 0x7f)
  then (d, [])
  else
    let '(x, y) := trackstick_motion packet in
    let left := Z.land (p 3%nat) 0x01 in
    let right := Z.land (p 3%nat) 0x02 in
    let middle := Z.land (p 3%nat) 0x04 in
    let md := modelData_of d in
    let md :=
      if (Z.land (quirks md) ALPS_QUIRK_TRACKSTICK_BUTTONS =? 0)
         && (nonzero left || nonzero middle || nonzero right)
      then set_quirks (Z.lor (quirks md) ALPS_QUIRK_TRACKSTICK_BUTTONS) md
      else md in
    let raw_buttons := 0 in
    let raw_buttons := Z.lor raw_buttons (if nonzero left then 0x01 else 0) in
    let raw_buttons := Z.lor raw_buttons (if nonzero right then 0x02 else 0) in
    let raw_buttons := Z.lor raw_buttons (if nonzero middle then 0x04 else 0) in
    let t := touchpad_of d in
    let '(buttons, m) :=
      if 0 =? raw_buttons then (mem t lastbuttons, mem t)
      else (raw_buttons, assign_member (mem t) lastbuttons raw_buttons) in
    let m := assign_member m lastx2 x in
    let m := assign_member m lasty2 y in
    let m := assign_member m ignoreall 0 in
    let m := if negb (0 =? x) || negb (0 =? y)
             then assign_member m ignoreall 1 else m in
    let d := mk_driver _ md (set_mem m t) in
    if ((0 =? x) && (0 =? y)) || (0 =? Z.land buttons 0x04) then
      let y := y + Z.shiftr y 1 in
      let x := x + Z.shiftr x 1 in
      (d, [dispatchRelativePointerEventX x y buttons now_abs])
    else
      let y := - y in
      let x := - x in
      (d, [dispatchScrollWheelEventX y x 0 now_abs]).

(** [processTouchpadPacketV3] up to its call of [dispatchEventsWithInfo]:
    the updated [modelData] and the arguments [(x, y, z, fingers, buttons)]
    of that call, if it is reached.  [f0] is the uninitialised local [f]. *)
Definition touchpadPacketV3_fields (decode : decoder) (modelData : alps_data)
    (f0 : alps_fields) (packet : list Z)
  : alps_data * option (Z * Z * Z * Z * Z) :=
  let fingers' := 0 in
  let buttons := 0 in
  let f := decode_fields decode f0 packet in
  if 2 <? multi_packet modelData then (modelData, None)
  else
    let '(modelData, f, fingers') :=
      if nonzero (multi_packet modelData) then
        if f_is_mp f then
          let fingers' := f_fingers f in
          let f := decode_fields decode f (multi_data modelData) in
          let '(_, modelData, f) := processBitmap modelData f in
          let f := if fingers' =? 1 then set_f_z 0 f else f in
          (modelData, f, fingers')
        else (set_multi_packet 0 modelData, f, fingers')
      else (modelData, f, fingers') in
    if f_is_mp f then (modelData, None)
    else if (multi_packet modelData =? 0) && f_first_mp f then
      (set_multi_data (firstn 6 packet) (set_multi_packet 1 modelData), None)
    else
      let modelData := set_multi_packet 0 modelData in
      let '(modelData, f, fingers') :=
        if fingers' <? 2 then
          (set_second_touch (-1) modelData,
           set_f_mt (f_x f) (f_y f) (f_x2 f) (f_y2 f) f,
           if 0 <? f_z f then 1 else 0)
        else (modelData, f, fingers') in
      let buttons := Z.lor buttons (if f_left f then 0x01 else 0) in
      let buttons := Z.lor buttons (if f_right f then 0x02 else 0) in
      let buttons := Z.lor buttons (if f_middle f then 0x04 else 0) in
      let buttons :=
        if Z.land (quirks modelData) ALPS_QUIRK_TRACKSTICK_BUTTONS =? 0 then
          let buttons := Z.lor buttons (if f_ts_left f then 0x01 else 0) in
          let buttons := Z.lor buttons (if f_ts_right f then 0x02 else 0) in
          Z.lor buttons (if f_ts_middle f then 0x04 else 0)
        else buttons in
      let f := set_f_mt (f_x1 f * 3) (f_y1 f * 3) (f_x2 f) (f_y2 f) f in
      (modelData, Some (f_x1 f, f_y1 f, f_z f, fingers', buttons)).

Definition processTouchpadPacketV3 (decode : decoder) (d : driver)
    (f0 : alps_fields) (packet : list Z) (now_abs now_ns : Z)
  : driver * list Event :=
  match touchpadPacketV3_fields decode (modelData_of d) f0 packet with
  | (md, None) => (mk_driver _ md (touchpad_of d), [])
  | (md, Some (x, y, z, fingers', buttons)) =>
      dispatchEventsWithInfo (mk_driver _ md (touchpad_of d))
        x y z fingers' buttons now_abs now_ns
  end.

Definition processPacketV3 (decode : decoder) (d : driver)
    (f0 : alps_fields) (packet : list Z) (now_abs now_ns : Z)
  : driver * list Event :=
  if byte_at packet 5 =? 0x3f
  then processTrackstickPacketV3 d packet now_abs
  else processTouchpadPacketV3 decode d f0 packet now_abs now_ns.

(* ------------------------------------------------------------------------- *)
(** * V4 packets *)

(** The bitmap words [processPacketV4] assembles from [multi_data] after the
    third fragment. *)
Definition v4_x_bitmap (multi_data : list Z) : Z :=
  let md := byte_at multi_data in
  Z.lor (Z.lor (Z.lor (Z.shiftl (Z.land (md 2%nat) 0x1f) 10)
                      (Z.shiftl (Z.land (md 3%nat) 0x60) 3))
               (Z.shiftl (Z.land (md 0%nat) 0x3f) 2))
        (Z.shiftr (Z.land (md 1%nat) 0x60) 5).

Definition v4_y_bitmap (multi_data : list Z) : Z :=
  let md := byte_at multi_data in
  Z.lor (Z.lor (Z.shiftl (Z.land (md 5%nat) 0x01) 10)
               (Z.shiftl (Z.land (md 3%nat) 0x1f) 5))
        (Z.land (md 1%nat) 0x1f).

(** [processPacketV4] up to its call of [dispatchEventsWithInfo]: the updated
    [modelData] and the arguments of the call, if it is reached.  The locals
    [x_bitmap] and [y_bitmap] are computed and not used: the call of
    [processBitmap] that would consume them is commented out in the source,
    and the local [fingers] still holds 0 when it is stored. *)
Definition packetV4_fields (modelData : alps_data) (packet : list Z)
  : alps_data * option (Z * Z * Z * Z * Z) :=
  let p := byte_at packet in
  let fingers' := 0 in
  let buttons := 0 in
  let modelData :=
    if nonzero (Z.land (p 6%nat) 0x40)
    then set_multi_packet 0 modelData else modelData in
  if 2 <? multi_packet modelData then (modelData, None)
  else
    let offset := 2 * multi_packet modelData in
    let modelData :=
      set_multi_data
        (array_set (multi_data modelData) (Z.to_nat offset) (p 6%nat))
        modelData in
    let modelData :=
      set_multi_data
        (array_set (multi_data modelData) (Z.to_nat (offset + 1)) (p 7%nat))
        modelData in
    let modelData := set_multi_packet (multi_packet modelData + 1) modelData in
    let modelData :=
      if 2 <? multi_packet modelData then
        let modelData := set_multi_packet 0 modelData in
        let x_bitmap := v4_x_bitmap (multi_data modelData) in
        let y_bitmap := v4_y_bitmap (multi_data modelData) in
        set_fingers fingers' modelData
      else modelData in
    let left := Z.land (p 4%nat) 0x01 in
    let right := Z.land (p 4%nat) 0x02 in
    let x := Z.lor (Z.lor (Z.shiftl (Z.land (p 1%nat) 0x7f) 4)
                          (Z.shiftr (Z.land (p 3%nat) 0x30) 2))
                   (Z.shiftr (Z.land (p 0%nat) 0x30) 4) in
    let y := Z.lor (Z.shiftl (Z.land (p 2%nat) 0x7f) 4)
                   (Z.land (p 3%nat) 0x0f) in
    let z := Z.land (p 5%nat) 0x7f in
    let fingers' :=
      if fingers modelData <? 2 then (if 0 <? z then 1 else 0)
      else fingers modelData in
    let buttons := Z.lor buttons (if nonzero left then 0x01 else 0) in
    let buttons := Z.lor buttons (if nonzero right then 0x02 else 0) in
    (modelData, Some (x, y, z, fingers', buttons)).

Definition processPacketV4 (d : driver) (packet : list Z) (now_abs now_ns : Z)
  : driver * list Event :=
  match packetV4_fields (modelData_of d) packet with
  | (md, None) => (mk_driver _ md (touchpad_of d), [])
  | (md, Some (x, y, z, fingers', buttons)) =>
      dispatchEventsWithInfo (mk_driver _ md (touchpad_of d))
        x y z fingers' buttons now_abs now_ns
  end.

End Dispatch.

(* ------------------------------------------------------------------------- *)
(** * Identification and initialisation *)

Definition ALPS_DUALPOINT : Z := 0x02.
Definition ALPS_PASS : Z := 0x04.
Definition ALPS_WHEEL : Z := 0x08.
Definition ALPS_FW_BK_1 : Z := 0x10.
Definition ALPS_FW_BK_2 : Z := 0x20.
Definition ALPS_FOUR_BUTTONS : Z := 0x40.
Definition ALPS_PS2_INTERLEAVED : Z := 0x80.

Definition ALPS_REG_BASE_RUSHMORE : Z := 0xc2c0.
Definition ALPS_REG_BASE_PINNACLE : Z := 0x0000.

(** [ALPSStatus_t]: the three bytes of a report. *)
Definition ALPSStatus_t : Type := (Z * Z * Z)%type.
Definition bytes0 (r : ALPSStatus_t) : Z := fst (fst r).
Definition bytes1 (r : ALPSStatus_t) : Z := snd (fst r).
Definition bytes2 (r : ALPSStatus_t) : Z := snd r.

Record alps_model_info : Type := mk_model {
  signature : ALPSStatus_t;
  command_mode_resp : Z;
  model_proto_version : alps_proto;
  model_byte0 : Z;
  model_mask0 : Z;
  model_flags : Z
}.

Definition alps_model_data : list alps_model_info :=
  [ mk_model (0x32, 0x02, 0x14) 0x00 ALPS_PROTO_V2 0xf8 0xf8
      (Z.lor ALPS_PASS ALPS_DUALPOINT);
    mk_model (0x33, 0x02, 0x0a) 0x00 ALPS_PROTO_V1 0x88 0xf8 0;
    mk_model (0x53, 0x02, 0x0a) 0x00 ALPS_PROTO_V2 0xf8 0xf8 0;
    mk_model (0x53, 0x02, 0x14) 0x00 ALPS_PROTO_V2 0xf8 0xf8 0;
    mk_model (0x60, 0x03, 0xc8) 0x00 ALPS_PROTO_V2 0xf8 0xf8 0;
    mk_model (0x63, 0x02, 0x0a) 0x00 ALPS_PROTO_V2 0xf8 0xf8 0;
    mk_model (0x63, 0x02, 0x14) 0x00 ALPS_PROTO_V2 0xf8 0xf8 0;
    mk_model (0x63, 0x02, 0x28) 0x00 ALPS_PROTO_V2 0xf8 0xf8 ALPS_FW_BK_2;
    mk_model (0x63, 0x02, 0x3c) 0x00 ALPS_PROTO_V2 0x8f 0x8f ALPS_WHEEL;
    mk_model (0x63, 0x02, 0x50) 0x00 ALPS_PROTO_V2 0xef 0xef ALPS_FW_BK_1;
    mk_model (0x63, 0x02, 0x64) 0x00 ALPS_PROTO_V2 0xf8 0xf8 0;
    mk_model (0x63, 0x03, 0xc8) 0x00 ALPS_PROTO_V2 0xf8 0xf8
      (Z.lor ALPS_PASS ALPS_DUALPOINT);
    mk_model (0x73, 0x00, 0x0a) 0x00 ALPS_PROTO_V2 0xf8 0xf8 ALPS_DUALPOINT;
    mk_model (0x73, 0x02, 0x0a) 0x00 ALPS_PROTO_V2 0xf8 0xf8 0;
    mk_model (0x73, 0x02, 0x14) 0x00 ALPS_PROTO_V2 0xf8 0xf8 ALPS_FW_BK_2;
    mk_model (0x20, 0x02, 0x0e) 0x00 ALPS_PROTO_V2 0xf8 0xf8
      (Z.lor ALPS_PASS ALPS_DUALPOINT);
    mk_model (0x22, 0x02, 0x0a) 0x00 ALPS_PROTO_V2 0xf8 0xf8
      (Z.lor ALPS_PASS ALPS_DUALPOINT);
    mk_model (0x22, 0x02, 0x14) 0x00 ALPS_PROTO_V2 0xff 0xff
      (Z.lor ALPS_PASS ALPS_DUALPOINT);
    mk_model (0x62, 0x02, 0x14) 0x00 ALPS_PROTO_V2 0xcf 0xcf
      (Z.lor (Z.lor ALPS_PASS ALPS_DUALPOINT) ALPS_PS2_INTERLEAVED);
    mk_model (0x73, 0x02, 0x50) 0x00 ALPS_PROTO_V2 0xcf 0xcf ALPS_FOUR_BUTTONS;
    mk_model (0x52, 0x01, 0x14) 0x00 ALPS_PROTO_V2 0xff 0xff
      (Z.lor (Z.lor ALPS_PASS ALPS_DUALPOINT) ALPS_PS2_INTERLEAVED);
    mk_model (0x73, 0x02, 0x64) 0x8a ALPS_PROTO_V4 0x8f 0x8f 0 ].

(** The member function pointers selected with the profile. *)
Inductive hw_init_fn : Type :=
| hwInitV1V2 | hwInitV3 | hwInitRushmoreV3 | hwInitV4 | hwInitDolphinV1.

Inductive process_packet_fn : Type :=
| ptr_processPacketV1V2 | ptr_processPacketV3 | ptr_processPacketV4.

(** The profile: [modelData] and the three pointers (unset before
    identification). *)
Record profile : Type := mk_profile {
  modelData : alps_data;
  hw_init : option hw_init_fn;
  process_packet : option process_packet_fn;
  decode_fields_ptr : option decoder
}.

Definition set_profile_defaults (proto : alps_proto) (b0 m0 fl xm ym xb yb : Z)
    (nc : nibble_table) (ac : Z) (m : alps_data) : alps_data :=
  mk_alps_data proto b0 m0 fl xm ym xb yb (pktsize m) (multi_packet m)
    (multi_data m) (second_touch m) (fingers m) (quirks m) (prev_fin m)
    (lastz m) nc ac.

(** The return values of [identify], [probeTrackstickV3] and the like. *)
Inductive IOReturn : Type :=
| kIOReturnSuccess | kIOReturnIOError | kIOReturnInvalid | kIOReturnNoDevice.

Inductive PS2CommandKind : Type :=
| kPS2C_SendMouseCommandAndCompareAck | kPS2C_ReadDataPort.

Record PS2Command : Type := mk_command {
  command : PS2CommandKind;
  inOrOut : Z
}.

(** The PS/2 port the driver talks to, which the sources use and do not
    define: the state of the device, the blocking request (which returns the
    commands with the bytes read filled in, and the number of commands
    completed) and the command bytes.  Two parts of initialisation that only
    exchange register commands with the device are kept abstract as well:
    [probeTrackstickV3], which reads the command tables of [modelData], and
    the functions behind [hw_init], whose only write to [modelData] is to
    its [flags] ([run_hw_init] returns the success flag and the new value
    of [flags]). *)
Class PS2Port : Type := {
  Device : Type;
  submitRequestAndBlock :
    Device -> list PS2Command -> Device * list PS2Command * Z;
  kDP_SetMouseResolution : Z;
  kDP_SetMouseScaling1To1 : Z;
  kDP_SetMouseScaling2To1 : Z;
  kDP_GetMouseInformation : Z;
  kDP_SetMouseStreamMode : Z;
  kDP_MouseResetWrap : Z;
  kDP_SetDefaultsAndDisable : Z;
  kDP_Reset : Z;
  kSC_Reset : Z;
  kSC_ID : Z;
  probeTrackstickV3 : Z -> alps_data -> Device -> IOReturn * Device;
  run_hw_init : hw_init_fn -> alps_data -> Device -> bool * Z * Device
}.

Section Identification.
Context `{PS2Port}.

Definition setDefaults (s : profile) : profile :=
  let m := modelData s in
  match proto_version m with
  | ALPS_PROTO_V1 | ALPS_PROTO_V2 =>
      mk_profile
        (set_profile_defaults (proto_version m) 0x8f 0x8f ALPS_DUALPOINT
           1100 800 15 11 (nibble_commands m) (addr_command m) m)
        (Some hwInitV1V2) (Some ptr_processPacketV1V2) (decode_fields_ptr s)
  | ALPS_PROTO_V3 =>
      mk_profile
        (set_profile_defaults (proto_version m) 0x8f 0x8f ALPS_DUALPOINT
           2000 1400 15 11 alps_v3_nibble_commands kDP_MouseResetWrap m)
        (Some hwInitV3) (Some ptr_processPacketV3) (Some Pinnacle)
  | ALPS_PROTO_V4 =>
      mk_profile
        (set_profile_defaults (proto_version m) 0x8f 0x8f ALPS_DUALPOINT
           2000 1400 15 11 alps_v4_nibble_commands kDP_SetDefaultsAndDisable m)
        (Some hwInitV4) (Some ptr_processPacketV4) (decode_fields_ptr s)
  | ALPS_PROTO_V5 =>
      mk_profile
        (set_profile_defaults (proto_version m) 0xc8 0xc8 0
           1360 660 23 12 alps_v3_nibble_commands kDP_MouseResetWrap m)
        (Some hwInitDolphinV1) (Some ptr_processPacketV3) (Some Dolphin)
  end.

Definition set_proto_version (v : alps_proto) (s : profile) : profile :=
  let m := modelData s in
  mk_profile
    (set_profile_defaults v (byte0 m) (mask0 m) (flags m) (x_max m) (y_max m)
       (x_bits m) (y_bits m) (nibble_commands m) (addr_command m) m)
    (hw_init s) (process_packet s) (decode_fields_ptr s).

Definition set_modelData (m : alps_data) (s : profile) : profile :=
  mk_profile m (hw_init s) (process_packet s) (decode_fields_ptr s).

(** [!memcmp(e7->bytes, model->signature, sizeof(model->signature))] *)
Definition signature_eqb (a b : ALPSStatus_t) : bool :=
  (bytes0 a =? bytes0 b) && (bytes1 a =? bytes1 b) && (bytes2 a =? bytes2 b).

Fixpoint matchTable_from (models : list alps_model_info)
    (e7 ec : ALPSStatus_t) (s : profile) : bool * profile :=
  match models with
  | [] => (false, s)
  | model :: rest =>
      if signature_eqb e7 (signature model)
         && ((command_mode_resp model =? 0)
             || (command_mode_resp model =? bytes2 ec))
      then
        let s := set_proto_version (model_proto_version model) s in
        let s := setDefaults s in
        let m := modelData s in
        let m :=
          set_profile_defaults (proto_version m) (model_byte0 model)
            (model_mask0 model) (model_flags model) (x_max m) (y_max m)
            (x_bits m) (y_bits m) (nibble_commands m) (addr_command m) m in
        (true, set_modelData m s)
      else matchTable_from rest e7 ec s
  end.

Definition matchTable (e7 ec : ALPSStatus_t) (s : profile) : bool * profile :=
  matchTable_from alps_model_data e7 ec s.

Definition send (v : Z) : PS2Command :=
  mk_command kPS2C_SendMouseCommandAndCompareAck v.

Definition read_port : PS2Command := mk_command kPS2C_ReadDataPort 0.

Definition repeatCmd (init_command init_arg repeated_command : Z) (dev : Device)
  : bool * ALPSStatus_t * Device :=
  let request :=
    (if nonzero init_command
     then [send kDP_SetMouseResolution; send init_arg] else [])
    ++ [send repeated_command; send repeated_command; send repeated_command]
    ++ [send kDP_GetMouseInformation] in
  let byte0' := length request in
  let request := request ++ [read_port; read_port; read_port] in
  let cmd := Z.of_nat (length request) in
  let '(dev, commands, commandsCount) := submitRequestAndBlock dev request in
  let at_ i := inOrOut (nth i commands read_port) in
  (commandsCount =? cmd,
   (at_ byte0', at_ (S byte0'), at_ (S (S byte0'))),
   dev).

Definition exitCommandMode (dev : Device) : bool * Device :=
  let '(dev, _, _) := submitRequestAndBlock dev [send kDP_SetMouseStreamMode] in
  (true, dev).

Definition resetMouse (dev : Device) : bool * Device :=
  let '(dev, commands, _) :=
    submitRequestAndBlock dev [send kDP_Reset; read_port; read_port] in
  let at_ i := inOrOut (nth i commands read_port) in
  if negb (at_ 1%nat =? kSC_Reset) && negb (at_ 2%nat =? kSC_ID)
  then (false, dev) else (true, dev).

(** The test applied to the E6 report: true when the report is accepted. *)
Definition e6_accepted (e6 : ALPSStatus_t) : bool :=
  negb (negb (Z.land (bytes0 e6) 0xf8 =? 0)
        || negb (bytes1 e6 =? 0)
        || (negb (bytes2 e6 =? 10) && negb (bytes2 e6 =? 100))).

Definition identify (s : profile) (dev : Device) : IOReturn * profile * Device :=
  let '(ok, e6, dev) :=
    repeatCmd kDP_SetMouseResolution 0 kDP_SetMouseScaling1To1 dev in
  if negb ok then (kIOReturnIOError, s, dev)
  else if negb (e6_accepted e6) then (kIOReturnInvalid, s, dev)
  else
    let '(ok, e7, dev) :=
      repeatCmd kDP_SetMouseResolution 0 kDP_SetMouseScaling2To1 dev in
    if negb ok then (kIOReturnIOError, s, dev)
    else
      let '(ok, ec, dev) :=
        repeatCmd kDP_SetMouseResolution 0 kDP_MouseResetWrap dev in
      if negb ok then (kIOReturnIOError, s, dev)
      else
        let '(ok, dev) := exitCommandMode dev in
        if negb ok then (kIOReturnIOError, s, dev)
        else
          let '(matched, s') := matchTable e7 ec s in
          if matched then (kIOReturnSuccess, s', dev)
          else if (bytes0 e7 =? 0x73) && (bytes1 e7 =? 0x03)
                  && (bytes2 e7 =? 0x50) && (bytes0 ec =? 0x73)
                  && ((bytes1 ec =? 0x01) || (bytes1 ec =? 0x02))
          then
            (kIOReturnSuccess, setDefaults (set_proto_version ALPS_PROTO_V5 s),
             dev)
          else if (bytes0 ec =? 0x88) && (bytes1 ec =? 0x08) then
            let s := setDefaults (set_proto_version ALPS_PROTO_V3 s) in
            let m := modelData s in
            let m :=
              set_profile_defaults (proto_version m) (byte0 m) (mask0 m)
                (flags m) (x_max m) (y_max m) 16 12
                (nibble_commands m) (addr_command m) m in
            let '(r, dev) := probeTrackstickV3 ALPS_REG_BASE_RUSHMORE m dev in
            let m :=
              match r with
              | kIOReturnSuccess => m
              | _ => set_flags (Z.land (flags m) (Z.lnot ALPS_DUALPOINT)) m
              end in
            (kIOReturnSuccess,
             mk_profile m (Some hwInitRushmoreV3) (process_packet s)
               (Some Rushmore),
             dev)
          else if (bytes0 ec =? 0x88) && (bytes1 ec =? 0x07)
                  && (0x90 <=? bytes2 ec) && (bytes2 ec <=? 0x9d)
          then
            (kIOReturnSuccess, setDefaults (set_proto_version ALPS_PROTO_V3 s),
             dev)
          else (kIOReturnInvalid, s, dev).

Definition deviceSpecificInit (s : profile) (dev : Device)
  : bool * profile * Device :=
  let '(_, dev) := resetMouse dev in
  let '(r, s, dev) := identify s dev in
  match r with
  | kIOReturnSuccess =>
      let m := modelData s in
      let m :=
        set_pktsize
          (if alps_proto_eqb (proto_version m) ALPS_PROTO_V4 then 8 else 6) m in
      let s := set_modelData m s in
      match hw_init s with
      | Some h =>
          let '(ok, fl, dev) := run_hw_init h m dev in
          let s := set_modelData (set_flags fl m) s in
          if ok then (true, s, dev)
          else let '(_, dev) := resetMouse dev in (false, s, dev)
      | None => let '(_, dev) := resetMouse dev in (false, s, dev)
      end
  | _ => let '(_, dev) := resetMouse dev in (false, s, dev)
  end.

End Identification.

(* ------------------------------------------------------------------------- *)
(** * Notions used to state the properties of gesture processing *)

Section DispatchNotions.
Context `{TouchPadBase}.

(** What the statements before the test of [ignoreall] leave alone. *)
Definition kept_before_ignoreall (t t' : touchpad) : Prop :=
  touchmode t' = touchmode t
  /\ dy_history t' = dy_history t
  /\ time_history t' = time_history t
  /\ other t' = other t
  /\ forall k, k <> lastbuttons -> k <> ignoredeltas -> k <> lastx ->
               k <> lasty -> mem t' k = mem t k.

(** An event that a call of [middleButton] dispatched. *)
Definition from_middleButton (now_abs : Z) (e : Event) : Prop :=
  exists m mb buttons from,
    In e (snd (middleButton m mb buttons now_abs from)).

End DispatchNotions.

(* ------------------------------------------------------------------------- *)
(** * Concrete objects, packets and devices *)

(** A base class whose filters pass values through and whose middle button
    simulation returns the buttons it is given. *)
Definition plain_base : TouchPadBase := {|
  UndoFilter := unit;
  undo_filter := fun u v => (u, v);
  undo_reset := fun u => u;
  AvgFilter := unit;
  avg_filter := fun a v => (a, v);
  avg_reset := fun a => a;
  MiddleButton := unit;
  middleButton := fun _ mb buttons _ _ => (mb, buttons, []);
  OtherMembers := unit;
  ALPS_QUIRK_TRACKSTICK_BUTTONS := 1
|}.

(** A remainder of [dispatchEventsWithInfo] that does nothing. *)
Definition no_tail (d : @driver plain_base) (lifted : bool)
    (x y xraw yraw z fingers' buttons now_abs now_ns : Z)
  : @driver plain_base * list Event := (d, []).

(** The profile of a Pinnacle (V3) touchpad with no corner selected. *)
Definition pinnacle_data : alps_data :=
  mk_alps_data ALPS_PROTO_V3 0x8f 0x8f ALPS_DUALPOINT 2000 1400 15 11 6 0
    [0; 0; 0; 0; 0; 0] (-1) 0 0 0 0 alps_v3_nibble_commands 0xec.

(** The profile of the V4 touchpad of the model table. *)
Definition v4_data : alps_data :=
  mk_alps_data ALPS_PROTO_V4 0x8f 0x8f 0 2000 1400 15 11 8 0
    [0; 0; 0; 0; 0; 0] 0 0 0 0 0 alps_v4_nibble_commands 0xf5.

Definition uninitialised_fields : alps_fields :=
  mk_alps_fields 0 0 0 0 0 0 false false false false false false false false
    0 0 0 0.

(** A position packet at (512, 256) that announces a bitmap packet, a bitmap
    packet for two fingers (x bitmap 0b10100, y bitmap 0b110), the same with
    an empty x bitmap, and a position packet that announces nothing. *)
Definition position_packet : list Z := [0x8f; 0x20; 0x10; 0x00; 0x40; 0x28].
Definition bitmap_packet : list Z := [0xcf; 0x05; 0x03; 0x00; 0x00; 0x01].
Definition empty_x_bitmap_packet : list Z := [0xcf; 0x00; 0x03; 0x00; 0x00; 0x01].
Definition single_touch_packet : list Z := [0x8f; 0x20; 0x10; 0x00; 0x00; 0x28].

(** [pinnacle_data] after [position_packet] was stored, and the same with
    corner 0 selected. *)
Definition pinnacle_waiting : alps_data :=
  set_multi_data position_packet (set_multi_packet 1 pinnacle_data).

Definition pinnacle_selected : alps_data :=
  set_second_touch 0 pinnacle_waiting.

(** Three V4 packets with pressure 64 whose bytes 6 and 7 carry the bitmap
    fragments of two contacts on the x axis (x bitmap 0b10100, y bitmap 1). *)
Definition v4_fragment_1 : list Z := [0x8f; 0; 0; 0; 0; 0x40; 0x45; 0x01].
Definition v4_fragment_2 : list Z := [0x8f; 0; 0; 0; 0; 0x40; 0x00; 0x00].
Definition v4_fragment_3 : list Z := [0x8f; 0; 0; 0; 0; 0x40; 0x00; 0x00].

(** Members of a touchpad in two-finger scrolling with momentum scrolling
    switched on: finger threshold 30, timer 10 ms, minimum of 3 samples. *)
Definition scrolling_members : members :=
  fun k =>
    match k with
    | z_finger => 30
    | momentumscroll => 1
    | momentumscrolltimer => 10000000
    | momentumscrollsamplesmin => 3
    | clickpadtype => 1
    | last_fingers => 2
    | _ => 0
    end.

Definition scrolling_touchpad_with (m : members) (dy time : history)
  : @touchpad plain_base :=
  @mk_touchpad plain_base m MODE_MTOUCH tt tt tt tt dy time tt tt.

Definition scrolling_driver_with (m : members) (dy time : history)
  : @driver plain_base :=
  @mk_driver plain_base v4_data (scrolling_touchpad_with m dy time).

Definition scrolling_touchpad : history -> history -> @touchpad plain_base :=
  scrolling_touchpad_with scrolling_members.

Definition scrolling_driver : history -> history -> @driver plain_base :=
  scrolling_driver_with scrolling_members.

(** Members of a touchpad while the trackstick is in use: [ignoreall] is
    set and two more samples are to have their deltas ignored. *)
Definition trackstick_members : members :=
  fun k =>
    match k with
    | z_finger => 30
    | ignoreall => 1
    | ignoredeltas => 2
    | clickpadtype => 1
    | last_fingers => 1
    | _ => 0
    end.

Definition trackstick_driver_with (m : members) : @driver plain_base :=
  @mk_driver plain_base pinnacle_data
    (@mk_touchpad plain_base m MODE_MOVE tt tt tt tt [] [] tt tt).

Definition trackstick_driver : @driver plain_base :=
  trackstick_driver_with trackstick_members.

(** The same touchpad with [ignoreall] clear. *)
Definition idle_driver : @driver plain_base :=
  trackstick_driver_with (assign_member trackstick_members ignoreall 0).

(** A trackstick packet that is large on both axes (x = 127, y = 127), a
    trackstick packet with x = 3, y = 0, and the latter without bit 6 of
    byte 0. *)
Definition large_trackstick_packet : list Z := [0x40; 0x7f; 0x7f; 0x00; 0x00; 0x3f].
Definition moving_trackstick_packet : list Z := [0x40; 0x03; 0x00; 0x00; 0x00; 0x3f].
Definition bad_trackstick_packet : list Z := [0x00; 0x03; 0x00; 0x00; 0x00; 0x3f].

(** A device that answers every request in full: the reads of a request are
    filled with the report that belongs to the command repeated in it. *)
Fixpoint fill_reads (bytes : list Z) (request : list PS2Command)
  : list PS2Command :=
  match request with
  | [] => []
  | c :: rest =>
      match command c, bytes with
      | kPS2C_ReadDataPort, b :: bytes' =>
          mk_command kPS2C_ReadDataPort b :: fill_reads bytes' rest
      | _, _ => c :: fill_reads bytes rest
      end
  end.

Definition canned_port (e6 e7 ec : ALPSStatus_t) : PS2Port := {|
  Device := nat;
  submitRequestAndBlock := fun dev request =>
    let repeated := inOrOut (nth 2 request read_port) in
    let report :=
      if repeated =? 0xe6 then e6
      else if repeated =? 0xe7 then e7
      else if repeated =? 0xec then ec
      else (0, 0, 0) in
    (S dev,
     fill_reads [bytes0 report; bytes1 report; bytes2 report] request,
     Z.of_nat (length request));
  kDP_SetMouseResolution := 0xe8;
  kDP_SetMouseScaling1To1 := 0xe6;
  kDP_SetMouseScaling2To1 := 0xe7;
  kDP_GetMouseInformation := 0xe9;
  kDP_SetMouseStreamMode := 0xea;
  kDP_MouseResetWrap := 0xec;
  kDP_SetDefaultsAndDisable := 0xf5;
  kDP_Reset := 0xff;
  kSC_Reset := 0xaa;
  kSC_ID := 0x00;
  probeTrackstickV3 := fun _ _ dev => (kIOReturnNoDevice, dev);
  run_hw_init := fun _ m dev => (true, flags m, dev)
|}.

(** The profile before identification. *)
Definition unidentified_data : alps_data :=
  mk_alps_data ALPS_PROTO_V1 0 0 0 0 0 0 0 0 0 [0; 0; 0; 0; 0; 0] 0 0 0 0 0
    no_nibble_commands 0.

Definition unidentified : profile := mk_profile unidentified_data None None None.

(* ------------------------------------------------------------------------- *)
(** * Notions used to state the properties of packet framing *)

(** A byte that [interruptOccurred] takes as the start of a packet: it
    carries the bare PS/2 signature or the signature of the profile. *)
Definition starts_packet (modelData : alps_data) (b : Z) : Prop :=
  Z.land b 0xc8 = 0x08 \/ Z.land b (mask0 modelData) = byte0 modelData.

(** A packet as the device sends it: a start byte followed by bytes other
    than 0x80, either [pktsize] bytes with a start byte that does not carry
    the bare PS/2 signature, or three bytes with one that does (in a profile
    whose packets are longer than two bytes). *)
Definition device_packet (modelData : alps_data) (packet : list Z) : Prop :=
  match packet with
  | [] => False
  | b :: t =>
      ~ In 0x80 t
      /\ ((Z.land b 0xc8 <> 0x08 /\ Z.land b (mask0 modelData) = byte0 modelData
           /\ Z.of_nat (length packet) = pktsize modelData)
          \/ (Z.land b 0xc8 = 0x08 /\ length packet = 3%nat
              /\ pktsize modelData <> 1 /\ pktsize modelData <> 2))
  end.

(* ------------------------------------------------------------------------- *)
(** * The packet queue: [_ringBuffer] and [packetReady] *)

(** Modelled from the spec: the class [RingBuffer] of the member
    [_ringBuffer], whose declaration is not in src.  The spec has ready
    packets queued in order between the framer and the consumer and leaves
    the capacity of the queue open, so the model has no bound: the bytes of
    the buffer by position, the positions of the producer ([head]) and of
    the consumer ([tail]), and the number of bytes queued ([count]). *)
Record RingBuffer : Type := mk_ring {
  ring_bytes : Z -> Z;
  ring_head : Z;
  ring_tail : Z;
  ring_count : Z
}.

Module Ring.

(** Modelled from the spec: the methods [head()], [tail()] and [count()]
    of [RingBuffer] (not in src).  [head()] and [tail()] return a pointer
    into the buffer (here: the position), so that [packet[i]] is the byte
    at that position plus [i]. *)
Definition head (rb : RingBuffer) : Z := ring_head rb.
Definition tail (rb : RingBuffer) : Z := ring_tail rb.
Definition count (rb : RingBuffer) : Z := ring_count rb.

(** Modelled from the spec: the methods [advanceHead(n)], which queues
    the [n] bytes at the head, and [advanceTail(n)], which takes [n] bytes
    from the tail (not in src). *)
Definition advanceHead (n : Z) (rb : RingBuffer) : RingBuffer :=
  mk_ring (ring_bytes rb) (ring_head rb + n) (ring_tail rb) (ring_count rb + n).

Definition advanceTail (n : Z) (rb : RingBuffer) : RingBuffer :=
  mk_ring (ring_bytes rb) (ring_head rb) (ring_tail rb + n) (ring_count rb - n).

(** [p[i]] and [p[i] = v] for a pointer [p] into the buffer. *)
Definition load (rb : RingBuffer) (p : Z) (i : Z) : Z := ring_bytes rb (p + i).

Definition store (rb : RingBuffer) (p : Z) (i : Z) (v : Z) : RingBuffer :=
  mk_ring (fun q => if q =? p + i then v else ring_bytes rb q)
    (ring_head rb) (ring_tail rb) (ring_count rb).

(** The bytes [p[0 .. n)]. *)
Definition bytes_at (rb : RingBuffer) (p : Z) (n : nat) : list Z :=
  List.map (fun i => load rb p (Z.of_nat i)) (seq 0 n).

End Ring.

(** The members [_ringBuffer] and [_packetByteCount]. *)
Record framer : Type := mk_framer {
  _ringBuffer : RingBuffer;
  _packetByteCount : Z
}.

(** [interruptOccurred] on the ring buffer itself: the byte is written at
    the head, and the head is advanced by [pktsize] when a packet is
    complete, also when the packet is a bare PS/2 packet of three bytes. *)
Definition interruptOccurred_ring (modelData : alps_data) (s : framer)
    (data : Z) : PS2InterruptResult * framer :=
  if (0 =? _packetByteCount s)
     && negb (Z.land data 0xc8 =? 0x08)
     && negb (Z.land data (mask0 modelData) =? byte0 modelData)
  then (kPS2IR_packetBuffering, s)
  else if (1 <=? _packetByteCount s) && (data =? 0x80)
  then (kPS2IR_packetBuffering, mk_framer (_ringBuffer s) 0)
  else
    let packet := Ring.head (_ringBuffer s) in
    let rb := Ring.store (_ringBuffer s) packet (_packetByteCount s) data in
    let count := _packetByteCount s + 1 in
    if (pktsize modelData =? count)
       || ((kPacketLengthSmall =? count)
           && (Z.land (Ring.load rb packet 0) 0xc8 =? 0x08))
    then (kPS2IR_packetReady,
          mk_framer (Ring.advanceHead (pktsize modelData) rb) 0)
    else (kPS2IR_packetBuffering, mk_framer rb count).

(** What [packetReady] does with a packet it takes from the queue: it
    calls [process_packet] on it (the handler can read [pktsize] bytes), or
    it ignores it as a bare PS/2 packet of [kPacketLengthSmall] bytes. *)
Inductive queued_packet : Type :=
| processed (packet : list Z)
| ignored (packet : list Z).

(** The loop of [packetReady], for at most [fuel] iterations. *)
Fixpoint packetReady_loop (fuel : nat) (modelData : alps_data)
    (rb : RingBuffer) : RingBuffer * list queued_packet :=
  match fuel with
  | O => (rb, [])
  | S fuel' =>
      if pktsize modelData <=? Ring.count rb then
        let packet := Ring.tail rb in
        if Z.land (Ring.load rb packet 0) (mask0 modelData) =? byte0 modelData
        then
          let '(rb', out) :=
            packetReady_loop fuel' modelData
              (Ring.advanceTail (pktsize modelData) rb) in
          (rb', processed (Ring.bytes_at rb packet
                             (Z.to_nat (pktsize modelData))) :: out)
        else
          let '(rb', out) :=
            packetReady_loop fuel' modelData
              (Ring.advanceTail kPacketLengthSmall rb) in
          (rb', ignored (Ring.bytes_at rb packet
                           (Z.to_nat kPacketLengthSmall)) :: out)
      else (rb, [])
  end.

(** [packetReady]: every iteration takes at least one byte from the queue
    when [pktsize] is positive, so [count] iterations are enough. *)
Definition packetReady (modelData : alps_data) (rb : RingBuffer)
  : RingBuffer * list queued_packet :=
  packetReady_loop (Z.to_nat (Ring.count rb)) modelData rb.

(** Modelled from the spec: the caller of [interruptOccurred] and
    [packetReady] (the PS/2 controller, not in src).  Ready packets are
    queued in order and the consumer drains the queued packets:
    [packetReady] runs after every [kPS2IR_packetReady]. *)
Fixpoint deliver (modelData : alps_data) (s : framer) (input : list Z)
  : framer * list queued_packet :=
  match input with
  | [] => (s, [])
  | data :: rest =>
      match interruptOccurred_ring modelData s data with
      | (kPS2IR_packetReady, s1) =>
          let '(rb, out) := packetReady modelData (_ringBuffer s1) in
          let '(s2, out') :=
            deliver modelData (mk_framer rb (_packetByteCount s1)) rest in
          (s2, out ++ out')
      | (kPS2IR_packetBuffering, s1) => deliver modelData s1 rest
      end
  end.

(** An empty queue over a buffer that holds [bytes]. *)
Definition empty_framer (bytes : Z -> Z) : framer :=
  mk_framer (mk_ring bytes 0 0 0) 0.

(** A bare PS/2 packet. *)
Definition bare_packet : list Z := [0x08; 0x01; 0x02].

(** A framer whose queue is empty and whose in-progress packet is [st]. *)
Definition idle_queue (s : framer) (st : list Z) : Prop :=
  0 <= _packetByteCount s
  /\ Ring.bytes_at (_ringBuffer s) (Ring.head (_ringBuffer s))
       (Z.to_nat (_packetByteCount s)) = st
  /\ Ring.count (_ringBuffer s) = 0
  /\ Ring.tail (_ringBuffer s) = Ring.head (_ringBuffer s).

(* ------------------------------------------------------------------------- *)
(** * Notions used to state the properties of bitmap scanning *)

(** The bits of [map] with index in [a, b) are all clear, or all set. *)
Definition clear_between (map a b : Z) : Prop :=
  forall k, a <= k < b -> Z.testbit map k = false.

Definition set_between (map a b : Z) : Prop :=
  forall k, a <= k < b -> Z.testbit map k = true.

(** [p] is the lowest maximal run of set bits of [map]. *)
Definition first_run (map : Z) (p : alps_bitmap_point) : Prop :=
  0 <= start_bit p /\ 0 < num_bits p
  /\ clear_between map 0 (start_bit p)
  /\ set_between map (start_bit p) (start_bit p + num_bits p)
  /\ Z.testbit map (start_bit p + num_bits p) = false.

(** [p] is the highest maximal run of set bits of [map]. *)
Definition last_run (map : Z) (p : alps_bitmap_point) : Prop :=
  0 <= start_bit p /\ 0 < num_bits p
  /\ Z.testbit map (start_bit p - 1) = false
  /\ set_between map (start_bit p) (start_bit p + num_bits p)
  /\ forall k, start_bit p + num_bits p <= k -> Z.testbit map k = false.

(** What the loop of [alps_get_bitmap_points] has established when it is
    about to look at bit [i]: no bit seen yet, one run seen, or more. *)
Definition scanned (map : Z) (low0 high0 : alps_bitmap_point) (f0 : Z)
    (i prev : Z) (s : bitmap_scan) : Prop :=
  (clear_between map 0 i /\ prev = 0 /\ s = mk_scan low0 high0 f0 to_low)
  \/ (exists a n,
        scan_low s = mk_point a n /\ scan_high s = high0
        /\ scan_fingers s = f0 + 1
        /\ 0 <= a /\ 0 < n /\ clear_between map 0 a
        /\ set_between map a (a + n) /\ clear_between map (a + n) i
        /\ ((prev = 1 /\ a + n = i /\ scan_point s = to_low)
            \/ (prev = 0 /\ a + n < i /\ scan_point s = to_high)))
  \/ (exists a n b k,
        scan_low s = mk_point a n /\ scan_high s = mk_point b k
        /\ f0 + 2 <= scan_fingers s /\ scan_point s = to_high
        /\ 0 <= a /\ 0 < n /\ clear_between map 0 a
        /\ set_between map a (a + n) /\ Z.testbit map (a + n) = false
        /\ a + n < b /\ 0 < k
        /\ set_between map b (b + k) /\ Z.testbit map (b - 1) = false
        /\ clear_between map (b + k) i
        /\ ((prev = 1 /\ b + k = i) \/ (prev = 0 /\ b + k < i))).

(* ------------------------------------------------------------------------- *)
(** * Bare PS/2 packets *)

(** [dispatchRelativePointerEventWithPacket]: the bare PS/2 packet format
    (the parameter [packetSize] is not used by the function). *)
Definition dispatchRelativePointerEventWithPacket (packet : list Z)
    (packetSize : Z) (now_abs : Z) : list Event :=
  let p := byte_at packet in
  let buttons := 0 in
  let buttons :=
    if nonzero (Z.land (p 0%nat) 0x1) then Z.lor buttons 0x1 else buttons in
  let buttons :=
    if nonzero (Z.land (p 0%nat) 0x2) then Z.lor buttons 0x2 else buttons in
  let buttons :=
    if nonzero (Z.land (p 0%nat) 0x4) then Z.lor buttons 0x4 else buttons in
  let dx := p 1%nat in
  let dx :=
    if nonzero dx then p 1%nat - Z.land (Z.shiftl (p 0%nat) 4) 0x100 else dx in
  let dy := p 2%nat in
  let dy :=
    if nonzero dy then Z.land (Z.shiftl (p 0%nat) 3) 0x100 - p 2%nat else dy in
  [dispatchRelativePointerEventX dx dy buttons now_abs].

(** A byte value. *)
Definition is_byte (v : Z) : Prop := 0 <= v <= 255.

(* ------------------------------------------------------------------------- *)
(** * V1 and V2 packets *)

Definition set_prev_fin (v : Z) (m : alps_data) : alps_data :=
  mk_alps_data (proto_version m) (byte0 m) (mask0 m) (flags m) (x_max m)
    (y_max m) (x_bits m) (y_bits m) (pktsize m) (multi_packet m) (multi_data m)
    (second_touch m) (fingers m) (quirks m) v (lastz m)
    (nibble_commands m) (addr_command m).

Definition set_touchmode `{TouchPadBase} (v : touch_mode) (t : touchpad)
  : touchpad :=
  mk_touchpad _ (mem t) v (x_undo t) (y_undo t) (x_avg t) (y_avg t)
    (dy_history t) (time_history t) (mbutton t) (other t).

Section PacketsV1V2.
Context `{TouchPadBase}.

Variable gestureTail :
  driver -> bool -> Z -> Z -> Z -> Z -> Z -> Z -> Z -> Z -> Z ->
  driver * list Event.

(** The locals [x], [y], [z], [buttons], [ges] and [fin] that
    [processPacketV1V2] computes from the packet before it looks at the
    kind of packet. *)
Definition packetV1V2_fields (modelData : alps_data) (packet : list Z)
  : Z * Z * Z * Z * Z * Z :=
  let p := byte_at packet in
  let buttons := 0 in
  let back := 0 in
  let forward := 0 in
  let v1 := alps_proto_eqb (proto_version modelData) ALPS_PROTO_V1 in
  let left := if v1 then Z.land (p 2%nat) 0x10 else Z.land (p 3%nat) 1 in
  let right := if v1 then Z.land (p 2%nat) 0x08 else Z.land (p 3%nat) 2 in
  let middle := if v1 then 0 else Z.land (p 3%nat) 4 in
  let x :=
    if v1 then Z.lor (p 1%nat) (Z.shiftl (Z.land (p 0%nat) 0x07) 7)
    else Z.lor (p 1%nat) (Z.shiftl (Z.land (p 2%nat) 0x78) (7 - 3)) in
  let y :=
    if v1 then Z.lor (p 4%nat) (Z.shiftl (Z.land (p 3%nat) 0x07) 7)
    else Z.lor (p 4%nat) (Z.shiftl (Z.land (p 3%nat) 0x70) (7 - 4)) in
  let z := p 5%nat in
  let '(back, forward) :=
    if nonzero (Z.land (flags modelData) ALPS_FW_BK_1)
    then (Z.land (p 0%nat) 0x10, Z.land (p 2%nat) 4)
    else (back, forward) in
  let '(back, forward, middle) :=
    if nonzero (Z.land (flags modelData) ALPS_FW_BK_2) then
      let back := Z.land (p 3%nat) 4 in
      let forward := Z.land (p 2%nat) 4 in
      let middle := if nonzero forward && nonzero back then 1 else 0 in
      if nonzero middle then (0, 0, middle) else (back, forward, middle)
    else (back, forward, middle) in
  let buttons := Z.lor buttons (if nonzero left then 0x01 else 0) in
  let buttons := Z.lor buttons (if nonzero right then 0x02 else 0) in
  let buttons := Z.lor buttons (if nonzero middle then 0x04 else 0) in
  let ges := Z.land (p 2%nat) 1 in
  let fin := Z.land (p 2%nat) 2 in
  (x, y, z, buttons, ges, fin).

(** The finger count [processPacketV1V2] derives from the pressure. *)
Definition fingers_of_pressure (z : Z) : Z :=
  let fingers' := 0 in
  if 0 <? z then
    let fingers' := fingers' + 1 in
    if 98 <=? z then fingers' + 1 else fingers'
  else fingers'.

(** The scroll wheel event of a model with [ALPS_WHEEL]. *)
Definition wheel_events (modelData : alps_data) (packet : list Z) (now_abs : Z)
  : list Event :=
  let p := byte_at packet in
  if nonzero (Z.land (flags modelData) ALPS_WHEEL) then
    let scrollAmount :=
      Z.land (Z.shiftl (p 2%nat) 1) 0x08 - Z.land (Z.shiftr (p 0%nat) 4) 0x07 in
    if nonzero scrollAmount
    then [dispatchScrollWheelEventX scrollAmount 0 0 now_abs]
    else []
  else [].

(** [processPacketV1V2].  [now_abs] is the clock value the function reads
    itself, [now_abs'] and [now_ns'] are the values read inside
    [dispatchEventsWithInfo]. *)
Definition processPacketV1V2 (d : driver) (packet : list Z)
    (now_abs now_abs' now_ns' : Z) : driver * list Event :=
  let md := modelData_of d in
  let '(x, y, z, buttons, ges, fin) := packetV1V2_fields md packet in
  if nonzero (Z.land (flags md) ALPS_DUALPOINT) && (z =? 127) then
    let dx := if 383 <? x then x - 768 else x in
    let dy := - (if 255 <? y then y - 512 else y) in
    (d, [dispatchRelativePointerEventX dx dy buttons now_abs])
  else
    let t := touchpad_of d in
    let z := if nonzero ges && negb (nonzero fin)
             then mem t z_finger + 1 else z in
    let t := if nonzero ges && nonzero fin && negb (nonzero (prev_fin md))
             then set_touchmode MODE_DRAG t else t in
    let md := set_prev_fin fin md in
    let fingers' := fingers_of_pressure z in
    let '(d, ev) :=
      dispatchEventsWithInfo gestureTail (mk_driver _ md t)
        x y z fingers' buttons now_abs' now_ns' in
    (d, ev ++ wheel_events md packet now_abs).

End PacketsV1V2.

(** A V2 profile with a trackstick and a wheel. *)
Definition v2_data : alps_data :=
  mk_alps_data ALPS_PROTO_V2 0xf8 0xf8 (Z.lor ALPS_DUALPOINT ALPS_WHEEL)
    1100 800 15 11 6 0 [0; 0; 0; 0; 0; 0] 0 0 0 0 0 no_nibble_commands 0.

Definition v2_driver : @driver plain_base :=
  @mk_driver plain_base v2_data
    (@mk_touchpad plain_base trackstick_members MODE_MOVE tt tt tt tt [] [] tt tt).

(** A V2 trackstick packet (z = 127, x = 5, y = 3) and a V2 touchpad packet
    with pressure 100 that also turns the wheel. *)
Definition v2_trackstick_packet : list Z := [0xf8; 0x05; 0x00; 0x00; 0x03; 0x7f].
Definition v2_touch_packet : list Z := [0xf8; 0x05; 0x04; 0x00; 0x03; 0x64].

(* ------------------------------------------------------------------------- *)
(** * Hardware initialisation: command mode, registers and nibbles *)

(** The command bytes of the PS/2 device header that [PS2Port] does not
    list. *)
Class PS2CommandBytes : Type := {
  kDP_MouseSetPoll : Z;
  kDP_SetDefaults : Z;
  kDP_SetMouseSampleRate : Z;
  kDP_CommandNibble10 : Z;
  kDP_Enable : Z;
  kDP_GetId : Z
}.

(** [struct alps_nibble_commands]. *)
Record alps_nibble_commands : Type := mk_nibble {
  nibble_command : Z;
  nibble_data : Z
}.

Module HwInit.
Section WithPort.
Context `{PS2Port} `{PS2CommandBytes}.

(** The arrays [alps_v3_nibble_commands] and [alps_v4_nibble_commands]. *)
Definition v3_nibble_commands : list alps_nibble_commands :=
  [ mk_nibble kDP_MouseSetPoll 0x00;
    mk_nibble kDP_SetDefaults 0x00;
    mk_nibble kDP_SetMouseScaling2To1 0x00;
    mk_nibble (Z.lor kDP_SetMouseSampleRate 0x1000) 0x0a;
    mk_nibble (Z.lor kDP_SetMouseSampleRate 0x1000) 0x14;
    mk_nibble (Z.lor kDP_SetMouseSampleRate 0x1000) 0x28;
    mk_nibble (Z.lor kDP_SetMouseSampleRate 0x1000) 0x3c;
    mk_nibble (Z.lor kDP_SetMouseSampleRate 0x1000) 0x50;
    mk_nibble (Z.lor kDP_SetMouseSampleRate 0x1000) 0x64;
    mk_nibble (Z.lor kDP_SetMouseSampleRate 0x1000) 0xc8;
    mk_nibble (Z.lor kDP_CommandNibble10 0x0100) 0x00;
    mk_nibble (Z.lor kDP_SetMouseResolution 0x1000) 0x00;
    mk_nibble (Z.lor kDP_SetMouseResolution 0x1000) 0x01;
    mk_nibble (Z.lor kDP_SetMouseResolution 0x1000) 0x02;
    mk_nibble (Z.lor kDP_SetMouseResolution 0x1000) 0x03;
    mk_nibble kDP_SetMouseScaling1To1 0x00 ].

Definition v4_nibble_commands : list alps_nibble_commands :=
  [ mk_nibble kDP_Enable 0x00;
    mk_nibble kDP_SetDefaults 0x00;
    mk_nibble kDP_SetMouseScaling2To1 0x00;
    mk_nibble (Z.lor kDP_SetMouseSampleRate 0x1000) 0x0a;
    mk_nibble (Z.lor kDP_SetMouseSampleRate 0x1000) 0x14;
    mk_nibble (Z.lor kDP_SetMouseSampleRate 0x1000) 0x28;
    mk_nibble (Z.lor kDP_SetMouseSampleRate 0x1000) 0x3c;
    mk_nibble (Z.lor kDP_SetMouseSampleRate 0x1000) 0x50;
    mk_nibble (Z.lor kDP_SetMouseSampleRate 0x1000) 0x64;
    mk_nibble (Z.lor kDP_SetMouseSampleRate 0x1000) 0xc8;
    mk_nibble (Z.lor kDP_CommandNibble10 0x0100) 0x00;
    mk_nibble (Z.lor kDP_SetMouseResolution 0x1000) 0x00;
    mk_nibble (Z.lor kDP_SetMouseResolution 0x1000) 0x01;
    mk_nibble (Z.lor kDP_SetMouseResolution 0x1000) 0x02;
    mk_nibble (Z.lor kDP_SetMouseResolution 0x1000) 0x03;
    mk_nibble kDP_SetMouseScaling1To1 0x00 ].

(** [modelData.nibble_commands[nibble]]: nothing when the pointer is null or
    the index is outside the array, where the C program has no defined
    behaviour. *)
Definition nibble_entry (table : nibble_table) (nibble : Z)
  : option alps_nibble_commands :=
  if nibble <? 0 then None
  else
    match table with
    | no_nibble_commands => None
    | alps_v3_nibble_commands => nth_error v3_nibble_commands (Z.to_nat nibble)
    | alps_v4_nibble_commands => nth_error v4_nibble_commands (Z.to_nat nibble)
    end.

(** Code that talks to the device: it takes the state of the device and
    returns a result and the new state, or nothing where the C program has
    no defined behaviour. *)
Definition io (A : Type) : Type := Device -> option (A * Device).

Definition ret {A : Type} (a : A) : io A := fun dev => Some (a, dev).

Definition bind {A B : Type} (m : io A) (k : A -> io B) : io B :=
  fun dev =>
    match m dev with
    | Some (a, dev') => k a dev'
    | None => None
    end.

Definition undefined {A : Type} : io A := fun _ => None.

Notation "x <- m ;; k" := (bind m (fun x => k))
  (at level 61, m at next level, right associativity).

(** [_device->submitRequestAndBlock(&request)]: the commands as the device
    left them, and [request.commandsCount] after the call. *)
Definition submit (request : list PS2Command) : io (list PS2Command * Z) :=
  fun dev =>
    let '(dev', commands, commandsCount) := submitRequestAndBlock dev request in
    Some ((commands, commandsCount), dev').

(** A request, when only the number of commands completed is looked at. *)
Definition submit_all (request : list PS2Command) : io bool :=
  r <- submit request ;; ret (snd r =? Z.of_nat (length request)).

(** [(UInt8) v] *)
Definition UInt8 (v : Z) : Z := v mod 256.

(** [repeatCmd] and [exitCommandMode] as code of type [io]. *)
Definition repeatCmd_io (init_command init_arg repeated_command : Z)
  : io (bool * ALPSStatus_t) :=
  fun dev =>
    let '(ok, report, dev') :=
      repeatCmd init_command init_arg repeated_command dev in
    Some ((ok, report), dev').

Definition exitCommandMode_io : io bool :=
  fun dev => Some (exitCommandMode dev).

Definition getStatus : io (bool * ALPSStatus_t) :=
  repeatCmd_io 0 0 kDP_SetDefaultsAndDisable.

Definition tapMode (enable : bool) : io bool :=
  let cmd := if enable then kDP_SetMouseSampleRate else kDP_SetMouseResolution in
  let tapArg := if enable then 0x0A else 0x00 in
  r <- submit [send kDP_GetMouseInformation; read_port; read_port; read_port;
               send kDP_SetDefaultsAndDisable; send kDP_SetDefaultsAndDisable;
               send cmd; send tapArg] ;;
  if negb (snd r =? 8) then ret false
  else
    s <- getStatus ;; ret (fst s).

Definition enterCommandMode : io bool :=
  r <- repeatCmd_io 0 0 kDP_MouseResetWrap ;;
  let status := snd r in
  if (negb (bytes0 status =? 0x88)
      || (negb (bytes1 status =? 0x07) && negb (bytes1 status =? 0x08)))
     && negb (bytes0 status =? 0x73)
  then ret false
  else ret true.

Definition setSampleRateAndResolution (rate res : Z) : io bool :=
  submit_all [send kDP_SetMouseSampleRate; send rate;
              send kDP_SetMouseResolution; send res; send kDP_Enable].

Definition commandModeSendNibble (modelData : alps_data) (nibble : Z)
  : io bool :=
  match nibble_entry (nibble_commands modelData) nibble with
  | None => undefined
  | Some entry =>
      let command := nibble_command entry in
      let request := [send (Z.land command 0xff)] in
      let send_count := Z.land (Z.shiftr command 12) 0xf in
      let receive := Z.land (Z.shiftr command 8) 0xf in
      if (1 <? send_count) || (2 <? send_count + receive + 1) then ret false
      else
        let request :=
          if 0 <? send_count then request ++ [send (nibble_data entry)]
          else request in
        let request := request ++ repeat read_port (Z.to_nat receive) in
        submit_all request
  end.

(** [for (i = 12; i >= 0; i -= 4)] of [commandModeSetAddr], from the shift
    amounts still to come. *)
Fixpoint send_addr_nibbles (modelData : alps_data) (addr : Z)
    (shifts : list Z) : io bool :=
  match shifts with
  | [] => ret true
  | i :: rest =>
      let nibble := Z.land (Z.shiftr addr i) 0xf in
      ok <- commandModeSendNibble modelData nibble ;;
      if negb ok then ret false
      else send_addr_nibbles modelData addr rest
  end.

Definition commandModeSetAddr (modelData : alps_data) (addr : Z) : io bool :=
  r <- submit [send (addr_command modelData)] ;;
  if negb (snd r =? 1) then ret false
  else send_addr_nibbles modelData addr [12; 8; 4; 0].

Definition commandModeReadReg (modelData : alps_data) (addr : Z) : io Z :=
  ok <- commandModeSetAddr modelData addr ;;
  if negb ok then ret (-1)
  else
    r <- submit [send kDP_GetMouseInformation; read_port; read_port; read_port] ;;
    if negb (snd r =? 4) then ret (-1)
    else
      let at_ i := inOrOut (nth i (fst r) read_port) in
      let status := (at_ 1%nat, at_ 2%nat, at_ 3%nat) in
      if negb (addr =? Z.lor (Z.shiftl (bytes0 status) 8) (bytes1 status))
      then ret (-1)
      else ret (bytes2 status).

(** [commandModeWriteReg(UInt8 value)] *)
Definition commandModeWriteReg (modelData : alps_data) (value : Z) : io bool :=
  let value := UInt8 value in
  ok <- commandModeSendNibble modelData (Z.land (Z.shiftr value 4) 0xf) ;;
  if negb ok then ret false
  else
    ok <- commandModeSendNibble modelData (Z.land value 0xf) ;;
    if negb ok then ret false else ret true.

(** [commandModeWriteReg(int addr, UInt8 value)] *)
Definition commandModeWriteRegAt (modelData : alps_data) (addr value : Z)
  : io bool :=
  ok <- commandModeSetAddr modelData addr ;;
  if negb ok then ret false
  else commandModeWriteReg modelData value.

Definition passthroughModeV3 (modelData : alps_data) (regBase : Z)
    (enable : bool) : io bool :=
  ok <- enterCommandMode ;;
  if negb ok then ret false
  else
    regVal <- commandModeReadReg modelData (regBase + 0x0008) ;;
    result <-
      (if regVal =? -1 then ret false
       else
         let regVal :=
           if enable then Z.lor regVal 0x01
           else Z.land regVal (Z.lnot 0x01) in
         commandModeWriteReg modelData regVal) ;;
    ok <- exitCommandMode_io ;;
    if negb ok then ret false else ret result.

Definition passthroughModeV2 (enable : bool) : io bool :=
  let cmd := if enable then kDP_SetMouseScaling2To1
             else kDP_SetMouseScaling1To1 in
  submit_all [send cmd; send cmd; send cmd; send kDP_SetDefaultsAndDisable].

Definition absoluteModeV3 (modelData : alps_data) : io bool :=
  regVal <- commandModeReadReg modelData 0x0004 ;;
  if regVal =? -1 then ret false
  else
    let regVal := Z.lor regVal 0x06 in
    ok <- commandModeWriteReg modelData regVal ;;
    if negb ok then ret false else ret true.

Definition probeTrackstickV3 (modelData : alps_data) (regBase : Z)
  : io IOReturn :=
  ok <- enterCommandMode ;;
  result <-
    (if negb ok then ret kIOReturnIOError
     else
       regVal <- commandModeReadReg modelData (regBase + 0x08) ;;
       if regVal =? -1 then ret kIOReturnNoDevice
       else ret (if nonzero (Z.land regVal 0x80)
                 then kIOReturnSuccess else kIOReturnNoDevice)) ;;
  _ <- exitCommandMode_io ;;
  ret result.

Definition IOReturn_eqb (a b : IOReturn) : bool :=
  match a, b with
  | kIOReturnSuccess, kIOReturnSuccess | kIOReturnIOError, kIOReturnIOError
  | kIOReturnInvalid, kIOReturnInvalid | kIOReturnNoDevice, kIOReturnNoDevice
      => true
  | _, _ => false
  end.

Definition setupTrackstickV3 (modelData : alps_data) (regBase : Z)
  : io IOReturn :=
  ok <- passthroughModeV3 modelData regBase true ;;
  if negb ok then ret kIOReturnIOError
  else
    r <- repeatCmd_io 0 0 kDP_SetMouseScaling2To1 ;;
    result <-
      (if negb (fst r) then ret kIOReturnNoDevice
       else
         ok <- submit_all [send kDP_SetMouseScaling1To1;
                           send kDP_SetMouseScaling1To1;
                           send kDP_SetMouseScaling1To1] ;;
         if negb ok then ret kIOReturnIOError
         else
           ok <- commandModeSendNibble modelData 0x9 ;;
           ok <- (if ok then commandModeSendNibble modelData 0x4
                  else ret false) ;;
           if negb ok then ret kIOReturnIOError
           else
             ok <- enterCommandMode ;;
             ok <- (if ok
                    then commandModeWriteRegAt modelData (regBase + 0x0008) 0x82
                    else ret false) ;;
             ok <- (if ok then exitCommandMode_io else ret false) ;;
             if negb ok then ret kIOReturnIOError
             else ret kIOReturnSuccess) ;;
    ok <- passthroughModeV3 modelData regBase false ;;
    if negb ok then ret kIOReturnIOError else ret result.

Definition v1v2MagicEnable : io bool :=
  submit_all [send kDP_SetDefaultsAndDisable; send kDP_SetDefaultsAndDisable;
              send kDP_SetDefaultsAndDisable; send kDP_SetDefaultsAndDisable;
              send kDP_Enable].

Definition absoluteModeV1V2 : io bool :=
  ok <- v1v2MagicEnable ;;
  if negb ok then ret false
  else submit_all [send kDP_MouseSetPoll].

Definition hwInitV1V2 (modelData : alps_data) : io bool :=
  ok <- (if nonzero (Z.land (flags modelData) ALPS_PASS)
         then passthroughModeV2 true else ret true) ;;
  if negb ok then ret false
  else
    ok <- tapMode true ;;
    if negb ok then ret false
    else
      ok <- absoluteModeV1V2 ;;
      if negb ok then ret false
      else
        ok <- (if nonzero (Z.land (flags modelData) ALPS_PASS)
               then passthroughModeV2 false else ret true) ;;
        if negb ok then ret false
        else
          _ <- v1v2MagicEnable ;;
          ret true.

(** The tail of [hwInitV3] behind the label [error]. *)
Definition fail_in_command_mode : io bool :=
  _ <- exitCommandMode_io ;; ret false.

Definition hwInitV3 (modelData : alps_data) : io bool :=
  regVal <- probeTrackstickV3 modelData ALPS_REG_BASE_PINNACLE ;;
  if IOReturn_eqb regVal kIOReturnIOError then fail_in_command_mode
  else
    setup_failed <-
      (if IOReturn_eqb regVal kIOReturnSuccess then
         r <- setupTrackstickV3 modelData ALPS_REG_BASE_PINNACLE ;;
         ret (IOReturn_eqb r kIOReturnIOError)
       else ret false) ;;
    if setup_failed then fail_in_command_mode
    else
      ok <- enterCommandMode ;;
      ok <- (if ok then absoluteModeV3 modelData else ret false) ;;
      if negb ok then fail_in_command_mode
      else
        regVal <- commandModeReadReg modelData 0x0006 ;;
        if regVal =? -1 then fail_in_command_mode
        else
          ok <- commandModeWriteReg modelData (Z.lor regVal 0x01) ;;
          if negb ok then fail_in_command_mode
          else
            regVal <- commandModeReadReg modelData 0x0007 ;;
            ok <- commandModeWriteReg modelData (Z.lor regVal 0x01) ;;
            if negb ok then fail_in_command_mode
            else
              regVal <- commandModeReadReg modelData 0x0144 ;;
              if regVal =? -1 then fail_in_command_mode
              else
                ok <- commandModeWriteReg modelData 0x04 ;;
                if negb ok then fail_in_command_mode
                else
                  regVal <- commandModeReadReg modelData 0x0159 ;;
                  if regVal =? -1 then fail_in_command_mode
                  else
                    ok <- commandModeWriteReg modelData 0x03 ;;
                    if negb ok then fail_in_command_mode
                    else
                      regVal <- commandModeReadReg modelData 0x0163 ;;
                      if regVal =? -1 then fail_in_command_mode
                      else
                        ok <- commandModeWriteRegAt modelData 0x0163 0x03 ;;
                        if negb ok then fail_in_command_mode
                        else
                          regVal <- commandModeReadReg modelData 0x0162 ;;
                          if regVal =? -1 then fail_in_command_mode
                          else
                            ok <- commandModeWriteRegAt modelData 0x0162 0x04 ;;
                            if negb ok then fail_in_command_mode
                            else
                              _ <- exitCommandMode_io ;;
                              ok <- setSampleRateAndResolution 0x28 0x02 ;;
                              if negb ok then ret false else ret true.

(** [hwInitRushmoreV3]: the result and the value of [modelData.flags] when
    the function returns. *)
Definition hwInitRushmoreV3 (modelData : alps_data) : io (bool * Z) :=
  let failed (fl : Z) : io (bool * Z) :=
    _ <- exitCommandMode_io ;; ret (false, fl) in
  r <- (if nonzero (Z.land (flags modelData) ALPS_DUALPOINT) then
          regVal <- setupTrackstickV3 modelData ALPS_REG_BASE_RUSHMORE ;;
          if IOReturn_eqb regVal kIOReturnIOError
          then ret (false, flags modelData)
          else if IOReturn_eqb regVal kIOReturnNoDevice
          then ret (true, Z.land (flags modelData) (Z.lnot ALPS_DUALPOINT))
          else ret (true, flags modelData)
        else ret (true, flags modelData)) ;;
  let fl := snd r in
  let modelData := set_flags fl modelData in
  if negb (fst r) then failed fl
  else
    ok <- enterCommandMode ;;
    bad <- (if negb ok then ret true
            else
              regVal <- commandModeReadReg modelData 0xc2d9 ;;
              if regVal =? -1 then ret true
              else
                ok <- commandModeWriteRegAt modelData 0xc2cb 0x00 ;;
                ret (negb ok)) ;;
    if bad then failed fl
    else
      regVal <- commandModeReadReg modelData 0xc2c6 ;;
      if regVal =? -1 then failed fl
      else
        ok <- commandModeWriteReg modelData (Z.land regVal 0xfd) ;;
        if negb ok then failed fl
        else
          ok <- commandModeWriteRegAt modelData 0xc2c9 0x64 ;;
          if negb ok then failed fl
          else
            regVal <- commandModeReadReg modelData 0xc2c4 ;;
            if regVal =? -1 then failed fl
            else
              ok <- commandModeWriteReg modelData (Z.lor regVal 0x02) ;;
              if negb ok then failed fl
              else
                _ <- exitCommandMode_io ;;
                ok <- submit_all [send kDP_Enable] ;;
                ret (ok, fl).

Definition absoluteModeV4 (modelData : alps_data) : io bool :=
  regVal <- commandModeReadReg modelData 0x0004 ;;
  if regVal =? -1 then ret false
  else
    let regVal := Z.lor regVal 0x02 in
    ok <- commandModeWriteReg modelData regVal ;;
    if negb ok then ret false else ret true.

(** The register writes of [hwInitV4], in program order, up to the first one
    that fails. *)
Fixpoint write_registers (modelData : alps_data) (writes : list (Z * Z))
  : io bool :=
  match writes with
  | [] => ret true
  | (addr, value) :: rest =>
      ok <- commandModeWriteRegAt modelData addr value ;;
      if negb ok then ret false else write_registers modelData rest
  end.

Definition hwInitV4 (modelData : alps_data) : io bool :=
  ok <- enterCommandMode ;;
  if negb ok then fail_in_command_mode
  else
    ok <- absoluteModeV4 modelData ;;
    if negb ok then fail_in_command_mode
    else
      ok <- write_registers modelData
              [(0x0007, 0x8c); (0x0149, 0x03); (0x0160, 0x03); (0x017f, 0x15);
               (0x0151, 0x01); (0x0168, 0x03); (0x014a, 0x03); (0x0161, 0x03)] ;;
      if negb ok then fail_in_command_mode
      else
        _ <- exitCommandMode_io ;;
        ok <- submit_all [send kDP_SetMouseSampleRate; send 0xc8;
                          send kDP_SetMouseSampleRate; send 0x64;
                          send kDP_SetMouseSampleRate; send 0x50;
                          send kDP_GetId] ;;
        if negb ok then ret false
        else
          ok <- setSampleRateAndResolution 0x64 0x02 ;;
          if negb ok then ret false else ret true.

Definition hwInitDolphinV1 : io bool :=
  ok <- submit_all [send 0xE8; send 0x00; send 0xE7; send 0xE7; send 0xE7;
                    send 0xE9; send 0xEC; send 0xEC; send 0xEC; send 0xE9;
                    send 0xEA; send kDP_SetMouseStreamMode;
                    send kDP_SetMouseSampleRate; send 0x64;
                    send kDP_SetMouseSampleRate; send 0x28] ;;
  if negb ok then ret false else ret true.

End WithPort.
End HwInit.

(** [(this->*hw_init)()]: the result and the value of [modelData.flags]
    afterwards. *)
Definition call_hw_init `{PS2Port} `{PS2CommandBytes} (h : hw_init_fn)
    (modelData : alps_data) : HwInit.io (bool * Z) :=
  match h with
  | hwInitV1V2 =>
      HwInit.bind (HwInit.hwInitV1V2 modelData)
        (fun ok => HwInit.ret (ok, flags modelData))
  | hwInitV3 =>
      HwInit.bind (HwInit.hwInitV3 modelData)
        (fun ok => HwInit.ret (ok, flags modelData))
  | hwInitRushmoreV3 => HwInit.hwInitRushmoreV3 modelData
  | hwInitV4 =>
      HwInit.bind (HwInit.hwInitV4 modelData)
        (fun ok => HwInit.ret (ok, flags modelData))
  | hwInitDolphinV1 =>
      HwInit.bind (HwInit.hwInitDolphinV1)
        (fun ok => HwInit.ret (ok, flags modelData))
  end.

(* ------------------------------------------------------------------------- *)
(** * Notions used to state the properties of hardware initialisation *)

(** The command bytes that the nibble tables hold are bytes. *)
Definition nibble_commands_are_bytes `{PS2Port} `{PS2CommandBytes} : Prop :=
  is_byte kDP_MouseSetPoll /\ is_byte kDP_SetDefaults
  /\ is_byte kDP_SetMouseScaling2To1 /\ is_byte kDP_SetMouseSampleRate
  /\ is_byte kDP_CommandNibble10 /\ is_byte kDP_SetMouseResolution
  /\ is_byte kDP_SetMouseScaling1To1 /\ is_byte kDP_Enable.

(** The request with which [commandModeReadReg] reads the three status
    bytes, and a device that completes it with bytes. *)
Definition status_request `{PS2Port} : list PS2Command :=
  [send kDP_GetMouseInformation; read_port; read_port; read_port].

Definition status_reads_are_bytes `{PS2Port} : Prop :=
  forall dev,
    Forall (fun c => is_byte (inOrOut c))
      (snd (fst (submitRequestAndBlock dev status_request))).

(** Code that has defined behaviour whatever the state of the device. *)
Definition defined `{PS2Port} {A : Type} (m : HwInit.io A) : Prop :=
  forall dev, m dev <> None.

(** A port that keeps, next to the state of the device behind it, the list
    of the requests submitted so far (the latest last). *)
Definition recording (P : PS2Port) : PS2Port := {|
  Device := (@Device P * list (list PS2Command))%type;
  submitRequestAndBlock := fun d request =>
    let '(dev', commands, commandsCount) :=
      @submitRequestAndBlock P (fst d) request in
    ((dev', snd d ++ [request]), commands, commandsCount);
  kDP_SetMouseResolution := @kDP_SetMouseResolution P;
  kDP_SetMouseScaling1To1 := @kDP_SetMouseScaling1To1 P;
  kDP_SetMouseScaling2To1 := @kDP_SetMouseScaling2To1 P;
  kDP_GetMouseInformation := @kDP_GetMouseInformation P;
  kDP_SetMouseStreamMode := @kDP_SetMouseStreamMode P;
  kDP_MouseResetWrap := @kDP_MouseResetWrap P;
  kDP_SetDefaultsAndDisable := @kDP_SetDefaultsAndDisable P;
  kDP_Reset := @kDP_Reset P;
  kSC_Reset := @kSC_Reset P;
  kSC_ID := @kSC_ID P;
  probeTrackstickV3 := fun regBase m d =>
    let '(r, dev') := @probeTrackstickV3 P regBase m (fst d) in
    (r, (dev', snd d));
  run_hw_init := fun h m d =>
    let '(ok, fl, dev') := @run_hw_init P h m (fst d) in
    (ok, fl, (dev', snd d))
|}.

(** The requests of [exitCommandMode], of [setSampleRateAndResolution] and
    of the change of packet format in [hwInitV4]. *)
Definition exit_request `{PS2Port} : list PS2Command :=
  [send kDP_SetMouseStreamMode].

Definition rate_request `{PS2Port} `{PS2CommandBytes} (rate res : Z)
  : list PS2Command :=
  [send kDP_SetMouseSampleRate; send rate;
   send kDP_SetMouseResolution; send res; send kDP_Enable].

Definition format_request `{PS2Port} `{PS2CommandBytes} : list PS2Command :=
  [send kDP_SetMouseSampleRate; send 0xc8;
   send kDP_SetMouseSampleRate; send 0x64;
   send kDP_SetMouseSampleRate; send 0x50; send kDP_GetId].

(** The standard command bytes of a PS/2 mouse. *)
Definition standard_bytes : PS2CommandBytes := {|
  kDP_MouseSetPoll := 0xf0;
  kDP_SetDefaults := 0xf6;
  kDP_SetMouseSampleRate := 0xf3;
  kDP_CommandNibble10 := 0xf2;
  kDP_Enable := 0xf4;
  kDP_GetId := 0xf2
|}.

(** On a recording port: code that only adds requests to the list. *)
Definition appends {P : PS2Port} {A : Type}
    (m : @HwInit.io (recording P) A) : Prop :=
  forall d r d', m d = Some (r, d') -> exists tr, snd d' = snd d ++ tr.

(** On a recording port: code that submits the request of [exitCommandMode]
    and after it only requests [post], which [Q] relates to the result. *)
Definition leaves_command_mode {P : PS2Port} {A : Type}
    (Q : A -> list (list PS2Command) -> Prop)
    (m : @HwInit.io (recording P) A) : Prop :=
  forall d r d',
    m d = Some (r, d') ->
    exists pre post,
      snd d' = snd d ++ pre ++ @exit_request P :: post /\ Q r post.

(* ------------------------------------------------------------------------- *)
(** * Further concrete objects *)

(** The fields after the bitmap packet and the stored position packet of a
    two-finger frame were decoded. *)
Definition two_finger_fields : alps_fields :=
  decode_fields Pinnacle
    (decode_fields Pinnacle uninitialised_fields bitmap_packet)
    position_packet.

(** A bare PS/2 packet with the left button held, x = 5 and the sign bit of
    y set (y = 0xfd). *)
Definition relative_packet : list Z := [0x29; 0x05; 0xfd].

(** A device that reports the signature of the V4 entry of the model table,
    and one that reports a Rushmore touchpad. *)
Definition v4_port : PS2Port :=
  canned_port (0x00, 0x00, 0x0a) (0x73, 0x02, 0x64) (0x88, 0x07, 0x8a).

Definition rushmore_port : PS2Port :=
  canned_port (0x00, 0x00, 0x0a) (0x73, 0x03, 0x0a) (0x88, 0x08, 0x22).

(** Members of a touchpad on which a key was pressed at 1000 ns: touches
    outside the zone (100..900, 100..700) are dropped for 500 ns. *)
Definition typing_members : members :=
  fun k =>
    match k with
    | z_finger => 30
    | outzone_wt => 1
    | keytime => 1000
    | maxaftertyping => 500
    | zonel => 100
    | zoner => 900
    | zoneb => 100
    | zonet => 700
    | clickpadtype => 1
    | last_fingers => 1
    | _ => 0
    end.

Definition typing_driver : @driver plain_base :=
  trackstick_driver_with typing_members.


(* ------------------------------------------------------------------------- *)
(** * Theorems *)

Lemma in_sequence_weaken lo lo' out :
  (lo' <= lo)%nat -> in_sequence lo out -> in_sequence lo' out.
Proof.
  destruct out as [|[e p] r]; simpl; auto.
  intros Hle [H1 H2]. split; [lia | exact H2].
Qed.

Lemma in_sequence_later lo out :
  in_sequence lo out ->
  forall e p, In (e, p) out -> (lo + length p <= e)%nat.
Proof.
  revert lo. induction out as [|[e0 p0] r IH]; simpl; intros lo H e p Hin.
  - contradiction.
  - destruct H as [H1 H2]. destruct Hin as [Heq | Hin].
    + inversion Heq; subst. exact H1.
    + specialize (IH e0 H2 e p Hin). lia.
Qed.

Lemma in_sequence_pairwise lo out :
  in_sequence lo out ->
  forall i j e1 p1 e2 p2, (i < j)%nat ->
    nth_error out i = Some (e1, p1) -> nth_error out j = Some (e2, p2) ->
    (e1 + length p2 <= e2)%nat.
Proof.
  revert lo. induction out as [|[e0 p0] r IH]; intros lo H i j e1 p1 e2 p2 Hij Hi Hj.
  - destruct i; discriminate.
  - destruct H as [H1 H2]. destruct j as [|j]; [lia|].
    simpl in Hj. destruct i as [|i].
    + simpl in Hi. inversion Hi; subst.
      apply nth_error_In in Hj.
      exact (in_sequence_later _ _ H2 _ _ Hj).
    + simpl in Hi. eapply (IH e0 H2 i j); eauto. lia.
Qed.

Lemma feed_invariant modelData input :
  forall before in_progress,
    let out := feed modelData in_progress (length (before ++ in_progress)) input in
    in_sequence (length before) out
    /\ forall e packet, In (e, packet) out ->
         packet_length_ok modelData packet
         /\ source_segment (before ++ in_progress ++ input) e packet.
Proof.
  induction input as [|data rest IH]; intros before st; simpl.
  - split; [exact I | intros ? ? []].
  - unfold interruptOccurred.
    destruct ((Z.of_nat (length st) =? 0)
              && negb (Z.land data 0xc8 =? 0x08)
              && negb (Z.land data (mask0 modelData) =? byte0 modelData)) eqn:Hrej.
    + (* resync: byte discarded at cursor 0 *)
      assert (st = []) as ->.
      { apply andb_true_iff in Hrej as [Hrej _].
        apply andb_true_iff in Hrej as [Hrej _].
        apply Z.eqb_eq in Hrej. destruct st; [reflexivity | simpl in Hrej; lia]. }
      specialize (IH (before ++ [data]) []).
      replace (S (length (before ++ []))) with (length ((before ++ [data]) ++ []))
        by (rewrite !app_nil_r, length_app; simpl; lia).
      destruct IH as [IH1 IH2]. split.
      * eapply in_sequence_weaken; [|exact IH1]. rewrite length_app; simpl; lia.
      * intros e p Hin. destruct (IH2 e p Hin) as [Hl Hs]. split; [exact Hl|].
        simpl in *. rewrite <- app_assoc in Hs. exact Hs.
    + destruct ((1 <=? Z.of_nat (length st)) && (data =? 0x80)) eqn:Habort.
      * (* invalid continuation byte: abort *)
        specialize (IH (before ++ st ++ [data]) []).
        replace (S (length (before ++ st)))
          with (length ((before ++ st ++ [data]) ++ []))
          by (rewrite app_nil_r, !length_app; simpl; lia).
        destruct IH as [IH1 IH2]. split.
        -- eapply in_sequence_weaken; [|exact IH1]. rewrite !length_app; simpl; lia.
        -- intros e p Hin. destruct (IH2 e p Hin) as [Hl Hs]. split; [exact Hl|].
           simpl in Hs. rewrite <- !app_assoc in Hs. exact Hs.
      * destruct ((pktsize modelData =? Z.of_nat (length (st ++ [data])))
                  || ((kPacketLengthSmall =? Z.of_nat (length (st ++ [data])))
                      && (Z.land (byte_at (st ++ [data]) 0) 0xc8 =? 0x08))) eqn:Hready.
        -- (* packet complete *)
           specialize (IH (before ++ st ++ [data]) []).
           replace (S (length (before ++ st)))
             with (length ((before ++ st ++ [data]) ++ [])) in *
             by (rewrite app_nil_r, !length_app; simpl; lia).
           destruct IH as [IH1 IH2]. simpl. split.
           ++ split.
              ** rewrite app_nil_r, !length_app. simpl. lia.
              ** rewrite app_nil_r in *. exact IH1.
           ++ intros e p [Heq | Hin].
              ** inversion Heq; subst e p. split.
                 --- apply orb_true_iff in Hready as [H | H].
                     +++ left. apply Z.eqb_eq in H. symmetry. exact H.
                     +++ right. apply andb_true_iff in H as [H1 H2].
                         apply Z.eqb_eq in H1, H2. unfold kPacketLengthSmall in H1.
                         split; [lia | exact H2].
                 --- exists before, rest. split.
                     +++ rewrite <- !app_assoc. reflexivity.
                     +++ rewrite app_nil_r. reflexivity.
              ** destruct (IH2 e p Hin) as [Hl Hs]. split; [exact Hl|].
                 simpl in Hs. rewrite <- !app_assoc in Hs. exact Hs.
        -- (* keep buffering *)
           specialize (IH before (st ++ [data])).
           replace (S (length (before ++ st)))
             with (length (before ++ st ++ [data]))
             by (rewrite !length_app; simpl; lia).
           destruct IH as [IH1 IH2]. split; [exact IH1|].
           intros e p Hin. destruct (IH2 e p Hin) as [Hl Hs]. split; [exact Hl|].
           rewrite <- !app_assoc in Hs. exact Hs.
Qed.

(** The packets [interruptOccurred] completes.  Whatever bytes are fed one
    at a time to [interruptOccurred], starting from an empty in-progress
    packet, every packet it completes has the
    profile's packet size, or is exactly three bytes long with a first byte
    that carries the bare PS/2 signature [(b & 0xc8) == 0x08]; each completed
    packet is a stretch of consecutive source bytes, and a later packet starts
    at or after the offset where an earlier one ended, so that no two of them
    share a source byte. *)
Theorem framer_packets_sized_and_disjoint (modelData : alps_data) (input : list Z) :
  let out := feed modelData [] 0 input in
  (forall e packet, In (e, packet) out ->
     packet_length_ok modelData packet /\ source_segment input e packet)
  /\ (forall i j e1 p1 e2 p2, (i < j)%nat ->
        nth_error out i = Some (e1, p1) -> nth_error out j = Some (e2, p2) ->
        (length p2 <= e2 /\ e1 <= e2 - length p2)%nat).
Proof.
  destruct (feed_invariant modelData input [] []) as [Hseq Hall].
  simpl in Hseq, Hall. split.
  - exact Hall.
  - intros i j e1 p1 e2 p2 Hij Hi Hj.
    pose proof (in_sequence_pairwise _ _ Hseq i j e1 p1 e2 p2 Hij Hi Hj). lia.
Qed.

(* ------------------------------------------------------------------------- *)
(** * Bitmap scanning *)

Lemma land_1_odd m : Z.land m 1 = if Z.odd m then 1 else 0.
Proof.
  change 1 with (Z.ones 1) at 1. rewrite Z.land_ones by lia.
  change (2 ^ 1) with 2. apply Zmod_odd.
Qed.

Lemma shiftr_1_bound m n :
  0 <= m < 2 ^ Z.of_nat (S n) -> 0 <= Z.shiftr m 1 < 2 ^ Z.of_nat n.
Proof.
  intros [H0 H1]. rewrite Z.shiftr_div_pow2 by lia. change (2 ^ 1) with 2.
  rewrite Nat2Z.inj_succ, Z.pow_succ_r in H1 by lia.
  split.
  - apply Z.div_pos; lia.
  - apply Z.div_lt_upper_bound; lia.
Qed.

Lemma bitmap_loop_zero fuel i prev s : bitmap_loop fuel i 0 prev s = s.
Proof. destruct fuel; reflexivity. Qed.

(** The loop leaves through [map != 0] within as many iterations as the word
    has bits: more fuel does not change its result. *)
Lemma bitmap_loop_enough_fuel (n : nat) :
  forall extra i m prev s,
    0 <= m < 2 ^ Z.of_nat n ->
    bitmap_loop (n + extra) i m prev s = bitmap_loop n i m prev s.
Proof.
  induction n as [|n IH]; intros extra i m prev s Hm.
  - assert (m = 0) as -> by (change (2 ^ Z.of_nat 0) with 1 in Hm; lia).
    rewrite !bitmap_loop_zero. reflexivity.
  - cbn [Nat.add bitmap_loop]. destruct (m =? 0); [reflexivity|].
    apply IH. apply shiftr_1_bound. exact Hm.
Qed.

Lemma run_starts_zero n prev : run_starts n 0 prev = 0.
Proof.
  revert prev. induction n as [|n IH]; intros prev; simpl; [reflexivity|].
  rewrite IH. reflexivity.
Qed.

Lemma body_fingers i bit prev s :
  scan_fingers (bitmap_loop_body i bit prev s)
  = scan_fingers s + (if negb (bit =? 0) && (prev =? 0) then 1 else 0).
Proof.
  unfold bitmap_loop_body, assign.
  destruct (bit =? 0), (prev =? 0), (scan_point s); simpl; lia.
Qed.

Lemma bitmap_loop_fingers fuel :
  forall i m prev s,
    0 <= m < 2 ^ Z.of_nat fuel ->
    scan_fingers (bitmap_loop fuel i m prev s)
    = scan_fingers s + run_starts fuel m (negb (prev =? 0)).
Proof.
  induction fuel as [|fuel IH]; intros i m prev s Hm.
  - simpl. lia.
  - cbn [bitmap_loop run_starts].
    destruct (m =? 0) eqn:Hz.
    + apply Z.eqb_eq in Hz. subst m. cbn [Z.odd andb].
      change (Z.shiftr 0 1) with 0. rewrite run_starts_zero. lia.
    + rewrite IH by (apply shiftr_1_bound; exact Hm).
      rewrite body_fingers, land_1_odd.
      destruct (Z.odd m), (prev =? 0); cbn [negb andb Z.eqb]. all: lia.
Qed.

Lemma run_starts_filter n :
  forall m prev,
    run_starts n m prev
    = Z.of_nat (length (filter
        (fun k => Z.testbit m k
                  && negb (if k =? 0 then prev else Z.testbit m (k - 1)))
        (List.map Z.of_nat (seq 0 n)))).
Proof.
  induction n as [|n IH]; intros m prev; [reflexivity|].
  cbn [run_starts]. rewrite IH.
  rewrite <- cons_seq, <- seq_shift. cbn [List.map filter].
  rewrite Z.bit0_odd. change (Z.of_nat 0 =? 0) with true. cbv iota.
  rewrite List.map_map.
  rewrite !filter_map_swap, !length_map.
  assert (Hext :
    filter (fun a : nat =>
      Z.testbit (Z.shiftr m 1) (Z.of_nat a)
      && negb (if Z.of_nat a =? 0 then Z.odd m
               else Z.testbit (Z.shiftr m 1) (Z.of_nat a - 1))) (seq 0 n)
    = filter (fun a : nat =>
      Z.testbit m (Z.of_nat (S a))
      && negb (if Z.of_nat (S a) =? 0 then prev
               else Z.testbit m (Z.of_nat (S a) - 1))) (seq 0 n)).
  { apply filter_ext. intros a.
    rewrite Z.shiftr_spec by lia.
    replace (Z.of_nat a + 1) with (Z.of_nat (S a)) by lia.
    f_equal. f_equal.
    destruct (Z.of_nat (S a) =? 0) eqn:E1; [apply Z.eqb_eq in E1; lia|].
    destruct (Z.of_nat a =? 0) eqn:E2.
    - apply Z.eqb_eq in E2. replace (Z.of_nat (S a) - 1) with 0 by lia.
      symmetry. apply Z.bit0_odd.
    - apply Z.eqb_neq in E2. rewrite Z.shiftr_spec by lia.
      f_equal. lia. }
  rewrite Hext.
  destruct (Z.odd m && negb prev); cbn [length]; rewrite length_map; lia.
Qed.

Lemma run_starts_maximal_runs m : run_starts 32 m false = maximal_runs m.
Proof.
  rewrite run_starts_filter. unfold maximal_runs.
  set (l := List.map Z.of_nat (seq 0 32)).
  rewrite (filter_ext_in
             (fun k => Z.testbit m k
                       && negb (if k =? 0 then false else Z.testbit m (k - 1)))
             (run_start m) l); [reflexivity|].
  intros k _. unfold run_start.
  destruct (k =? 0) eqn:E; [|reflexivity].
  apply Z.eqb_eq in E. subst k. rewrite (Z.testbit_neg_r m (0 - 1)) by lia.
  reflexivity.
Qed.

Lemma alps_get_bitmap_points_fingers map low high fingers0 :
  0 <= map < 2 ^ 32 ->
  snd (alps_get_bitmap_points map low high fingers0)
  = fingers0 + maximal_runs map.
Proof.
  intros Hm. unfold alps_get_bitmap_points. cbn [snd].
  rewrite bitmap_loop_fingers by exact Hm.
  cbn [scan_fingers]. change (negb (0 =? 0)) with false.
  rewrite run_starts_maximal_runs. reflexivity.
Qed.

Lemma bitmap_loop_skip_zeros (k : nat) :
  forall fuel i m s,
    0 < m ->
    bitmap_loop (k + fuel) i (Z.shiftl m (Z.of_nat k)) 0 s
    = bitmap_loop fuel (i + Z.of_nat k) m 0 s.
Proof.
  induction k as [|k IH]; intros fuel i m s Hm.
  - cbn [Nat.add]. change (Z.of_nat 0) with 0.
    rewrite Z.shiftl_0_r, Z.add_0_r. reflexivity.
  - cbn [Nat.add bitmap_loop].
    assert (Hsh : Z.shiftl m (Z.of_nat (S k)) = 2 * Z.shiftl m (Z.of_nat k)).
    { rewrite !Z.shiftl_mul_pow2 by lia.
      rewrite Nat2Z.inj_succ, Z.pow_succ_r by lia. lia. }
    assert (Hpos : 0 < Z.shiftl m (Z.of_nat k)).
    { rewrite Z.shiftl_mul_pow2 by lia. apply Z.mul_pos_pos; [lia|].
      apply Z.pow_pos_nonneg; lia. }
    rewrite Hsh.
    destruct (2 * Z.shiftl m (Z.of_nat k) =? 0) eqn:E;
      [apply Z.eqb_eq in E; lia|].
    rewrite land_1_odd, Z.odd_mul. cbn [Z.odd andb].
    rewrite Z.shiftr_div_pow2 by lia. change (2 ^ 1) with 2.
    rewrite Z.mul_comm, Z.div_mul by lia.
    unfold bitmap_loop_body. cbn [Z.eqb negb].
    rewrite IH by exact Hm. f_equal. lia.
Qed.

Lemma ones_succ (n : nat) : Z.ones (Z.of_nat (S n)) = 2 * Z.ones (Z.of_nat n) + 1.
Proof.
  rewrite !Z.ones_equiv, Nat2Z.inj_succ, Z.pow_succ_r by lia. lia.
Qed.

Lemma ones_nonneg (n : nat) : 0 <= Z.ones (Z.of_nat n).
Proof.
  rewrite Z.ones_equiv. pose proof (Z.pow_pos_nonneg 2 (Z.of_nat n)). lia.
Qed.

Lemma bitmap_loop_ones (n : nat) :
  forall fuel i lo hi f,
    (n <= fuel)%nat ->
    bitmap_loop fuel i (Z.ones (Z.of_nat n)) 1 (mk_scan lo hi f to_low)
    = mk_scan (mk_point (start_bit lo) (num_bits lo + Z.of_nat n)) hi f to_low.
Proof.
  induction n as [|n IH]; intros fuel i [a b] hi f Hf.
  - change (Z.ones (Z.of_nat 0)) with 0.
    destruct fuel; simpl; rewrite Z.add_0_r; reflexivity.
  - destruct fuel as [|fuel]; [lia|]. cbn [bitmap_loop].
    pose proof (ones_nonneg n) as Hn.
    rewrite ones_succ.
    destruct (2 * Z.ones (Z.of_nat n) + 1 =? 0) eqn:E;
      [apply Z.eqb_eq in E; lia|].
    rewrite land_1_odd.
    rewrite Z.odd_add, Z.odd_mul. cbn [Z.odd andb xorb].
    rewrite Z.shiftr_div_pow2 by lia. change (2 ^ 1) with 2.
    replace ((2 * Z.ones (Z.of_nat n) + 1) / 2) with (Z.ones (Z.of_nat n))
      by (apply Z.div_unique with (r := 1); lia).
    change (bitmap_loop_body i 1 1 (mk_scan (mk_point a b) hi f to_low))
      with (mk_scan (mk_point a (b + 1)) hi f to_low).
    rewrite IH by lia. cbn [start_bit num_bits].
    f_equal. f_equal. lia.
Qed.

Lemma bitmap_loop_single_run (s n : Z) low high fingers0 :
  0 <= s -> 0 < n -> s + n <= 32 ->
  bitmap_loop 32 0 (Z.shiftl (Z.ones n) s) 0 (mk_scan low high fingers0 to_low)
  = mk_scan (mk_point s n) high (fingers0 + 1) to_low.
Proof.
  intros Hs Hn Hsn.
  destruct (Z.to_nat n) as [|n'] eqn:En; [lia|].
  assert (Hn' : n = Z.of_nat (S n')) by lia.
  assert (Hs' : s = Z.of_nat (Z.to_nat s)) by lia.
  rewrite Hs' at 1.
  replace 32%nat with (Z.to_nat s + (32 - Z.to_nat s))%nat by lia.
  rewrite bitmap_loop_skip_zeros.
  2:{ rewrite Z.ones_equiv. pose proof (Z.pow_gt_1 2 n). lia. }
  destruct (32 - Z.to_nat s)%nat as [|fuel] eqn:Ef; [lia|].
  cbn [bitmap_loop]. rewrite Hn', ones_succ.
  pose proof (ones_nonneg n') as Hnn.
  destruct (2 * Z.ones (Z.of_nat n') + 1 =? 0) eqn:E;
    [apply Z.eqb_eq in E; lia|].
  rewrite land_1_odd.
  rewrite Z.odd_add, Z.odd_mul. cbn [Z.odd andb xorb].
  rewrite Z.shiftr_div_pow2 by lia. change (2 ^ 1) with 2.
  replace ((2 * Z.ones (Z.of_nat n') + 1) / 2) with (Z.ones (Z.of_nat n'))
    by (apply Z.div_unique with (r := 1); lia).
  change (bitmap_loop_body (0 + Z.of_nat (Z.to_nat s)) 1 0
            (mk_scan low high fingers0 to_low))
    with (mk_scan (mk_point (0 + Z.of_nat (Z.to_nat s)) (0 + 1)) high
            (fingers0 + 1) to_low).
  rewrite bitmap_loop_ones by lia.
  cbn [start_bit num_bits].
  replace (0 + Z.of_nat (Z.to_nat s)) with s by lia.
  replace (0 + 1 + Z.of_nat n') with (Z.of_nat (S n')) by lia.
  reflexivity.
Qed.

Lemma alps_get_bitmap_points_single_run (s n : Z) low high fingers0 :
  0 <= s -> 0 < n -> s + n <= 32 ->
  alps_get_bitmap_points (Z.shiftl (Z.ones n) s) low high fingers0
  = (mk_point s n, high, fingers0 + 1).
Proof.
  intros Hs Hn Hsn. unfold alps_get_bitmap_points.
  rewrite bitmap_loop_single_run by assumption. reflexivity.
Qed.


Lemma single_run_in_range (s n : Z) :
  0 <= s -> 0 < n -> s + n <= 32 ->
  0 <= Z.shiftl (Z.ones n) s < 2 ^ 32.
Proof.
  intros Hs Hn Hsn.
  rewrite Z.shiftl_mul_pow2, Z.ones_equiv by lia.
  pose proof (Z.pow_pos_nonneg 2 n ltac:(lia) ltac:(lia)) as H1.
  pose proof (Z.pow_pos_nonneg 2 s ltac:(lia) ltac:(lia)) as H2.
  assert (H3 : 2 ^ n * 2 ^ s <= 2 ^ 32).
  { rewrite <- Z.pow_add_r by lia. apply Z.pow_le_mono_r; lia. }
  nia.
Qed.

Lemma single_run_has_one_run (s n : Z) :
  0 <= s -> 0 < n -> s + n <= 32 ->
  maximal_runs (Z.shiftl (Z.ones n) s) = 1.
Proof.
  intros Hs Hn Hsn.
  pose proof (alps_get_bitmap_points_fingers (Z.shiftl (Z.ones n) s)
                (mk_point 0 0) (mk_point 0 0) 0
                (single_run_in_range s n Hs Hn Hsn)) as H.
  rewrite alps_get_bitmap_points_single_run in H by assumption.
  cbn [snd] in H. lia.
Qed.

(** C3 (as amended).  An axis bitmap made of exactly one maximal run of [n]
    set bits starting at bit [s] is counted as one contact, and that contact
    is divided as follows: the low point keeps [n - floor(n/2)] bits from
    bit [s]; the synthetic high point gets [floor(n/2)] bits, at least 1,
    and starts at bit [s + floor(n/2)]. *)
Theorem single_run_split (s n : Z) :
  0 <= s -> 0 < n -> s + n <= 32 ->
  maximal_runs (Z.shiftl (Z.ones n) s) = 1
  /\ let '(low, high, fingers_axis) :=
       alps_get_bitmap_points (Z.shiftl (Z.ones n) s)
         (mk_point 0 0) (mk_point 0 0) 0 in
     fingers_axis = 1
     /\ split_single_contact fingers_axis low high
        = (mk_point s (n - n / 2), mk_point (s + n / 2) (Z.max (n / 2) 1)).
Proof.
  intros Hs Hn Hsn. split; [apply single_run_has_one_run; assumption|].
  rewrite alps_get_bitmap_points_single_run by assumption.
  split; [reflexivity|].
  unfold split_single_contact. cbn [Z.add Z.eqb Pos.eqb start_bit num_bits].
  rewrite Z.quot_div_nonneg by lia. reflexivity.
Qed.

Lemma single_run_split_witness :
  (0 <= 2 /\ 0 < 3 /\ 2 + 3 <= 32)
  /\ maximal_runs (Z.shiftl (Z.ones 3) 2) = 1
  /\ let '(low, high, fingers_axis) :=
       alps_get_bitmap_points (Z.shiftl (Z.ones 3) 2)
         (mk_point 0 0) (mk_point 0 0) 0 in
     fingers_axis = 1
     /\ split_single_contact fingers_axis low high
        = (mk_point 2 (3 - 3 / 2), mk_point (2 + 3 / 2) (Z.max (3 / 2) 1)).
Proof.
  split; [lia|].
  exact (single_run_split 2 3 ltac:(lia) ltac:(lia) ltac:(lia)).
Defined.

(** The split stated the other way round (low point [floor(n/2)] bits, high
    point the remainder and right after the low point) fails on the bitmap
    [0b111]: the low point keeps 2 bits and the high point gets 1 bit,
    starting at bit 1. *)
Lemma single_run_split_counterexample :
  let '(low, high, fingers_axis) :=
    alps_get_bitmap_points 7 (mk_point 0 0) (mk_point 0 0) 0 in
  let '(low', high') := split_single_contact fingers_axis low high in
  maximal_runs 7 = 1
  /\ (low', high') = (mk_point 0 2, mk_point 1 1)
  /\ ~ (num_bits low' = 3 / 2
        /\ num_bits high' = Z.max (3 - 3 / 2) 1
        /\ start_bit high' = start_bit low' + num_bits low').
Proof.
  vm_compute. split; [reflexivity|]. split; [reflexivity|].
  intros [H _]. discriminate H.
Qed.

Lemma processBitmap_result modelData f :
  0 <= f_x_map f < 2 ^ 32 -> 0 <= f_y_map f < 2 ^ 32 ->
  fst (fst (processBitmap modelData f))
  = if (f_x_map f =? 0) || (f_y_map f =? 0) then 0
    else Z.max (maximal_runs (f_x_map f)) (maximal_runs (f_y_map f)).
Proof.
  intros Hx Hy. unfold processBitmap.
  destruct ((f_x_map f =? 0) || (f_y_map f =? 0)); [reflexivity|].
  pose proof (alps_get_bitmap_points_fingers (f_x_map f)
                (mk_point 0 0) (mk_point 0 0) 0 Hx) as Fx.
  pose proof (alps_get_bitmap_points_fingers (f_y_map f)
                (mk_point 0 0) (mk_point 0 0) 0 Hy) as Fy.
  destruct (alps_get_bitmap_points (f_x_map f) _ _ _) as [[xl xh] fx].
  destruct (alps_get_bitmap_points (f_y_map f) _ _ _) as [[yl yh] fy].
  cbn [snd] in Fx, Fy. subst fx fy.
  destruct (split_single_contact _ xl xh) as [xl' xh'].
  destruct (split_single_contact _ yl yh) as [yl' yh'].
  cbn [fst]. rewrite !Z.add_0_l. reflexivity.
Qed.

(** C4.  For bitmap words (32-bit unsigned values), [processBitmap] returns
    0 when either word is 0, and otherwise the larger of the numbers of
    maximal runs of set bits of the two words; with a single set bit in each
    word the result is at most 2. *)
Theorem processBitmap_finger_count modelData f :
  0 <= f_x_map f < 2 ^ 32 -> 0 <= f_y_map f < 2 ^ 32 ->
  fst (fst (processBitmap modelData f))
  = (if (f_x_map f =? 0) || (f_y_map f =? 0) then 0
     else Z.max (maximal_runs (f_x_map f)) (maximal_runs (f_y_map f)))
  /\ (forall i j, 0 <= i < 32 -> 0 <= j < 32 ->
        f_x_map f = 2 ^ i -> f_y_map f = 2 ^ j ->
        fst (fst (processBitmap modelData f)) <= 2).
Proof.
  intros Hx Hy. split; [apply processBitmap_result; assumption|].
  intros i j Hi Hj Ex Ey.
  rewrite processBitmap_result by assumption. rewrite Ex, Ey.
  assert (Hr : forall k, 0 <= k < 32 -> maximal_runs (2 ^ k) = 1).
  { intros k Hk. rewrite <- (Z.shiftl_1_l k).
    change 1 with (Z.ones 1) at 1. apply single_run_has_one_run; lia. }
  rewrite (Hr i Hi), (Hr j Hj).
  destruct ((2 ^ i =? 0) || (2 ^ j =? 0)); lia.
Qed.

Lemma processBitmap_finger_count_witness :
  let f := mk_alps_fields 20 6 2 512 256 40 false false false false false
             false false false 0 0 0 0 in
  let g := mk_alps_fields (2 ^ 3) (2 ^ 5) 2 512 256 40 false false false false
             false false false false 0 0 0 0 in
  (0 <= f_x_map f < 2 ^ 32 /\ 0 <= f_y_map f < 2 ^ 32)
  /\ fst (fst (processBitmap pinnacle_waiting f))
     = Z.max (maximal_runs 20) (maximal_runs 6)
  /\ fst (fst (processBitmap pinnacle_waiting g)) <= 2.
Proof.
  cbv zeta.
  assert (Hf : forall v, 0 <= v < 2 ^ 5 + 1 -> 0 <= v < 2 ^ 32) by lia.
  split; [split; apply Hf; cbn; lia|]. split.
  - apply (processBitmap_finger_count pinnacle_waiting
             (mk_alps_fields 20 6 2 512 256 40 false false false false false
                false false false 0 0 0 0));
      apply Hf; cbn; lia.
  - refine (proj2 (processBitmap_finger_count pinnacle_waiting
                     (mk_alps_fields (2 ^ 3) (2 ^ 5) 2 512 256 40 false false
                        false false false false false false 0 0 0 0) _ _)
                  3 5 _ _ eq_refl eq_refl);
      try (apply Hf; cbn; lia); lia.
Defined.

(* ------------------------------------------------------------------------- *)
(** * Ranges of decoded fields and of bounding corners *)

Lemma land_le_r a m : 0 <= m -> 0 <= Z.land a m <= m.
Proof.
  intros Hm. split; [apply Z.land_nonneg; right; exact Hm|].
  assert (H0 : 0 <= Z.land (Z.lnot a) m) by (apply Z.land_nonneg; right; exact Hm).
  assert (H1 : Z.lor (Z.land a m) (Z.land (Z.lnot a) m) = m).
  { apply Z.bits_inj'. intros n Hn.
    rewrite Z.lor_spec, !Z.land_spec, Z.lnot_spec by exact Hn.
    destruct (Z.testbit a n), (Z.testbit m n); reflexivity. }
  assert (H2 : Z.land (Z.land a m) (Z.land (Z.lnot a) m) = 0).
  { apply Z.bits_inj'. intros n Hn.
    rewrite !Z.land_spec, Z.lnot_spec, Z.bits_0 by exact Hn.
    destruct (Z.testbit a n), (Z.testbit m n); reflexivity. }
  pose proof (Z.add_lor_land (Z.land a m) (Z.land (Z.lnot a) m)) as H3.
  rewrite H1, H2 in H3. lia.
Qed.

Lemma bounded_land a m : 0 <= m -> bounded (Z.land a m) m.
Proof. apply land_le_r. Qed.

Lemma bounded_lor a b A B :
  bounded a A -> bounded b B -> bounded (Z.lor a b) (A + B).
Proof.
  intros [Ha HA] [Hb HB]. split; [apply Z.lor_nonneg; split; assumption|].
  pose proof (Z.add_lor_land a b) as H.
  assert (0 <= Z.land a b) by (apply Z.land_nonneg; left; exact Ha). lia.
Qed.

Lemma bounded_shiftl a A k :
  bounded a A -> 0 <= k -> bounded (Z.shiftl a k) (A * 2 ^ k).
Proof.
  intros [Ha HA] Hk. rewrite Z.shiftl_mul_pow2 by exact Hk.
  pose proof (Z.pow_pos_nonneg 2 k ltac:(lia) Hk). split; nia.
Qed.

Lemma bounded_shiftr a A k :
  bounded a A -> 0 <= k -> bounded (Z.shiftr a k) (A / 2 ^ k).
Proof.
  intros [Ha HA] Hk. rewrite Z.shiftr_div_pow2 by exact Hk.
  pose proof (Z.pow_pos_nonneg 2 k ltac:(lia) Hk). split.
  - apply Z.div_pos; lia.
  - apply Z.div_le_mono; lia.
Qed.

Ltac bound_bits :=
  repeat first
    [ eapply bounded_lor
    | eapply bounded_shiftl; [|lia]
    | eapply bounded_shiftr; [|lia]
    | eapply bounded_land; lia ].

Lemma bounded_weaken a A B : bounded a A -> A <= B -> 0 <= a <= B.
Proof. unfold bounded. lia. Qed.

Ltac bits_in_range :=
  eapply bounded_weaken; [bound_bits | vm_compute; intro; discriminate].



Lemma body_below i bit prev s :
  0 <= i -> scan_below i s -> scan_below (i + 1) (bitmap_loop_body i bit prev s).
Proof.
  intros Hi [Hl Hh]. unfold scan_below, point_below in *.
  unfold bitmap_loop_body, assign, deref.
  destruct s as [[ls ln] [hs hn] f p]. cbn in *.
  destruct (bit =? 0), (prev =? 0), p; cbn; lia.
Qed.

Lemma bitmap_loop_below fuel :
  forall i m prev s,
    0 <= i -> scan_below i s ->
    scan_below (i + Z.of_nat fuel) (bitmap_loop fuel i m prev s).
Proof.
  induction fuel as [|fuel IH]; intros i m prev s Hi Hs.
  - simpl. rewrite Z.add_0_r. exact Hs.
  - cbn [bitmap_loop]. destruct (m =? 0).
    + destruct Hs as [Hl Hh]. unfold scan_below, point_below in *. lia.
    + replace (i + Z.of_nat (S fuel)) with (i + 1 + Z.of_nat fuel) by lia.
      apply IH; [lia|]. apply body_below; assumption.
Qed.

Lemma alps_get_bitmap_points_below map :
  let '(low, high, _) :=
    alps_get_bitmap_points map (mk_point 0 0) (mk_point 0 0) 0 in
  point_below 32 low /\ point_below 32 high.
Proof.
  unfold alps_get_bitmap_points.
  pose proof (bitmap_loop_below 32 0 map 0
                (mk_scan (mk_point 0 0) (mk_point 0 0) 0 to_low)
                ltac:(lia)) as H.
  apply H. unfold scan_below, point_below. cbn. lia.
Qed.

Lemma split_below fa low high :
  point_below 32 low -> point_below 32 high ->
  let '(low', high') := split_single_contact fa low high in
  point_below 33 low' /\ point_below 33 high'.
Proof.
  intros Hl Hh. unfold split_single_contact.
  destruct (fa =? 1); [|unfold point_below in *; lia].
  unfold point_below in *. cbn [start_bit num_bits].
  destruct Hl as (H1 & H2 & H3).
  assert (Hq : 0 <= Z.quot (num_bits low) 2
               /\ 2 * Z.quot (num_bits low) 2 <= num_bits low).
  { rewrite Z.quot_div_nonneg by lia. split.
    - apply Z.div_pos; lia.
    - apply Z.mul_div_le; lia. }
  lia.
Qed.

Lemma corner_coord_range max bits p :
  0 <= max <= 2000 -> 11 <= bits -> point_below 33 p ->
  -2000 <= corner_coord max bits p <= 6500.
Proof.
  intros Hm Hb (H1 & H2 & H3). unfold corner_coord.
  assert (Hd : 0 < 2 * (bits - 1)) by lia.
  set (t := 2 * start_bit p + num_bits p) in *.
  assert (Ht : 0 <= t <= 66) by (unfold t; lia).
  assert (Hmt : -2000 <= max * (t - 1) <= 130000).
  { destruct (Z.eq_dec t 0) as [->|Hne]; [lia|]. nia. }
  split.
  - apply Z.quot_le_lower_bound; [exact Hd|]. lia.
  - apply Z.quot_le_upper_bound; [exact Hd|]. lia.
Qed.

Lemma bitmap_corners_range modelData xl xh yl yh :
  profile_in_range modelData ->
  point_below 33 xl -> point_below 33 xh ->
  point_below 33 yl -> point_below 33 yh ->
  Forall corner_in_range (bitmap_corners modelData xl xh yl yh).
Proof.
  intros (Hx & Hy & Hxb & Hyb) Hxl Hxh Hyl Hyh.
  pose proof (corner_coord_range _ _ _ Hx Hxb Hxl).
  pose proof (corner_coord_range _ _ _ Hx Hxb Hxh).
  pose proof (corner_coord_range _ _ _ Hy Hyb Hyl).
  pose proof (corner_coord_range _ _ _ Hy Hyb Hyh).
  unfold bitmap_corners.
  destruct (alps_proto_eqb (proto_version modelData) ALPS_PROTO_V5);
    destruct (alps_proto_eqb (proto_version modelData) ALPS_PROTO_V3
              || alps_proto_eqb (proto_version modelData) ALPS_PROTO_V4);
    cbn [List.map fst snd];
    repeat constructor; cbn [fst snd]; lia.
Qed.

Lemma corners_of_range modelData x_map y_map :
  profile_in_range modelData ->
  Forall corner_in_range (corners_of modelData x_map y_map).
Proof.
  intros Hp. unfold corners_of.
  pose proof (alps_get_bitmap_points_below x_map) as Hx.
  pose proof (alps_get_bitmap_points_below y_map) as Hy.
  destruct (alps_get_bitmap_points x_map _ _ _) as [[xl xh] fx].
  destruct (alps_get_bitmap_points y_map _ _ _) as [[yl yh] fy].
  destruct Hx as [Hxl Hxh]. destruct Hy as [Hyl Hyh].
  pose proof (split_below fx xl xh Hxl Hxh) as Sx.
  pose proof (split_below fy yl yh Hyl Hyh) as Sy.
  destruct (split_single_contact fx xl xh) as [xl' xh'].
  destruct (split_single_contact fy yl yh) as [yl' yh'].
  destruct Sx, Sy. apply bitmap_corners_range; assumption.
Qed.

Lemma corners_of_length modelData x_map y_map :
  length (corners_of modelData x_map y_map) = 4%nat.
Proof.
  unfold corners_of.
  destruct (alps_get_bitmap_points x_map _ _ _) as [[xl xh] fx].
  destruct (alps_get_bitmap_points y_map _ _ _) as [[yl yh] fy].
  destruct (split_single_contact fx xl xh) as [xl' xh'].
  destruct (split_single_contact fy yl yh) as [yl' yh'].
  unfold bitmap_corners.
  destruct (alps_proto_eqb _ ALPS_PROTO_V5);
    destruct (alps_proto_eqb _ ALPS_PROTO_V3 || alps_proto_eqb _ ALPS_PROTO_V4);
    reflexivity.
Qed.

Lemma corner_distance_range f corner i :
  0 <= f_x f <= 2047 -> 0 <= f_y f <= 2047 ->
  Forall corner_in_range corner -> 0 <= i < Z.of_nat (length corner) ->
  0 <= corner_distance f corner i < 0x7fffffff.
Proof.
  intros Hx Hy Hc Hi. unfold corner_distance, corner_at.
  assert (Hr : corner_in_range (nth (Z.to_nat i) corner (0, 0))).
  { rewrite Forall_forall in Hc. apply Hc. apply nth_In. lia. }
  destruct Hr as [H1 H2].
  set (dx := f_x f - fst (nth (Z.to_nat i) corner (0, 0))).
  set (dy := f_y f - snd (nth (Z.to_nat i) corner (0, 0))).
  assert (Hdx : -8547 <= dx <= 8547) by (unfold dx; lia).
  assert (Hdy : -8547 <= dy <= 8547) by (unfold dy; lia).
  assert (Sx : 0 <= dx * dx <= 8547 * 8547).
  { split; [apply Z.square_nonneg|].
    rewrite <- (Z.abs_square dx). apply Z.mul_le_mono_nonneg; lia. }
  assert (Sy : 0 <= dy * dy <= 8547 * 8547).
  { split; [apply Z.square_nonneg|].
    rewrite <- (Z.abs_square dy). apply Z.mul_le_mono_nonneg; lia. }
  lia.
Qed.

Lemma select_second_touch_nearest f corner :
  (forall j, 0 <= j <= 3 -> corner_distance f corner j < 0x7fffffff) ->
  exists c, nearest_corner f corner c
            /\ select_second_touch f corner (-1) = Z.rem (c + 2) 4.
Proof.
  intros Hd. unfold select_second_touch. cbn [Z.eqb fold_left].
  unfold closest_step. cbn [snd].
  pose proof (Hd 0 ltac:(lia)) as H0. pose proof (Hd 1 ltac:(lia)) as H1.
  pose proof (Hd 2 ltac:(lia)) as H2. pose proof (Hd 3 ltac:(lia)) as H3.
  set (d0 := corner_distance f corner 0) in *.
  set (d1 := corner_distance f corner 1) in *.
  set (d2 := corner_distance f corner 2) in *.
  set (d3 := corner_distance f corner 3) in *.
  assert (Hall : forall c, 0 <= c <= 3 ->
            d0 >= corner_distance f corner c -> d1 >= corner_distance f corner c ->
            d2 >= corner_distance f corner c -> d3 >= corner_distance f corner c ->
            nearest_corner f corner c).
  { intros c Hc A0 A1 A2 A3. split; [exact Hc|]. intros j Hj.
    assert (j = 0 \/ j = 1 \/ j = 2 \/ j = 3) as [ -> | [ -> | [ -> | -> ] ] ] by lia;
      fold d0 d1 d2 d3; lia. }
  destruct (d0 <? 2147483647) eqn:E0; [|apply Z.ltb_ge in E0; lia].
  cbn [snd].
  destruct (d1 <? d0) eqn:E1; cbn [snd];
  [ destruct (d2 <? d1) eqn:E2 | destruct (d2 <? d0) eqn:E2 ]; cbn [snd];
  repeat match goal with
         | H : (_ <? _) = true |- _ => apply Z.ltb_lt in H
         | H : (_ <? _) = false |- _ => apply Z.ltb_ge in H
         end.
  - destruct (d3 <? d2) eqn:E3;
      [apply Z.ltb_lt in E3; exists 3 | apply Z.ltb_ge in E3; exists 2];
      (split; [apply Hall; fold d0 d1 d2 d3; lia | reflexivity]).
  - destruct (d3 <? d1) eqn:E3;
      [apply Z.ltb_lt in E3; exists 3 | apply Z.ltb_ge in E3; exists 1];
      (split; [apply Hall; fold d0 d1 d2 d3; lia | reflexivity]).
  - destruct (d3 <? d2) eqn:E3;
      [apply Z.ltb_lt in E3; exists 3 | apply Z.ltb_ge in E3; exists 2];
      (split; [apply Hall; fold d0 d1 d2 d3; lia | reflexivity]).
  - destruct (d3 <? d0) eqn:E3;
      [apply Z.ltb_lt in E3; exists 3 | apply Z.ltb_ge in E3; exists 0];
      (split; [apply Hall; fold d0 d1 d2 d3; lia | reflexivity]).
Qed.

Lemma decode_xy_range d f p :
  f_is_mp (decode_fields d f p) = false ->
  0 <= f_x (decode_fields d f p) <= 2047
  /\ 0 <= f_y (decode_fields d f p) <= 2047.
Proof.
  destruct d; cbn [decode_fields];
    unfold decodePinnacle, decodeRushmore, decodeDolphin.
  - cbn [f_is_mp set_f_mp].
    destruct (nonzero (Z.land (byte_at p 0) 64)); cbn [f_is_mp set_f_maps set_f_mp];
      [discriminate|]. intros _.
    cbn [f_x f_y decodeButtonsV3 set_f_xyz]. split; bits_in_range.
  - cbn [f_is_mp set_f_mp].
    destruct (nonzero (Z.land (byte_at p 5) 64)); cbn [f_is_mp set_f_maps set_f_mp];
      [discriminate|]. intros _.
    cbn [f_x f_y decodeButtonsV3 set_f_xyz]. split; bits_in_range.
  - intros _. cbn [f_x f_y decodeButtonsV3 set_f_xyz]. split; bits_in_range.
Qed.

Lemma processBitmap_effect md f :
  processBitmap md f
  = if (f_x_map f =? 0) || (f_y_map f =? 0) then (0, md, f)
    else
      let corner := corners_of md (f_x_map f) (f_y_map f) in
      let st := select_second_touch f corner (second_touch md) in
      (fst (fst (processBitmap md f)),
       set_second_touch st md,
       set_f_mt (f_x f) (f_y f)
         (fst (corner_at corner st)) (snd (corner_at corner st)) f).
Proof.
  unfold processBitmap, corners_of.
  destruct ((f_x_map f =? 0) || (f_y_map f =? 0)); [reflexivity|].
  destruct (alps_get_bitmap_points (f_x_map f) _ _ _) as [[xl xh] fx].
  destruct (alps_get_bitmap_points (f_y_map f) _ _ _) as [[yl yh] fy].
  destruct (split_single_contact fx xl xh) as [xl' xh'].
  destruct (split_single_contact fy yl yh) as [yl' yh'].
  reflexivity.
Qed.

(* ------------------------------------------------------------------------- *)
(** * V3 touchpad packets *)

Section V3Theorems.
Context `{TouchPadBase}.
Variable gestureTail :
  driver -> bool -> Z -> Z -> Z -> Z -> Z -> Z -> Z -> Z -> Z ->
  driver * list Event.

Lemma second_touch_held decode md f0 packet :
  second_touch md <> -1 ->
  let r := touchpadPacketV3_fields decode md f0 packet in
  (snd r = None
   \/ exists x y z n b, snd r = Some (x, y, z, n, b) /\ 2 <= n) ->
  second_touch (fst r) = second_touch md.
Proof.
  intros Hst r. subst r. unfold touchpadPacketV3_fields.
  destruct (2 <? multi_packet md); [reflexivity|].
  assert (Hpb : forall f, second_touch (snd (fst (processBitmap md f)))
                         = second_touch md).
  { intros f. rewrite processBitmap_effect.
    destruct ((f_x_map f =? 0) || (f_y_map f =? 0)); [reflexivity|].
    cbn [fst snd]. unfold select_second_touch.
    destruct (second_touch md =? -1) eqn:E; [apply Z.eqb_eq in E; contradiction|].
    reflexivity. }
  destruct (nonzero (multi_packet md)).
  - destruct (f_is_mp (decode_fields decode f0 packet)).
    + specialize (Hpb (decode_fields decode (decode_fields decode f0 packet)
                         (multi_data md))).
      destruct (processBitmap md _) as [[ret md'] f'] eqn:Epb.
      cbn [fst snd] in Hpb.
      assert (Hmp : multi_packet md' = multi_packet md).
      { rewrite processBitmap_effect in Epb.
        destruct (_ || _) in Epb; inversion Epb; reflexivity. }
      set (f'' := if f_fingers (decode_fields decode f0 packet) =? 1
                  then set_f_z 0 f' else f').
      destruct (f_is_mp f''); [intros _; exact Hpb|].
      destruct ((multi_packet md' =? 0) && f_first_mp f''); [intros _; exact Hpb|].
      destruct (f_fingers (decode_fields decode f0 packet) <? 2) eqn:En.
      * cbn [fst snd]. intros [Hn | (x & y & z & n & b & Hs & Hn)];
          [discriminate|]. inversion Hs; subst.
        destruct (0 <? f_z _); lia.
      * intros _. exact Hpb.
    + destruct (f_is_mp (decode_fields decode f0 packet)); [reflexivity|].
      destruct (_ && _); [reflexivity|].
      cbn [fst snd Z.ltb Z.compare].
      intros [Hn | (x & y & z & n & b & Hs & Hn)]; [discriminate|].
      inversion Hs; subst. destruct (0 <? f_z _); lia.
  - destruct (f_is_mp (decode_fields decode f0 packet)); [reflexivity|].
    destruct (_ && _); [reflexivity|].
    cbn [fst snd Z.ltb Z.compare].
    intros [Hn | (x & y & z & n & b & Hs & Hn)]; [discriminate|].
    inversion Hs; subst. destruct (0 <? f_z _); lia.
Qed.

Lemma second_touch_cleared decode md f0 packet :
  let r := touchpadPacketV3_fields decode md f0 packet in
  forall x y z n b, snd r = Some (x, y, z, n, b) -> n < 2 ->
    second_touch (fst r) = -1.
Proof.
  intros r x y z n b. subst r. unfold touchpadPacketV3_fields.
  destruct (2 <? multi_packet md); [discriminate|].
  destruct (nonzero (multi_packet md)).
  - destruct (f_is_mp (decode_fields decode f0 packet)).
    + destruct (processBitmap md _) as [[ret md'] f'].
      set (f'' := if f_fingers (decode_fields decode f0 packet) =? 1
                  then set_f_z 0 f' else f').
      destruct (f_is_mp f''); [discriminate|].
      destruct ((multi_packet md' =? 0) && f_first_mp f''); [discriminate|].
      destruct (f_fingers (decode_fields decode f0 packet) <? 2) eqn:En.
      * reflexivity.
      * cbn [fst snd]. intros Hs Hn. inversion Hs; subst.
        apply Z.ltb_ge in En. lia.
    + destruct (f_is_mp (decode_fields decode f0 packet)); [discriminate|].
      destruct (_ && _); [discriminate|]. reflexivity.
  - destruct (f_is_mp (decode_fields decode f0 packet)); [discriminate|].
    destruct (_ && _); [discriminate|]. reflexivity.
Qed.

Lemma second_touch_selected decode md f0 packet :
  profile_in_range md ->
  let f := decode_fields decode f0 packet in
  let fpos := decode_fields decode f (multi_data md) in
  let r := touchpadPacketV3_fields decode md f0 packet in
  1 <= multi_packet md <= 2 -> f_is_mp f = true -> f_is_mp fpos = false ->
  second_touch md = -1 -> 2 <= f_fingers f ->
  f_x_map fpos <> 0 -> f_y_map fpos <> 0 ->
  exists c,
    nearest_corner fpos (corners_of md (f_x_map fpos) (f_y_map fpos)) c
    /\ second_touch (fst r) = Z.rem (c + 2) 4
    /\ exists x y z b, snd r = Some (x, y, z, f_fingers f, b).
Proof.
  intros Hp f fpos r Hmp Hf Hfpos Hst Hn Hx Hy.
  pose proof (decode_xy_range decode f (multi_data md) Hfpos) as [Rx Ry].
  fold fpos in Rx, Ry.
  set (corner := corners_of md (f_x_map fpos) (f_y_map fpos)).
  assert (Hd : forall j, 0 <= j <= 3 -> corner_distance fpos corner j < 0x7fffffff).
  { intros j Hj. apply corner_distance_range; try assumption.
    - apply corners_of_range. exact Hp.
    - unfold corner. rewrite corners_of_length. lia. }
  destruct (select_second_touch_nearest fpos corner Hd) as (c & Hc & Hsel).
  exists c. split; [exact Hc|].
  subst r. unfold touchpadPacketV3_fields. fold f.
  destruct (2 <? multi_packet md) eqn:E2; [apply Z.ltb_lt in E2; lia|].
  unfold nonzero.
  destruct (multi_packet md =? 0) eqn:E0; [apply Z.eqb_eq in E0; lia|].
  cbn [negb]. rewrite Hf. fold fpos.
  rewrite processBitmap_effect.
  destruct ((f_x_map fpos =? 0) || (f_y_map fpos =? 0)) eqn:Ez.
  { apply orb_true_iff in Ez as [Ez|Ez]; apply Z.eqb_eq in Ez; contradiction. }
  cbv zeta. fold corner. rewrite Hst, Hsel.
  destruct (f_fingers f =? 1) eqn:E1; [apply Z.eqb_eq in E1; lia|].
  cbn [f_is_mp set_f_mt]. rewrite Hfpos.
  cbn [multi_packet set_second_touch]. rewrite E0. cbn [andb].
  destruct (f_fingers f <? 2) eqn:E3; [apply Z.ltb_lt in E3; lia|].
  cbn [fst snd second_touch set_multi_packet set_second_touch].
  split; [reflexivity|]. do 4 eexists. reflexivity.
Qed.

(** C2 (as amended).  A frame is a bitmap packet that completes a stored
    position packet.  When no corner is selected, the frame reports at least
    2 fingers and both of its bitmaps are non-empty, [processBitmap] picks a
    corner nearest to the single-touch coordinate by squared Euclidean
    distance and fixes the diagonally opposite corner, and the sample is
    passed on with the reported finger count.  A selected corner is left as
    it is by every packet that passes on no sample or a sample with at least
    2 fingers, and the selection is cleared by every packet that passes on a
    sample with fewer than 2 fingers. *)
Theorem second_touch_corner decode md f0 packet :
  profile_in_range md ->
  let f := decode_fields decode f0 packet in
  let fpos := decode_fields decode f (multi_data md) in
  let r := touchpadPacketV3_fields decode md f0 packet in
  (1 <= multi_packet md <= 2 -> f_is_mp f = true -> f_is_mp fpos = false ->
   second_touch md = -1 -> 2 <= f_fingers f ->
   f_x_map fpos <> 0 -> f_y_map fpos <> 0 ->
   exists c,
     nearest_corner fpos (corners_of md (f_x_map fpos) (f_y_map fpos)) c
     /\ second_touch (fst r) = Z.rem (c + 2) 4
     /\ exists x y z b, snd r = Some (x, y, z, f_fingers f, b))
  /\ (second_touch md <> -1 ->
      (snd r = None
       \/ exists x y z n b, snd r = Some (x, y, z, n, b) /\ 2 <= n) ->
      second_touch (fst r) = second_touch md)
  /\ (forall x y z n b, snd r = Some (x, y, z, n, b) -> n < 2 ->
      second_touch (fst r) = -1).
Proof.
  intros Hp f fpos r. split; [|split].
  - apply second_touch_selected. exact Hp.
  - apply second_touch_held.
  - apply second_touch_cleared.
Qed.

Lemma multi_touch_packet_rejected decode md f0 packet :
  multi_packet md = 0 ->
  f_is_mp (decode_fields decode f0 packet) = true ->
  touchpadPacketV3_fields decode md f0 packet = (md, None).
Proof.
  intros Hmp Hf. unfold touchpadPacketV3_fields.
  rewrite Hmp. cbn [Z.ltb Z.compare nonzero Z.eqb negb]. rewrite Hf. reflexivity.
Qed.

(** C9.  A V3 touchpad packet whose is-multi-touch bit is set, arriving when
    no multi-packet sequence is in progress, is rejected: processing returns
    with the driver object as it was and without any event. *)
Theorem multi_touch_packet_without_sequence_rejected
    decode d f0 packet now_abs now_ns :
  multi_packet (modelData_of d) = 0 ->
  f_is_mp (decode_fields decode f0 packet) = true ->
  processTouchpadPacketV3 gestureTail decode d f0 packet now_abs now_ns
  = (d, []).
Proof.
  intros Hmp Hf. unfold processTouchpadPacketV3.
  rewrite multi_touch_packet_rejected by assumption.
  destruct d; reflexivity.
Qed.

End V3Theorems.

Lemma second_touch_corner_witness :
  profile_in_range pinnacle_waiting
  /\ (exists c,
        nearest_corner
          (decode_fields Pinnacle
             (decode_fields Pinnacle uninitialised_fields bitmap_packet)
             (multi_data pinnacle_waiting))
          (corners_of pinnacle_waiting 20 6) c
        /\ second_touch
             (fst (@touchpadPacketV3_fields plain_base Pinnacle pinnacle_waiting
                     uninitialised_fields bitmap_packet))
           = Z.rem (c + 2) 4)
  /\ second_touch
       (fst (@touchpadPacketV3_fields plain_base Pinnacle pinnacle_selected
               uninitialised_fields bitmap_packet))
     = second_touch pinnacle_selected
  /\ second_touch
       (fst (@touchpadPacketV3_fields plain_base Pinnacle pinnacle_selected
               uninitialised_fields single_touch_packet))
     = -1.
Proof.
  assert (Hp : profile_in_range pinnacle_waiting).
  { unfold profile_in_range. cbn. lia. }
  assert (Hq : profile_in_range pinnacle_selected).
  { unfold profile_in_range. cbn. lia. }
  split; [exact Hp|]. split; [|split].
  - destruct (@second_touch_corner plain_base Pinnacle pinnacle_waiting
                uninitialised_fields bitmap_packet Hp) as (Hsel & _ & _).
    destruct Hsel as (c & Hc & Hst & _).
    + cbn. lia.
    + reflexivity.
    + reflexivity.
    + reflexivity.
    + cbn. lia.
    + cbn. discriminate.
    + cbn. discriminate.
    + exists c. split; [exact Hc | exact Hst].
  - destruct (@second_touch_corner plain_base Pinnacle pinnacle_selected
                uninitialised_fields bitmap_packet Hq) as (_ & Hheld & _).
    apply Hheld.
    + cbn. discriminate.
    + right. exists 1536, 768, 40, 2, 0. split; [reflexivity | lia].
  - destruct (@second_touch_corner plain_base Pinnacle pinnacle_selected
                uninitialised_fields single_touch_packet Hq) as (_ & _ & Hclr).
    apply (Hclr 1536 768 40 1 0); [reflexivity | lia].
Defined.

(** On a first frame that reports 2 fingers and whose x bitmap is empty no
    corner is selected: the sample is passed on with 2 fingers and
    [second_touch] is still -1. *)
Lemma second_touch_corner_counterexample :
  multi_packet pinnacle_waiting = 1
  /\ second_touch pinnacle_waiting = -1
  /\ f_is_mp (decode_fields Pinnacle uninitialised_fields empty_x_bitmap_packet)
     = true
  /\ f_fingers (decode_fields Pinnacle uninitialised_fields empty_x_bitmap_packet)
     = 2
  /\ snd (@touchpadPacketV3_fields plain_base Pinnacle pinnacle_waiting
            uninitialised_fields empty_x_bitmap_packet)
     = Some (0, 0, 40, 2, 0)
  /\ second_touch
       (fst (@touchpadPacketV3_fields plain_base Pinnacle pinnacle_waiting
               uninitialised_fields empty_x_bitmap_packet))
     = -1.
Proof. repeat split; reflexivity. Qed.

Lemma multi_touch_packet_without_sequence_rejected_witness :
  multi_packet (modelData_of idle_driver) = 0
  /\ f_is_mp (decode_fields Pinnacle uninitialised_fields bitmap_packet) = true
  /\ @processTouchpadPacketV3 plain_base no_tail Pinnacle idle_driver
       uninitialised_fields bitmap_packet 0 0
     = (idle_driver, []).
Proof.
  split; [reflexivity|]. split; [reflexivity|].
  apply (@multi_touch_packet_without_sequence_rejected plain_base no_tail);
    reflexivity.
Defined.

(* ------------------------------------------------------------------------- *)
(** * Gesture processing *)

Section DispatchProofs.
Context `{TouchPadBase}.
Variable gestureTail :
  driver -> bool -> Z -> Z -> Z -> Z -> Z -> Z -> Z -> Z -> Z ->
  driver * list Event.

Lemma kept_refl t : kept_before_ignoreall t t.
Proof. repeat split; reflexivity. Qed.

Lemma kept_trans t1 t2 t3 :
  kept_before_ignoreall t1 t2 -> kept_before_ignoreall t2 t3 ->
  kept_before_ignoreall t1 t3.
Proof.
  intros (A1 & A2 & A3 & A4 & A5) (B1 & B2 & B3 & B4 & B5).
  repeat split; try congruence.
  intros k K1 K2 K3 K4. rewrite B5, A5 by assumption. reflexivity.
Qed.

Lemma kept_set_mem t k v :
  (k = lastbuttons \/ k = ignoredeltas \/ k = lastx \/ k = lasty) ->
  kept_before_ignoreall t (set_mem (assign_member (mem t) k v) t).
Proof.
  intros Hk. repeat split; try reflexivity.
  intros k' K1 K2 K3 K4. cbn [mem set_mem]. unfold assign_member.
  destruct (member_eq_dec k' k) as [ -> | ]; [|reflexivity].
  destruct Hk as [ -> | [ -> | [ -> | -> ] ] ]; contradiction.
Qed.

Lemma kept_set_filters t xu yu xa ya :
  kept_before_ignoreall t (set_filters xu yu xa ya t).
Proof. repeat split; reflexivity. Qed.

Lemma kept_reset_filters t : kept_before_ignoreall t (reset_filters t).
Proof. apply kept_set_filters. Qed.

Lemma kept_set_mbutton t mb : kept_before_ignoreall t (set_mbutton mb t).
Proof. repeat split; reflexivity. Qed.

Lemma beforeIgnoreAll_keeps t xraw yraw z fingers' buttonsraw now_abs now_ns :
  let '(t', _, ev, after_typing) :=
    beforeIgnoreAll t xraw yraw z fingers' buttonsraw now_abs now_ns in
  kept_before_ignoreall t t'
  /\ Forall (from_middleButton now_abs) ev
  /\ (after_typing = true -> mem t z_finger < z).
Proof.
  unfold beforeIgnoreAll.
  destruct (if mem t xupmm <? mem t yupmm then _ else _) as [xr yr].
  set (t1 := set_mem (assign_member (mem t) lastbuttons buttonsraw) t).
  assert (K1 : kept_before_ignoreall t t1) by (apply kept_set_mem; auto).
  (* first call of middleButton *)
  set (c1 := if (mem t1 clickpadtype =? 0) || (fingers' =? 3) then _ else _).
  assert (C1 : kept_before_ignoreall t1 (fst (fst c1))
               /\ Forall (from_middleButton now_abs) (snd c1)).
  { subst c1. destruct ((mem t1 clickpadtype =? 0) || (fingers' =? 3)).
    - destruct (middleButton _ _ _ _ _) as [[mb b] ev] eqn:E. cbn [fst snd].
      split; [apply kept_set_mbutton|].
      apply Forall_forall. intros e He. do 4 eexists. rewrite E. exact He.
    - split; [apply kept_refl | constructor]. }
  destruct c1 as [[t2 b2] ev1]. cbn [fst snd] in C1. destruct C1 as [K2 F1].
  set (c2 := if (0 =? mem t2 last_fingers) && (0 <? fingers') then _ else _).
  assert (C2 : kept_before_ignoreall t2 (fst (fst c2))
               /\ Forall (from_middleButton now_abs) (snd c2)).
  { subst c2. destruct ((0 =? mem t2 last_fingers) && (0 <? fingers')).
    - destruct (middleButton _ _ _ _ _) as [[mb b] ev] eqn:E. cbn [fst snd].
      split; [apply kept_set_mbutton|].
      apply Forall_forall. intros e He. do 4 eexists. rewrite E. exact He.
    - split; [apply kept_refl | constructor]. }
  destruct c2 as [[t3 b3] ev2]. cbn [fst snd] in C2. destruct C2 as [K3 F2].
  set (t4 := if (0 <? mem t3 last_fingers) && (0 <? fingers')
                && negb (mem t3 last_fingers =? fingers') then _ else t3).
  assert (K4 : kept_before_ignoreall t3 t4).
  { subst t4.
    destruct ((0 <? mem t3 last_fingers) && (0 <? fingers')
              && negb (mem t3 last_fingers =? fingers'));
      [apply kept_set_mem; auto | apply kept_refl]. }
  set (t5 := if negb (mem t4 last_fingers =? fingers') then reset_filters t4 else t4).
  assert (K5 : kept_before_ignoreall t4 t5).
  { subst t5. destruct (negb (mem t4 last_fingers =? fingers'));
      [apply kept_reset_filters | apply kept_refl]. }
  set (c6 := if nonzero (mem t5 unsmoothinput) then _ else _).
  assert (K6 : kept_before_ignoreall t5 (fst (fst c6))).
  { subst c6. destruct (nonzero (mem t5 unsmoothinput)); [|apply kept_refl].
    destruct (undo_filter (x_undo t5) xr), (undo_filter (y_undo t5) yr).
    apply kept_set_filters. }
  destruct c6 as [[t6 x6] y6]. cbn [fst] in K6.
  set (c7 := if nonzero (mem t6 smoothinput) then _ else _).
  assert (K7 : kept_before_ignoreall t6 (fst (fst c7))).
  { subst c7. destruct (nonzero (mem t6 smoothinput)); [|apply kept_refl].
    destruct (avg_filter (x_avg t6) x6), (avg_filter (y_avg t6) y6).
    apply kept_set_filters. }
  destruct c7 as [[t7 x7] y7]. cbn [fst] in K7.
  match goal with
  | |- context [if nonzero (mem t7 ignoredeltas) then ?a else t7] =>
      set (t8 := if nonzero (mem t7 ignoredeltas) then a else t7)
  end.
  assert (K8 : kept_before_ignoreall t7 t8).
  { subst t8. destruct (nonzero (mem t7 ignoredeltas)); [|apply kept_refl].
    set (ta := set_mem (assign_member (mem t7) lastx x7) t7).
    set (tb := set_mem (assign_member (mem ta) lasty y7) ta).
    set (tc := set_mem (assign_member (mem tb) ignoredeltas
                          (mem tb ignoredeltas - 1)) tb).
    assert (Kc : kept_before_ignoreall t7 tc).
    { apply kept_trans with ta; [apply kept_set_mem; auto|].
      apply kept_trans with tb; apply kept_set_mem; auto. }
    destruct (mem tc ignoredeltas =? 0); [|exact Kc].
    eapply kept_trans; [exact Kc | apply kept_reset_filters]. }
  assert (K : kept_before_ignoreall t t8).
  { eapply kept_trans; [exact K1|]. eapply kept_trans; [exact K2|].
    eapply kept_trans; [exact K3|]. eapply kept_trans; [exact K4|].
    eapply kept_trans; [exact K5|]. eapply kept_trans; [exact K6|].
    eapply kept_trans; [exact K7|]. exact K8. }
  split; [exact K|]. split; [apply Forall_app; split; assumption|].
  intros Hat. destruct K as (_ & _ & _ & _ & K).
  rewrite (K z_finger) in Hat by discriminate.
  destruct (mem t z_finger <? z) eqn:Ez; [apply Z.ltb_lt in Ez; exact Ez|].
  rewrite andb_false_r in Hat. discriminate Hat.
Qed.

Lemma dispatch_when_ignoreall d xraw yraw z fingers' buttonsraw now_abs now_ns :
  mem (touchpad_of d) ignoreall <> 0 ->
  let '(t', _, ev, _) :=
    beforeIgnoreAll (touchpad_of d) xraw yraw z fingers' buttonsraw
      now_abs now_ns in
  dispatchEventsWithInfo gestureTail d xraw yraw z fingers' buttonsraw
    now_abs now_ns
  = (mk_driver _ (modelData_of d) t', ev).
Proof.
  intros Hig. unfold dispatchEventsWithInfo.
  pose proof (beforeIgnoreAll_keeps (touchpad_of d) xraw yraw z fingers'
                buttonsraw now_abs now_ns) as K.
  destruct (beforeIgnoreAll _ _ _ _ _ _ _ _)
    as [[[t' [[[[x y] xr] yr] b]] ev] at_]. destruct K as [(_ & _ & _ & _ & K) _].
  destruct at_; [reflexivity|].
  unfold nonzero. rewrite K by discriminate.
  destruct (mem (touchpad_of d) ignoreall =? 0) eqn:E;
    [apply Z.eqb_eq in E; contradiction|]. reflexivity.
Qed.

Lemma fingerLifted_schedules t now_ns :
  touchmode t = MODE_MTOUCH ->
  mem t momentumscroll <> 0 -> mem t momentumscrolltimer <> 0 ->
  mem t momentumscrollsamplesmin < history_count (dy_history t) ->
  u64_sub (history_newest (time_history t)) (history_oldest (time_history t))
    <> 0 ->
  snd (fingerLifted t now_ns)
  = [setTimerTimeout scrollTimer (mem t momentumscrolltimer)].
Proof.
  intros Hm Hs Ht Hc Hw. unfold fingerLifted. rewrite Hm.
  cbn [touch_mode_eqb assign_members fold_left andb].
  unfold nonzero, assign_member. cbn.
  destruct (mem t momentumscroll =? 0) eqn:E1; [apply Z.eqb_eq in E1; contradiction|].
  destruct (mem t momentumscrolltimer =? 0) eqn:E2;
    [apply Z.eqb_eq in E2; contradiction|].
  cbn [negb andb].
  destruct (mem t momentumscrollsamplesmin <? history_count (dy_history t)) eqn:E3;
    [|apply Z.ltb_ge in E3; lia].
  destruct (u64_sub _ _ =? 0) eqn:E4; [apply Z.eqb_eq in E4; contradiction|].
  reflexivity.
Qed.

(** C6 (as amended).  A sample with pressure below the finger threshold
    that arrives in MultiTouch mode, with momentum scrolling enabled, a
    non-zero momentum timer interval and [ignoreall] clear, arms the scroll
    timer whenever the vertical-delta history holds more samples than the
    configured minimum and the time between its oldest and newest sample is
    non-zero. *)
Theorem momentum_scroll_scheduled d xraw yraw z fingers' buttonsraw now_abs now_ns :
  let t := touchpad_of d in
  z < mem t z_finger ->
  touchmode t = MODE_MTOUCH ->
  mem t momentumscroll <> 0 -> mem t momentumscrolltimer <> 0 ->
  mem t ignoreall = 0 ->
  mem t momentumscrollsamplesmin < history_count (dy_history t) ->
  u64_sub (history_newest (time_history t)) (history_oldest (time_history t))
    <> 0 ->
  In (setTimerTimeout scrollTimer (mem t momentumscrolltimer))
     (snd (dispatchEventsWithInfo gestureTail d xraw yraw z fingers' buttonsraw
             now_abs now_ns)).
Proof.
  intros t Hz Hm Hs Ht Hig Hc Hw. unfold dispatchEventsWithInfo.
  pose proof (beforeIgnoreAll_keeps (touchpad_of d) xraw yraw z fingers'
                buttonsraw now_abs now_ns) as K.
  fold t in K.
  destruct (beforeIgnoreAll _ _ _ _ _ _ _ _)
    as [[[t' [[[[x y] xr] yr] b]] ev] at_] eqn:Eb.
  destruct K as [(K1 & K2 & K3 & _ & K) [_ Kat]].
  assert (Hat : at_ = false).
  { destruct at_; [|reflexivity]. specialize (Kat eq_refl). lia. }
  subst at_.
  unfold nonzero. rewrite (K ignoreall) by discriminate. rewrite Hig.
  cbn [Z.eqb negb]. rewrite (K z_finger) by discriminate.
  destruct (z <? mem t z_finger) eqn:Ez; [|apply Z.ltb_ge in Ez; lia].
  rewrite K1, Hm. cbn [isTouchMode andb].
  pose proof (fingerLifted_schedules t' now_ns) as Hl.
  rewrite K1, K2, K3, !K in Hl by discriminate.
  specialize (Hl Hm Hs Ht Hc Hw).
  destruct (fingerLifted t' now_ns) as [t'' evl]. cbn [snd] in Hl. subst evl.
  destruct (gestureTail _ _ _ _ _ _ _ _ _ _ _) as [d' evt]. cbn [snd].
  apply in_or_app. right. apply in_or_app. left. left. reflexivity.
Qed.

Lemma processTrackstickPacketV3_ignoreall d packet now_abs :
  Z.land (byte_at packet 0) 0x40 <> 0 ->
  ~ (byte_at packet 1 = 0x7f /\ byte_at packet 2 = 0x7f
     /\ byte_at packet 3 = 0x7f) ->
  mem (touchpad_of (fst (processTrackstickPacketV3 d packet now_abs))) ignoreall
  = if (fst (trackstick_motion packet) =? 0)
       && (snd (trackstick_motion packet) =? 0)
    then 0 else 1.
Proof.
  intros Hv Hs. unfold processTrackstickPacketV3.
  destruct (Z.land (byte_at packet 0) 64 =? 0) eqn:E0;
    [apply Z.eqb_eq in E0; contradiction|].
  destruct ((byte_at packet 1 =? 127) && (byte_at packet 2 =? 127)
            && (byte_at packet 3 =? 127)) eqn:E1.
  { apply andb_true_iff in E1 as [E1 E3]. apply andb_true_iff in E1 as [E1 E2].
    apply Z.eqb_eq in E1, E2, E3. exfalso. apply Hs. auto. }
  destruct (trackstick_motion packet) as [x y]. cbn [fst snd].
  match goal with
  | |- context [if 0 =? ?rb then (mem ?t lastbuttons, mem ?t) else ?e] =>
      destruct (if 0 =? rb then (mem t lastbuttons, mem t) else e) as [b m]
  end.
  rewrite (Z.eqb_sym x 0), (Z.eqb_sym y 0).
  destruct (0 =? x), (0 =? y); cbn [negb orb andb];
    match goal with
    | |- context [if ?c then _ else _] => destruct c
    end; reflexivity.
Qed.

(** C10 (as amended).  A V3 trackstick packet that is accepted (bit 6 of
    byte 0 set, not the end-of-stream packet) sets [ignoreall] when its
    motion, after the removal of a packet that is large on both axes, is
    non-zero on some axis, and clears it when that motion is zero on both
    axes.  While [ignoreall] is set a touchpad sample returns from
    [dispatchEventsWithInfo] before any gesture processing: [modelData], the
    touch mode, the histories and all members but lastbuttons, ignoredeltas,
    lastx and lasty are as before ([ignoreall] itself stays set), and every
    event comes from the middle button simulation. *)
Theorem trackstick_motion_sets_ignoreall :
  (forall d packet now_abs,
     Z.land (byte_at packet 0) 0x40 <> 0 ->
     ~ (byte_at packet 1 = 0x7f /\ byte_at packet 2 = 0x7f
        /\ byte_at packet 3 = 0x7f) ->
     mem (touchpad_of (fst (processTrackstickPacketV3 d packet now_abs)))
       ignoreall
     = if (fst (trackstick_motion packet) =? 0)
          && (snd (trackstick_motion packet) =? 0)
       then 0 else 1)
  /\ (forall d xraw yraw z fingers' buttonsraw now_abs now_ns,
        mem (touchpad_of d) ignoreall <> 0 ->
        let r := dispatchEventsWithInfo gestureTail d xraw yraw z fingers'
                   buttonsraw now_abs now_ns in
        modelData_of (fst r) = modelData_of d
        /\ kept_before_ignoreall (touchpad_of d) (touchpad_of (fst r))
        /\ Forall (from_middleButton now_abs) (snd r)).
Proof.
  split; [exact processTrackstickPacketV3_ignoreall|].
  intros d xraw yraw z fingers' buttonsraw now_abs now_ns Hig r. subst r.
  pose proof (dispatch_when_ignoreall d xraw yraw z fingers' buttonsraw
                now_abs now_ns Hig) as Hd.
  pose proof (beforeIgnoreAll_keeps (touchpad_of d) xraw yraw z fingers'
                buttonsraw now_abs now_ns) as K.
  destruct (beforeIgnoreAll _ _ _ _ _ _ _ _)
    as [[[t' [[[[x y] xr] yr] b]] ev] at_].
  rewrite Hd. cbn [fst snd modelData_of touchpad_of].
  destruct K as (K1 & K2 & _). split; [reflexivity|]. split; assumption.
Qed.

End DispatchProofs.

Lemma momentum_scroll_scheduled_witness :
  let d := scrolling_driver [5; 5; 5; 5] [100; 200; 300; 400] in
  (0 < mem (touchpad_of d) z_finger
   /\ touchmode (touchpad_of d) = MODE_MTOUCH
   /\ mem (touchpad_of d) momentumscroll <> 0
   /\ mem (touchpad_of d) momentumscrolltimer <> 0
   /\ mem (touchpad_of d) ignoreall = 0
   /\ mem (touchpad_of d) momentumscrollsamplesmin
      < history_count (dy_history (touchpad_of d))
   /\ u64_sub (history_newest (time_history (touchpad_of d)))
              (history_oldest (time_history (touchpad_of d))) <> 0)
  /\ In (setTimerTimeout scrollTimer 10000000)
        (snd (@dispatchEventsWithInfo plain_base no_tail d 0 0 0 0 0 500 500)).
Proof.
  cbv zeta. split.
  - repeat split; try reflexivity; discriminate.
  - apply (@momentum_scroll_scheduled plain_base no_tail
             (scrolling_driver [5; 5; 5; 5] [100; 200; 300; 400])
             0 0 0 0 0 500 500);
      try reflexivity; discriminate.
Defined.

(** With exactly the configured minimum of 3 samples in the history, over a
    non-zero time, the release in MultiTouch mode arms no timer; with 4
    samples it arms none either while [ignoreall] is set, or while the
    momentum timer interval is 0. *)
Lemma momentum_scroll_scheduled_counterexample :
  (touchmode (touchpad_of (scrolling_driver [5; 5; 5] [100; 200; 300]))
   = MODE_MTOUCH
   /\ scrolling_members momentumscroll = 1
   /\ scrolling_members momentumscrolltimer = 10000000
   /\ scrolling_members ignoreall = 0
   /\ scrolling_members momentumscrollsamplesmin = 3
   /\ scrolling_members z_finger = 30)
  /\ (history_count [5; 5; 5] = 3
      /\ u64_sub (history_newest [100; 200; 300])
                 (history_oldest [100; 200; 300]) = 200
      /\ snd (@fingerLifted plain_base
                (scrolling_touchpad [5; 5; 5] [100; 200; 300]) 500) = []
      /\ snd (@dispatchEventsWithInfo plain_base no_tail
                (scrolling_driver [5; 5; 5] [100; 200; 300])
                0 0 0 0 0 500 500) = [])
  /\ (history_count [5; 5; 5; 5] = 4
      /\ u64_sub (history_newest [100; 200; 300; 400])
                 (history_oldest [100; 200; 300; 400]) = 300
      /\ snd (@dispatchEventsWithInfo plain_base no_tail
                (scrolling_driver_with
                   (assign_member scrolling_members ignoreall 1)
                   [5; 5; 5; 5] [100; 200; 300; 400])
                0 0 0 0 0 500 500) = []
      /\ snd (@dispatchEventsWithInfo plain_base no_tail
                (scrolling_driver_with
                   (assign_member scrolling_members momentumscrolltimer 0)
                   [5; 5; 5; 5] [100; 200; 300; 400])
                0 0 0 0 0 500 500) = []).
Proof. repeat split; reflexivity. Qed.

Lemma trackstick_motion_sets_ignoreall_witness :
  (Z.land (byte_at moving_trackstick_packet 0) 0x40 <> 0
   /\ ~ (byte_at moving_trackstick_packet 1 = 0x7f
         /\ byte_at moving_trackstick_packet 2 = 0x7f
         /\ byte_at moving_trackstick_packet 3 = 0x7f)
   /\ mem (touchpad_of trackstick_driver) ignoreall <> 0)
  /\ mem (touchpad_of
            (fst (@processTrackstickPacketV3 plain_base trackstick_driver
                    moving_trackstick_packet 0))) ignoreall
     = 1
  /\ touchmode
       (touchpad_of
          (fst (@dispatchEventsWithInfo plain_base no_tail trackstick_driver
                  100 50 40 1 0 0 0)))
     = touchmode (touchpad_of trackstick_driver).
Proof.
  assert (H1 : Z.land (byte_at moving_trackstick_packet 0) 0x40 <> 0)
    by (cbn; discriminate).
  assert (H2 : ~ (byte_at moving_trackstick_packet 1 = 0x7f
                  /\ byte_at moving_trackstick_packet 2 = 0x7f
                  /\ byte_at moving_trackstick_packet 3 = 0x7f))
    by (intros [H _]; discriminate H).
  assert (H3 : mem (touchpad_of trackstick_driver) ignoreall <> 0)
    by (cbn; discriminate).
  split; [auto|].
  destruct (@trackstick_motion_sets_ignoreall plain_base no_tail) as [A B].
  split.
  - rewrite (A trackstick_driver moving_trackstick_packet 0 H1 H2). reflexivity.
  - destruct (B trackstick_driver 100 50 40 1 0 0 0 H3) as (_ & (K & _) & _).
    exact K.
Defined.

(** A trackstick packet that reports x = 127 and y = 127 is accepted and
    leaves [ignoreall] clear; a packet with x = 3 whose byte 0 lacks bit 6
    is disregarded and leaves it clear as well; and a touchpad sample that
    is dropped because [ignoreall] is set still records its buttons and,
    during the countdown that follows a change of finger count, its
    position. *)
Lemma trackstick_motion_sets_ignoreall_counterexample :
  (SInt8 (Z.lor (Z.shiftl (Z.land (byte_at large_trackstick_packet 0) 0x20) 2)
                (Z.land (byte_at large_trackstick_packet 1) 0x7f)) = 127
   /\ SInt8 (Z.lor (Z.shiftl (Z.land (byte_at large_trackstick_packet 0) 0x10) 3)
                   (Z.land (byte_at large_trackstick_packet 2) 0x7f)) = 127
   /\ Z.land (byte_at large_trackstick_packet 0) 0x40 = 0x40
   /\ byte_at large_trackstick_packet 3 = 0
   /\ mem (touchpad_of
             (fst (@processTrackstickPacketV3 plain_base trackstick_driver
                     large_trackstick_packet 0))) ignoreall
      = 0)
  /\ (SInt8 (Z.lor (Z.shiftl (Z.land (byte_at bad_trackstick_packet 0) 0x20) 2)
                   (Z.land (byte_at bad_trackstick_packet 1) 0x7f)) = 3
      /\ byte_at bad_trackstick_packet 5 = 0x3f
      /\ mem (touchpad_of idle_driver) ignoreall = 0
      /\ @processPacketV3 plain_base no_tail Pinnacle idle_driver
           uninitialised_fields bad_trackstick_packet 0 0
         = (idle_driver, []))
  /\ (mem (touchpad_of trackstick_driver) ignoreall = 1
      /\ mem (touchpad_of trackstick_driver) lastx = 0
      /\ mem (touchpad_of trackstick_driver) lastbuttons = 0
      /\ mem (touchpad_of
                (fst (@dispatchEventsWithInfo plain_base no_tail
                        trackstick_driver 100 50 40 1 1 0 0))) lastx
         = 100
      /\ mem (touchpad_of
                (fst (@dispatchEventsWithInfo plain_base no_tail
                        trackstick_driver 100 50 40 1 1 0 0))) lastbuttons
         = 1).
Proof. repeat split; reflexivity. Qed.

(* ------------------------------------------------------------------------- *)
(** * V4 packets *)

Lemma packetV4_reports_at_most_one_finger md packet :
  fingers md < 2 ->
  let r := packetV4_fields md packet in
  fingers (fst r) < 2
  /\ forall x y z n b, snd r = Some (x, y, z, n, b) ->
       n = if 0 <? z then 1 else 0.
Proof.
  intros Hf r. subst r. unfold packetV4_fields.
  set (md1 := if nonzero (Z.land (byte_at packet 6) 64)
              then set_multi_packet 0 md else md).
  assert (H1 : fingers md1 = fingers md) by (subst md1; destruct (nonzero _); reflexivity).
  destruct (2 <? multi_packet md1).
  - cbn [fst snd]. split; [lia | discriminate].
  - cbn [multi_packet set_multi_packet set_multi_data multi_data].
    destruct (2 <? multi_packet md1 + 1);
      cbn [fst snd fingers set_fingers set_multi_packet set_multi_data].
    + split; [lia|]. intros x y z n b Hs. inversion Hs; subst. reflexivity.
    + rewrite H1. split; [lia|].
      destruct (fingers md <? 2) eqn:E; [|apply Z.ltb_ge in E; lia].
      intros x y z n b Hs. inversion Hs; subst. reflexivity.
Qed.

(** One fragment: bytes 6 and 7 of the packet are stored at offset
    [2 * multi_packet], where [multi_packet] is first reset to 0 when bit
    0x40 of byte 6 is set, and the position moves on, returning to 0 after
    the third fragment. *)
Lemma packetV4_fragment md p :
  let mp := if nonzero (Z.land (byte_at p 6) 0x40) then 0
            else multi_packet md in
  (2 <? mp) = false ->
  multi_data (fst (packetV4_fields md p))
  = array_set (array_set (multi_data md) (Z.to_nat (2 * mp)) (byte_at p 6))
      (Z.to_nat (2 * mp + 1)) (byte_at p 7)
  /\ multi_packet (fst (packetV4_fields md p))
     = if 2 <? mp + 1 then 0 else mp + 1.
Proof.
  intros mp Hmp. subst mp. unfold packetV4_fields.
  destruct (nonzero (Z.land (byte_at p 6) 64)).
  - cbn [multi_packet set_multi_packet] in *. rewrite Hmp.
    cbn [multi_packet set_multi_packet set_multi_data multi_data].
    destruct (2 <? 0 + 1); split; reflexivity.
  - rewrite Hmp.
    cbn [multi_packet set_multi_packet set_multi_data multi_data].
    destruct (2 <? multi_packet md + 1); split; reflexivity.
Qed.

(** The three fragments are stored at offsets 0, 2 and 4 of [multi_data]: a
    packet whose byte 6 has bit 0x40 set restarts at offset 0, and after the
    third fragment the position returns to 0. *)
Lemma packetV4_accumulates md p1 p2 p3 b0 b1 b2 b3 b4 b5 :
  multi_data md = [b0; b1; b2; b3; b4; b5] ->
  Z.land (byte_at p1 6) 0x40 <> 0 ->
  Z.land (byte_at p2 6) 0x40 = 0 ->
  Z.land (byte_at p3 6) 0x40 = 0 ->
  let md1 := fst (packetV4_fields md p1) in
  let md2 := fst (packetV4_fields md1 p2) in
  let md3 := fst (packetV4_fields md2 p3) in
  (multi_packet md1 = 1 /\ multi_packet md2 = 2 /\ multi_packet md3 = 0)
  /\ multi_data md3
     = [byte_at p1 6; byte_at p1 7; byte_at p2 6; byte_at p2 7;
        byte_at p3 6; byte_at p3 7].
Proof.
  intros Hmd H1 H2 H3 md1 md2 md3.
  pose proof (packetV4_fragment md p1) as F1.
  pose proof (packetV4_fragment md1 p2) as F2.
  pose proof (packetV4_fragment md2 p3) as F3.
  fold md1 in F1. fold md2 in F2. fold md3 in F3.
  unfold nonzero in F1, F2, F3. rewrite H2 in F2. rewrite H3 in F3.
  destruct (Z.land (byte_at p1 6) 64 =? 0) eqn:E;
    [apply Z.eqb_eq in E; contradiction|].
  cbn [negb Z.eqb] in F1, F2, F3.
  destruct (F1 eq_refl) as [D1 P1]. rewrite Hmd in D1.
  change (multi_packet md1 = 1) in P1.
  rewrite P1 in F2. destruct (F2 eq_refl) as [D2 P2]. rewrite D1 in D2.
  change (multi_packet md2 = 2) in P2.
  rewrite P2 in F3. destruct (F3 eq_refl) as [D3 P3]. rewrite D2 in D3.
  change (multi_packet md3 = 0) in P3.
  split; [repeat split; assumption|]. exact D3.
Qed.

(** C5 (evaluation at the failing input).  After the three fragments the
    six bitmap bytes are in [multi_data] and the words the code assembles
    from them are 0b10100 and 1, which [processBitmap] counts as 2 fingers;
    the sample passed on with the third fragment nevertheless has 1 finger,
    and the finger count stored in [modelData] is 0. *)
Theorem v4_bitmap_not_used :
  let md1 := fst (packetV4_fields v4_data v4_fragment_1) in
  let md2 := fst (packetV4_fields md1 v4_fragment_2) in
  let md3 := fst (packetV4_fields md2 v4_fragment_3) in
  multi_data md3 = [0x45; 0x01; 0; 0; 0; 0]
  /\ multi_packet md3 = 0
  /\ v4_x_bitmap (multi_data md3) = 20
  /\ v4_y_bitmap (multi_data md3) = 1
  /\ fst (fst (processBitmap md3
                 (mk_alps_fields (v4_x_bitmap (multi_data md3))
                    (v4_y_bitmap (multi_data md3)) 0 0 0 64 false false
                    false false false false false false 0 0 0 0)))
     = 2
  /\ snd (packetV4_fields md2 v4_fragment_3) = Some (0, 0, 64, 1, 0)
  /\ fingers md3 = 0.
Proof. cbv zeta. repeat split; reflexivity. Qed.

(* ------------------------------------------------------------------------- *)
(** * Identification *)

Section IdentificationProofs.
Context `{PS2Port}.

Lemma matchTable_v4 s ec :
  bytes2 ec = 0x8a ->
  exists s',
    matchTable (0x73, 0x02, 0x64) ec s = (true, s')
    /\ proto_version (modelData s') = ALPS_PROTO_V4
    /\ hw_init s' = Some hwInitV4.
Proof.
  intros Hec. unfold matchTable, alps_model_data.
  cbn [matchTable_from signature_eqb signature command_mode_resp bytes0 bytes1
       bytes2 fst snd Z.eqb Pos.eqb andb orb].
  rewrite Hec. cbn [Z.eqb Pos.eqb orb].
  eexists. split; [reflexivity|]. split; reflexivity.
Qed.

Lemma e6_accepted_iff e6 :
  e6_accepted e6 = true
  <-> Z.land (bytes0 e6) 0xf8 = 0 /\ bytes1 e6 = 0
      /\ (bytes2 e6 = 10 \/ bytes2 e6 = 100).
Proof.
  unfold e6_accepted.
  destruct (Z.land (bytes0 e6) 248 =? 0) eqn:E0;
  destruct (bytes1 e6 =? 0) eqn:E1;
  destruct (bytes2 e6 =? 10) eqn:E2;
  destruct (bytes2 e6 =? 100) eqn:E3; cbn;
  repeat match goal with
         | H : (_ =? _) = true |- _ => apply Z.eqb_eq in H
         | H : (_ =? _) = false |- _ => apply Z.eqb_neq in H
         end;
  split; try discriminate; intros; intuition lia.
Qed.

(** C7.  Whatever the profile held before and whatever the first two bytes
    of the EC report are, an E7 report {0x73, 0x02, 0x64} with 0x8a as the
    third byte of the EC report makes [matchTable] succeed with protocol
    version V4; and when identification retrieves these reports (after an
    accepted E6 report), [deviceSpecificInit] leaves the packet size 8. *)
Theorem v4_signature_selects_v4 :
  (forall s ec, bytes2 ec = 0x8a ->
     exists s', matchTable (0x73, 0x02, 0x64) ec s = (true, s')
                /\ proto_version (modelData s') = ALPS_PROTO_V4)
  /\ (forall s dev dev2 dev3 dev4 e6 ec,
        repeatCmd kDP_SetMouseResolution 0 kDP_SetMouseScaling1To1
          (snd (resetMouse dev)) = (true, e6, dev2) ->
        e6_accepted e6 = true ->
        repeatCmd kDP_SetMouseResolution 0 kDP_SetMouseScaling2To1 dev2
          = (true, (0x73, 0x02, 0x64), dev3) ->
        repeatCmd kDP_SetMouseResolution 0 kDP_MouseResetWrap dev3
          = (true, ec, dev4) ->
        bytes2 ec = 0x8a ->
        let s' := snd (fst (deviceSpecificInit s dev)) in
        proto_version (modelData s') = ALPS_PROTO_V4
        /\ pktsize (modelData s') = 8).
Proof.
  split.
  - intros s ec Hec. destruct (matchTable_v4 s ec Hec) as (s' & A & B & _).
    exists s'. split; assumption.
  - intros s dev dev2 dev3 dev4 e6 ec H6 Hacc H7 Hc Hec.
    unfold deviceSpecificInit.
    destruct (resetMouse dev) as [b dev1]. cbn [snd] in H6.
    unfold identify. rewrite H6. cbn [negb]. rewrite Hacc. cbn [negb].
    rewrite H7. cbn [negb]. rewrite Hc. cbn [negb].
    destruct (exitCommandMode dev4) as [ok dev5] eqn:Ex.
    assert (ok = true) as ->.
    { unfold exitCommandMode in Ex.
      destruct (submitRequestAndBlock dev4 _) as [[? ?] ?].
      inversion Ex; reflexivity. }
    cbn [negb].
    destruct (matchTable_v4 s ec Hec) as (s' & A & B & C). rewrite A.
    cbn [modelData set_modelData hw_init]. rewrite B, C.
    cbn [alps_proto_eqb].
    destruct (run_hw_init hwInitV4 _ dev5) as [[ok fl] dev6].
    destruct ok.
    + cbn. rewrite B. split; reflexivity.
    + destruct (resetMouse dev6). cbn. rewrite B. split; reflexivity.
Qed.

Lemma setDefaults_in_range s : profile_in_range (modelData (setDefaults s)).
Proof.
  unfold setDefaults, profile_in_range.
  destruct (proto_version (modelData s)); cbn; lia.
Qed.

Lemma matchTable_from_in_range models e7 ec s :
  fst (matchTable_from models e7 ec s) = true ->
  profile_in_range (modelData (snd (matchTable_from models e7 ec s))).
Proof.
  induction models as [|model rest IH]; cbn [matchTable_from].
  - discriminate.
  - destruct (signature_eqb e7 (signature model)
              && ((command_mode_resp model =? 0)
                  || (command_mode_resp model =? bytes2 ec))); [|exact IH].
    intros _. cbn [fst snd modelData set_modelData].
    pose proof (setDefaults_in_range
                  (set_proto_version (model_proto_version model) s)) as R.
    unfold profile_in_range in *. cbn. exact R.
Qed.

(** Every profile that [identify] accepts has its parameters in range. *)
Lemma identify_in_range s dev :
  fst (fst (identify s dev)) = kIOReturnSuccess ->
  profile_in_range (modelData (snd (fst (identify s dev)))).
Proof.
  unfold identify.
  destruct (repeatCmd _ _ kDP_SetMouseScaling1To1 dev) as [[ok6 e6] dev1].
  destruct ok6; [|discriminate]. cbn [negb].
  destruct (e6_accepted e6); [|discriminate]. cbn [negb].
  destruct (repeatCmd _ _ kDP_SetMouseScaling2To1 dev1) as [[ok7 e7] dev2].
  destruct ok7; [|discriminate]. cbn [negb].
  destruct (repeatCmd _ _ kDP_MouseResetWrap dev2) as [[okc ec] dev3].
  destruct okc; [|discriminate]. cbn [negb].
  destruct (exitCommandMode dev3) as [okx dev4].
  destruct okx; [|discriminate]. cbn [negb].
  pose proof (matchTable_from_in_range alps_model_data e7 ec s) as M.
  fold (matchTable e7 ec s) in M.
  destruct (matchTable e7 ec s) as [matched s'].
  destruct matched; [intros _; apply M; reflexivity|].
  destruct (_ && _).
  { intros _. apply setDefaults_in_range. }
  destruct (_ && _).
  { intros _.
    pose proof (setDefaults_in_range (set_proto_version ALPS_PROTO_V3 s)) as R.
    destruct (probeTrackstickV3 _ _ dev4) as [r dev5].
    unfold profile_in_range in *. destruct r; cbn in *; lia. }
  destruct (_ && _).
  { intros _. apply setDefaults_in_range. }
  discriminate.
Qed.

(** C8 (as amended).  When the E6 report is retrieved and it is not the case
    that bits 3 to 7 of its byte 0 are clear (bits 0 to 2 are not looked
    at), its byte 1 is 0 and its byte 2 is 10 or 100, [identify] returns
    [kIOReturnInvalid] at once: the profile is as before and the device has
    seen the request for the E6 report only. *)
Theorem invalid_e6_report_rejected s dev e6 dev' :
  repeatCmd kDP_SetMouseResolution 0 kDP_SetMouseScaling1To1 dev
    = (true, e6, dev') ->
  ~ (Z.land (bytes0 e6) 0xf8 = 0 /\ bytes1 e6 = 0
     /\ (bytes2 e6 = 10 \/ bytes2 e6 = 100)) ->
  identify s dev = (kIOReturnInvalid, s, dev').
Proof.
  intros H6 Hbad. unfold identify. rewrite H6. cbn [negb].
  destruct (e6_accepted e6) eqn:E; [|reflexivity].
  apply e6_accepted_iff in E. contradiction.
Qed.

End IdentificationProofs.


Lemma v4_signature_selects_v4_witness :
  (bytes2 (0x88, 0x07, 0x8a) = 0x8a /\ e6_accepted (0, 0, 10) = true)
  /\ (exists s',
        @matchTable (canned_port (0, 0, 10) (0x73, 0x02, 0x64) (0x88, 0x07, 0x8a))
          (0x73, 0x02, 0x64) (0x88, 0x07, 0x8a) unidentified = (true, s')
        /\ proto_version (modelData s') = ALPS_PROTO_V4)
  /\ pktsize
       (modelData
          (snd (fst (@deviceSpecificInit
                       (canned_port (0, 0, 10) (0x73, 0x02, 0x64)
                          (0x88, 0x07, 0x8a))
                       unidentified 0%nat))))
     = 8.
Proof.
  split; [split; reflexivity|].
  destruct (@v4_signature_selects_v4
              (canned_port (0, 0, 10) (0x73, 0x02, 0x64) (0x88, 0x07, 0x8a)))
    as [A B].
  split.
  - apply A. reflexivity.
  - apply (B unidentified 0%nat 2%nat 3%nat 4%nat (0, 0, 10) (0x88, 0x07, 0x8a));
      reflexivity.
Defined.

Lemma invalid_e6_report_rejected_witness :
  (@repeatCmd (canned_port (8, 0, 10) (0x73, 0x02, 0x64) (0x88, 0x07, 0x8a))
     0xe8 0 0xe6 0%nat = (true, (8, 0, 10), 1%nat)
   /\ ~ (Z.land 8 0xf8 = 0 /\ 0 = 0 /\ (10 = 10 \/ 10 = 100)))
  /\ @identify (canned_port (8, 0, 10) (0x73, 0x02, 0x64) (0x88, 0x07, 0x8a))
       unidentified 0%nat
     = (kIOReturnInvalid, unidentified, 1%nat).
Proof.
  assert (Hb : ~ (Z.land 8 0xf8 = 0 /\ 0 = 0 /\ (10 = 10 \/ 10 = 100)))
    by (intros [Hb _]; discriminate Hb).
  split; [split; [reflexivity | exact Hb]|].
  apply (@invalid_e6_report_rejected
           (canned_port (8, 0, 10) (0x73, 0x02, 0x64) (0x88, 0x07, 0x8a))
           unidentified 0%nat (8, 0, 10) 1%nat); [reflexivity | exact Hb].
Defined.

(** An E6 report {0x01, 0x00, 10}, which is neither {0x00, 0x00, 10} nor
    {0x00, 0x00, 100} and has bit 0 of byte 0 set, is accepted:
    identification goes on and succeeds. *)
Lemma invalid_e6_report_rejected_counterexample :
  @repeatCmd (canned_port (1, 0, 10) (0x73, 0x02, 0x64) (0x88, 0x07, 0x8a))
    0xe8 0 0xe6 0%nat = (true, (1, 0, 10), 1%nat)
  /\ Z.land 1 0x07 = 1
  /\ fst (fst (@identify
                 (canned_port (1, 0, 10) (0x73, 0x02, 0x64) (0x88, 0x07, 0x8a))
                 unidentified 0%nat))
     = kIOReturnSuccess.
Proof. repeat split; reflexivity. Qed.

(* ------------------------------------------------------------------------- *)
(** * Packet framing: well-formed packets, round trip and resynchronisation *)

Lemma feed_wellformed md input :
  forall st c,
    (st = [] \/ exists b t, st = b :: t /\ starts_packet md b /\ ~ In 0x80 t) ->
    forall e p, In (e, p) (feed md st c input) ->
      exists b t, p = b :: t /\ starts_packet md b /\ ~ In 0x80 t.
Proof.
  induction input as [|data rest IH]; intros st c Hst e p; simpl.
  - intros [].
  - unfold interruptOccurred.
    destruct ((Z.of_nat (length st) =? 0)
              && negb (Z.land data 0xc8 =? 0x08)
              && negb (Z.land data (mask0 md) =? byte0 md)) eqn:Hrej.
    + apply IH. left.
      apply andb_true_iff in Hrej as [Hrej _].
      apply andb_true_iff in Hrej as [Hrej _].
      apply Z.eqb_eq in Hrej. destruct st; [reflexivity | simpl in Hrej; lia].
    + destruct ((1 <=? Z.of_nat (length st)) && (data =? 0x80)) eqn:Habort.
      * apply IH. left; reflexivity.
      * assert (Hnew : exists b t, st ++ [data] = b :: t
                                   /\ starts_packet md b /\ ~ In 0x80 t).
        { destruct Hst as [-> | (b & t & -> & Hb & Ht)].
          - exists data, []. simpl. split; [reflexivity|]. split; [|tauto].
            simpl in Hrej. unfold starts_packet.
            destruct (Z.land data 200 =? 8) eqn:E1; [left; lia|].
            destruct (Z.land data (mask0 md) =? byte0 md) eqn:E2; [right; lia|].
            discriminate.
          - exists b, (t ++ [data]). split; [reflexivity|]. split; [exact Hb|].
            intros Hin. apply in_app_or in Hin as [Hin | [Hin | []]]; [tauto|].
            subst data. simpl length in Habort.
            rewrite Z.eqb_refl, andb_true_r in Habort.
            apply Z.leb_gt in Habort. lia. }
        destruct ((pktsize md =? Z.of_nat (length (st ++ [data])))
                  || ((kPacketLengthSmall =? Z.of_nat (length (st ++ [data])))
                      && (Z.land (byte_at (st ++ [data]) 0) 0xc8 =? 0x08))).
        -- intros [Heq | Hin].
           ++ inversion Heq; subst. exact Hnew.
           ++ eapply IH; [left; reflexivity | exact Hin].
        -- apply IH. right. exact Hnew.
Qed.

(** X1.  Every packet that [interruptOccurred] completes, whatever bytes it
    is fed from an empty in-progress packet, begins with a byte that carries
    the bare PS/2 signature or the signature of the profile, and holds no
    byte 0x80 after its first byte. *)
Theorem framer_packets_wellformed (modelData : alps_data) (input : list Z) :
  forall e packet, In (e, packet) (feed modelData [] 0 input) ->
    exists b t, packet = b :: t /\ starts_packet modelData b /\ ~ In 0x80 t.
Proof.
  intros e p. apply feed_wellformed. left; reflexivity.
Qed.

Lemma feed_skips md junk :
  forall c rest,
    Forall (fun b => ~ starts_packet md b) junk ->
    feed md [] c (junk ++ rest) = feed md [] (c + length junk)%nat rest.
Proof.
  induction junk as [|b junk IH]; intros c rest H; simpl.
  - f_equal. lia.
  - inversion H as [|? ? Hb Hj]; subst. unfold interruptOccurred. simpl length.
    unfold starts_packet in Hb.
    destruct (Z.land b 200 =? 8) eqn:E1; [exfalso; apply Hb; left; lia|].
    destruct (Z.land b (mask0 md) =? byte0 md) eqn:E2;
      [exfalso; apply Hb; right; lia|].
    simpl. rewrite IH by exact Hj. f_equal. lia.
Qed.

Lemma interruptOccurred_next md st data :
  st <> [] -> data <> 0x80 ->
  interruptOccurred md st data
  = if (pktsize md =? Z.of_nat (length (st ++ [data])))
       || ((kPacketLengthSmall =? Z.of_nat (length (st ++ [data])))
           && (Z.land (byte_at st 0) 0xc8 =? 0x08))
    then (kPS2IR_packetReady, [], st ++ [data])
    else (kPS2IR_packetBuffering, st ++ [data], []).
Proof.
  intros Hst Hd. unfold interruptOccurred.
  assert ((Z.of_nat (length st) =? 0) = false) as ->.
  { apply Z.eqb_neq. destruct st; [congruence | simpl; lia]. }
  assert ((data =? 0x80) = false) as -> by (apply Z.eqb_neq; exact Hd).
  rewrite andb_false_r. cbn [andb].
  assert (byte_at (st ++ [data]) 0 = byte_at st 0) as ->.
  { destruct st; [congruence | reflexivity]. }
  reflexivity.
Qed.

Lemma interruptOccurred_first md data :
  starts_packet md data ->
  interruptOccurred md [] data
  = if (pktsize md =? 1)
    then (kPS2IR_packetReady, [], [data])
    else (kPS2IR_packetBuffering, [data], []).
Proof.
  intros Hs. unfold interruptOccurred.
  assert (negb (Z.land data 0xc8 =? 0x08)
          && negb (Z.land data (mask0 md) =? byte0 md) = false) as E.
  { destruct Hs as [E | E]; apply Z.eqb_eq in E; rewrite E;
      [reflexivity | apply andb_false_r]. }
  change (Z.of_nat (length (@nil Z))) with 0.
  change (Z.of_nat (length ([] ++ [data]))) with 1.
  change (0 =? 0) with true. change (1 <=? 0) with false.
  change (kPacketLengthSmall =? 1) with false.
  cbn [andb]. rewrite E. rewrite orb_false_r. reflexivity.
Qed.

Lemma feed_continues md :
  forall t st c rest,
    st <> [] -> ~ In 0x80 t -> t <> [] ->
    (forall k, (length st < k < length (st ++ t))%nat ->
       Z.of_nat k <> pktsize md
       /\ (k = 3%nat -> Z.land (byte_at st 0) 0xc8 <> 0x08)) ->
    (Z.of_nat (length (st ++ t)) = pktsize md
     \/ (length (st ++ t) = 3%nat /\ Z.land (byte_at st 0) 0xc8 = 0x08)) ->
    feed md st c (t ++ rest)
    = ((c + length t)%nat, st ++ t) :: feed md [] (c + length t)%nat rest.
Proof.
  induction t as [|data t IH]; intros st c rest Hst H80 Ht Hmid Hend;
    [congruence|].
  cbn [app feed]. rewrite interruptOccurred_next;
    [|exact Hst|intros ->; apply H80; left; reflexivity].
  assert (Hb0 : byte_at (st ++ [data]) 0 = byte_at st 0).
  { destruct st; [congruence | reflexivity]. }
  destruct t as [|d' t'].
  - (* last byte *)
    assert ((pktsize md =? Z.of_nat (length (st ++ [data])))
            || ((kPacketLengthSmall =? Z.of_nat (length (st ++ [data])))
                && (Z.land (byte_at st 0) 0xc8 =? 0x08)) = true) as ->.
    { apply orb_true_iff. destruct Hend as [E | [E1 E2]].
      - left. apply Z.eqb_eq. lia.
      - right. apply andb_true_iff. split; apply Z.eqb_eq.
        + unfold kPacketLengthSmall. lia.
        + exact E2. }
    cbn [app length]. replace (c + 1)%nat with (S c) by lia. reflexivity.
  - assert ((pktsize md =? Z.of_nat (length (st ++ [data])))
            || ((kPacketLengthSmall =? Z.of_nat (length (st ++ [data])))
                && (Z.land (byte_at st 0) 0xc8 =? 0x08)) = false) as ->.
    { destruct (Hmid (length (st ++ [data]))) as [M1 M2].
      { rewrite !length_app. simpl. lia. }
      apply orb_false_iff. split.
      - apply Z.eqb_neq. lia.
      - apply andb_false_iff.
        destruct (Nat.eq_dec (length (st ++ [data])) 3) as [E | E].
        + right. apply Z.eqb_neq. apply M2. exact E.
        + left. apply Z.eqb_neq. unfold kPacketLengthSmall. lia. }
    rewrite (IH (st ++ [data]) (S c) rest).
    + rewrite <- !app_assoc. cbn [app length].
      replace (S c + S (length t'))%nat with (c + S (S (length t')))%nat by lia.
      reflexivity.
    + destruct st; discriminate.
    + intros Hin. apply H80. right. exact Hin.
    + discriminate.
    + intros k Hk. rewrite Hb0. apply Hmid.
      rewrite <- app_assoc in Hk. cbn [app] in Hk.
      rewrite !length_app in *. cbn [length] in *. lia.
    + rewrite Hb0. rewrite <- app_assoc. cbn [app]. exact Hend.
Qed.

Lemma feed_device_packet md p c rest :
  device_packet md p ->
  feed md [] c (p ++ rest)
  = ((c + length p)%nat, p) :: feed md [] (c + length p)%nat rest.
Proof.
  destruct p as [|b t]; [intros []|]. intros [H80 Hform].
  cbn [app feed]. rewrite interruptOccurred_first.
  2:{ destruct Hform as [(_ & E & _) | (E & _)]; [right | left]; exact E. }
  destruct t as [|d t'].
  - (* one-byte packet: only possible with pktsize 1 *)
    destruct Hform as [(_ & _ & E) | (_ & E & _)]; [|discriminate].
    cbn [length Z.of_nat Pos.of_succ_nat] in E. rewrite <- E. cbn [Z.eqb Pos.eqb].
    cbn [length app]. replace (c + 1)%nat with (S c) by lia. reflexivity.
  - assert ((pktsize md =? 1) = false) as ->.
    { apply Z.eqb_neq. destruct Hform as [(_ & _ & E) | (_ & _ & E & _)].
      - cbn [length] in E. lia.
      - exact E. }
    rewrite (feed_continues md (d :: t') [b] (S c) rest).
    + cbn [app length]. replace (S c + S (length t'))%nat
        with (c + S (S (length t')))%nat by lia. reflexivity.
    + discriminate.
    + exact H80.
    + discriminate.
    + intros k Hk. cbn [app length] in Hk. unfold byte_at. cbn [nth].
      destruct Hform as [(E1 & _ & E) | (E1 & E & E2 & E3)].
      * cbn [length] in E. split; [lia | intros _; exact E1].
      * cbn [length] in E. split; [|lia].
        assert (k = 2)%nat as -> by lia. cbn. lia.
    + unfold byte_at. cbn [nth app].
      destruct Hform as [(_ & _ & E) | (E1 & E & _)]; [left | right].
      * exact E.
      * split; [exact E | exact E1].
Qed.

(** X2.  Framing is the inverse of concatenation: when the bytes of a list
    of well-formed device packets (profile-sized packets and three-byte bare
    PS/2 packets, with no 0x80 after the first byte) are fed one at a time
    to [interruptOccurred], the packets it completes are exactly those
    packets, in order. *)
Theorem framer_round_trip (modelData : alps_data) (packets : list (list Z)) :
  Forall (device_packet modelData) packets ->
  List.map snd (feed modelData [] 0 (concat packets)) = packets.
Proof.
  intros H. generalize 0%nat as c. induction H as [|p ps Hp Hps IH]; intros c.
  - reflexivity.
  - simpl concat. rewrite feed_device_packet by exact Hp.
    simpl. f_equal. apply IH.
Qed.

Lemma framer_round_trip_witness :
  List.map snd
    (feed pinnacle_data [] 0
       (concat [position_packet; [0x08; 0x01; 0x02]; bitmap_packet]))
  = [position_packet; [0x08; 0x01; 0x02]; bitmap_packet].
Proof.
  apply (framer_round_trip pinnacle_data).
  repeat constructor; simpl; try lia; intuition lia.
Defined.

Lemma feed_packets_offset md input :
  forall st c c',
    List.map snd (feed md st c input) = List.map snd (feed md st c' input).
Proof.
  induction input as [|d r IH]; intros st c c'; cbn [feed]; [reflexivity|].
  destruct (interruptOccurred md st d) as [[[] st'] pk]; cbn [List.map snd].
  - apply IH.
  - f_equal. apply IH.
Qed.

(** X3.  Bytes that cannot start a packet, arriving while no packet is in
    progress, are dropped: the packets [interruptOccurred] completes are the
    same as if those bytes had never arrived. *)
Theorem framer_skips_to_packet_start (modelData : alps_data)
    (junk rest : list Z) :
  Forall (fun b => ~ starts_packet modelData b) junk ->
  List.map snd (feed modelData [] 0 (junk ++ rest))
  = List.map snd (feed modelData [] 0 rest).
Proof.
  intros H. rewrite feed_skips by exact H. apply feed_packets_offset.
Qed.

Lemma framer_packets_wellformed_witness :
  In (6%nat, position_packet) (feed pinnacle_data [] 0 position_packet)
  /\ exists b t,
       position_packet = b :: t /\ starts_packet pinnacle_data b
       /\ ~ In 0x80 t.
Proof.
  assert (Hin : In (6%nat, position_packet)
                  (feed pinnacle_data [] 0 position_packet))
    by (vm_compute; left; reflexivity).
  split; [exact Hin|].
  exact (framer_packets_wellformed pinnacle_data position_packet 6%nat
           position_packet Hin).
Defined.

Lemma framer_skips_to_packet_start_witness :
  Forall (fun b => ~ starts_packet pinnacle_data b) [0x00; 0x80; 0x41]
  /\ List.map snd (feed pinnacle_data [] 0 ([0x00; 0x80; 0x41] ++ position_packet))
     = List.map snd (feed pinnacle_data [] 0 position_packet).
Proof.
  assert (Hjunk : Forall (fun b => ~ starts_packet pinnacle_data b)
                    [0x00; 0x80; 0x41]).
  { repeat constructor; intros [E | E]; vm_compute in E; discriminate. }
  split; [exact Hjunk|].
  exact (framer_skips_to_packet_start pinnacle_data [0x00; 0x80; 0x41]
           position_packet Hjunk).
Defined.

(* ------------------------------------------------------------------------- *)
(** * Bitmap scanning: the first and the last run *)

Lemma clear_between_step map a i :
  clear_between map a i -> Z.testbit map i = false ->
  clear_between map a (i + 1).
Proof.
  intros H Hi k Hk. destruct (Z.eq_dec k i) as [-> | Hne]; [exact Hi|].
  apply H. lia.
Qed.

Lemma set_between_step map a i :
  set_between map a i -> Z.testbit map i = true -> set_between map a (i + 1).
Proof.
  intros H Hi k Hk. destruct (Z.eq_dec k i) as [-> | Hne]; [exact Hi|].
  apply H. lia.
Qed.

Lemma clear_between_empty map a b : b <= a -> clear_between map a b.
Proof. intros H k Hk. lia. Qed.

Lemma set_between_one map i :
  Z.testbit map i = true -> set_between map i (i + 1).
Proof. intros H k Hk. replace k with i by lia. exact H. Qed.

Ltac pick_side :=
  solve [ left; repeat split; first [lia | reflexivity]
        | right; repeat split; first [lia | reflexivity] ].

Lemma scanned_body map low0 high0 f0 i prev s :
  0 <= i -> scanned map low0 high0 f0 i prev s ->
  let bit := if Z.testbit map i then 1 else 0 in
  scanned map low0 high0 f0 (i + 1) bit (bitmap_loop_body i bit prev s).
Proof.
  intros Hi Inv. cbv zeta. unfold bitmap_loop_body.
  destruct Inv as [(C & -> & ->) | [(a & n & L & Hh & F & Ha & Hn & C0 & S & C1 & P)
                                   | (a & n & b & k & L & Hh & F & Pt & Ha & Hn
                                      & C0 & S & T & Hab & Hk & Sb & Tb & C1 & P)]].
  - (* nothing seen yet *)
    destruct (Z.testbit map i) eqn:B; cbn [Z.eqb negb].
    + right; left. exists i, 1. unfold assign, deref.
      cbn [scan_point scan_low scan_high scan_fingers start_bit num_bits].
      repeat split; try lia; auto; try pick_side.
      * apply set_between_one. exact B.
      * apply clear_between_empty. lia.
    + left. repeat split; auto. apply clear_between_step; assumption.
  - (* one run seen *)
    destruct s as [lo hi fi pt]. cbn [scan_low scan_high scan_fingers scan_point] in *.
    subst lo hi fi.
    destruct P as [(-> & E & ->) | (-> & E & ->)];
      destruct (Z.testbit map i) eqn:B; cbn [Z.eqb negb];
      unfold assign, deref;
      cbn [scan_point scan_low scan_high scan_fingers start_bit num_bits].
    + right; left. exists a, (n + 1).
      cbn [scan_point scan_low scan_high scan_fingers].
      repeat split; try lia; auto; try pick_side.
      * replace (a + (n + 1)) with (i + 1) by lia.
        apply set_between_step; [|exact B]. rewrite <- E. exact S.
      * apply clear_between_empty. lia.
    + right; left. exists a, n.
      cbn [scan_point scan_low scan_high scan_fingers].
      repeat split; try lia; auto; try pick_side.
      * apply clear_between_step; assumption.
    + right; right. exists a, n, i, 1.
      cbn [scan_point scan_low scan_high scan_fingers].
      repeat split; try lia; auto; try pick_side.
      * apply C1. lia.
      * apply set_between_one. exact B.
      * apply C1. lia.
      * apply clear_between_empty. lia.
    + right; left. exists a, n.
      cbn [scan_point scan_low scan_high scan_fingers].
      repeat split; try lia; auto; try pick_side.
      * apply clear_between_step; assumption.
  - (* two runs or more seen *)
    destruct s as [lo hi fi pt]. cbn [scan_low scan_high scan_fingers scan_point] in *.
    subst lo hi pt.
    destruct P as [(-> & E) | (-> & E)];
      destruct (Z.testbit map i) eqn:B; cbn [Z.eqb negb];
      unfold assign, deref;
      cbn [scan_point scan_low scan_high scan_fingers start_bit num_bits].
    + right; right. exists a, n, b, (k + 1).
      cbn [scan_point scan_low scan_high scan_fingers].
      repeat split; try lia; auto; try pick_side.
      * replace (b + (k + 1)) with (i + 1) by lia.
        apply set_between_step; [|exact B]. rewrite <- E. exact Sb.
      * apply clear_between_empty. lia.
    + right; right. exists a, n, b, k.
      cbn [scan_point scan_low scan_high scan_fingers].
      repeat split; try lia; auto; try pick_side.
      * apply clear_between_step; assumption.
    + right; right. exists a, n, i, 1.
      cbn [scan_point scan_low scan_high scan_fingers].
      repeat split; try lia; auto; try pick_side.
      * apply set_between_one. exact B.
      * apply C1. lia.
      * apply clear_between_empty. lia.
    + right; right. exists a, n, b, k.
      cbn [scan_point scan_low scan_high scan_fingers].
      repeat split; try lia; auto; try pick_side.
      * apply clear_between_step; assumption.
Qed.

Lemma shiftr_zero_clear map i :
  0 <= i -> Z.shiftr map i = 0 -> forall k, i <= k -> Z.testbit map k = false.
Proof.
  intros Hi H k Hk. replace k with (k - i + i) by lia.
  rewrite <- Z.shiftr_spec by lia. rewrite H. apply Z.bits_0.
Qed.

Lemma bitmap_loop_scanned map low0 high0 f0 fuel :
  forall i prev s,
    0 <= i -> 0 <= Z.shiftr map i < 2 ^ Z.of_nat fuel ->
    scanned map low0 high0 f0 i prev s ->
    exists i' prev',
      scanned map low0 high0 f0 i' prev'
        (bitmap_loop fuel i (Z.shiftr map i) prev s)
      /\ 0 <= i' /\ forall k, i' <= k -> Z.testbit map k = false.
Proof.
  induction fuel as [|fuel IH]; intros i prev s Hi Hm Inv.
  - cbn [bitmap_loop]. exists i, prev. split; [exact Inv|]. split; [exact Hi|].
    apply shiftr_zero_clear; [exact Hi|]. change (2 ^ Z.of_nat 0) with 1 in Hm. lia.
  - cbn [bitmap_loop]. destruct (Z.eqb_spec (Z.shiftr map i) 0) as [E | E].
    + exists i, prev. split; [exact Inv|]. split; [exact Hi|].
      apply shiftr_zero_clear; assumption.
    + rewrite land_1_odd, <- Z.testbit_odd.
      rewrite Z.shiftr_shiftr by lia.
      apply IH; [lia| |].
      * rewrite <- Z.shiftr_shiftr by lia.
        rewrite (Z.shiftr_div_pow2 _ 1) by lia. change (2 ^ 1) with 2.
        rewrite Nat2Z.inj_succ, Z.pow_succ_r in Hm by lia.
        split; [apply Z.div_pos; lia|].
        apply Z.div_lt_upper_bound; lia.
      * apply scanned_body; assumption.
Qed.

(** What the scan has recorded when it ends: the lowest run in the low
    point, and either one run counted and the high point left alone, or two
    or more counted and the highest run in the high point. *)
Lemma alps_get_bitmap_points_scan (map : Z) (low0 high0 : alps_bitmap_point)
    (fingers0 : Z) :
  0 < map < 2 ^ 32 ->
  let '(low, high, fingers') :=
    alps_get_bitmap_points map low0 high0 fingers0 in
  first_run map low
  /\ ((fingers' = fingers0 + 1 /\ high = high0)
      \/ (fingers0 + 2 <= fingers' /\ last_run map high
          /\ start_bit low + num_bits low < start_bit high)).
Proof.
  intros Hm. unfold alps_get_bitmap_points.
  destruct (bitmap_loop_scanned map low0 high0 fingers0 32 0 0
              (mk_scan low0 high0 fingers0 to_low))
    as (i & prev & Inv & Hi & Hclear).
  - lia.
  - rewrite Z.shiftr_0_r. change (Z.of_nat 32) with 32. lia.
  - left. repeat split; auto. apply clear_between_empty. lia.
  - rewrite Z.shiftr_0_r in Inv.
    destruct (bitmap_loop 32 0 map 0 _) as [lo hi fi pt].
    cbn [scan_low scan_high scan_fingers].
    destruct Inv as [(C & _ & _) | [(a & n & L & Hh & F & Ha & Hn & C0 & S & C1 & P)
                                   | (a & n & b & k & L & Hh & F & Pt & Ha & Hn
                                      & C0 & S & T & Hab & Hk & Sb & Tb & C1 & P)]].
    + exfalso. assert (map = 0); [|lia].
      apply Z.bits_inj'. intros k Hk. rewrite Z.bits_0.
      destruct (Z.lt_ge_cases k i); [apply C; lia | apply Hclear; lia].
    + cbn [scan_low scan_high scan_fingers scan_point] in *. subst lo hi fi.
      split.
      * unfold first_run. cbn [start_bit num_bits].
        repeat split; try lia; auto.
        destruct (Z.lt_ge_cases (a + n) i); [apply C1; lia | apply Hclear; lia].
      * left. split; reflexivity.
    + cbn [scan_low scan_high scan_fingers scan_point] in *. subst lo hi.
      split.
      * unfold first_run. cbn [start_bit num_bits]. repeat split; try lia; auto.
      * right. split; [exact F|]. split.
        -- unfold last_run. cbn [start_bit num_bits].
           repeat split; try lia; auto.
           intros j Hj.
           destruct (Z.lt_ge_cases j i); [apply C1; lia | apply Hclear; lia].
        -- cbn [start_bit num_bits]. lia.
Qed.

(** X4.  For a non-zero 32-bit bitmap, [alps_get_bitmap_points] adds the
    number of maximal runs of set bits to the count and leaves in the low
    point the lowest maximal run (its start and its length).  When the
    bitmap has a single run the high point is left as it was; when it has
    two runs or more the high point is the highest maximal run, which lies
    strictly above the end of the low one. *)
Theorem alps_get_bitmap_points_runs (map : Z) (low0 high0 : alps_bitmap_point)
    (fingers0 : Z) :
  0 < map < 2 ^ 32 ->
  let '(low, high, fingers') :=
    alps_get_bitmap_points map low0 high0 fingers0 in
  fingers' = fingers0 + maximal_runs map
  /\ first_run map low
  /\ ((maximal_runs map = 1 /\ high = high0)
      \/ (2 <= maximal_runs map /\ last_run map high
          /\ start_bit low + num_bits low < start_bit high)).
Proof.
  intros Hm.
  pose proof (alps_get_bitmap_points_scan map low0 high0 fingers0 Hm) as S.
  pose proof (alps_get_bitmap_points_fingers map low0 high0 fingers0
                ltac:(lia)) as F.
  destruct (alps_get_bitmap_points map low0 high0 fingers0)
    as [[low high] fingers']. cbn [snd] in F.
  destruct S as (Hlow & [[Hf Hh] | (Hf & Hlast & Hgap)]).
  - split; [exact F|]. split; [exact Hlow|]. left. split; [lia | exact Hh].
  - split; [exact F|]. split; [exact Hlow|]. right.
    split; [lia|]. split; assumption.
Qed.

Lemma alps_get_bitmap_points_runs_witness :
  0 < 0x66 < 2 ^ 32
  /\ let '(low, high, fingers') :=
       alps_get_bitmap_points 0x66 (mk_point 0 0) (mk_point 0 0) 0 in
     fingers' = 0 + maximal_runs 0x66
     /\ first_run 0x66 low
     /\ ((maximal_runs 0x66 = 1 /\ high = mk_point 0 0)
         \/ (2 <= maximal_runs 0x66 /\ last_run 0x66 high
             /\ start_bit low + num_bits low < start_bit high)).
Proof.
  assert (Hm : 0 < 0x66 < 2 ^ 32) by lia.
  split; [exact Hm|].
  exact (alps_get_bitmap_points_runs 0x66 (mk_point 0 0) (mk_point 0 0) 0 Hm).
Defined.

(* ------------------------------------------------------------------------- *)
(** * Decoded fields, identification and the model table *)

(** X6.  Whatever the six bytes of the packet, a packet that the decoder of
    a V3 or V5 touchpad takes as a position packet yields an x and a y
    between 0 and 2047 and a pressure between 0 and 127. *)
Theorem decoded_position_in_range (d : decoder) (f : alps_fields) (p : list Z) :
  f_is_mp (decode_fields d f p) = false ->
  0 <= f_x (decode_fields d f p) <= 2047
  /\ 0 <= f_y (decode_fields d f p) <= 2047
  /\ 0 <= f_z (decode_fields d f p) <= 127.
Proof.
  destruct d; cbn [decode_fields];
    unfold decodePinnacle, decodeRushmore, decodeDolphin.
  - cbn [f_is_mp set_f_mp].
    destruct (nonzero (Z.land (byte_at p 0) 64)); cbn [f_is_mp set_f_maps set_f_mp];
      [discriminate|]. intros _.
    cbn [f_x f_y f_z decodeButtonsV3 set_f_xyz]. split; [|split]; bits_in_range.
  - cbn [f_is_mp set_f_mp].
    destruct (nonzero (Z.land (byte_at p 5) 64)); cbn [f_is_mp set_f_maps set_f_mp];
      [discriminate|]. intros _.
    cbn [f_x f_y f_z decodeButtonsV3 set_f_xyz]. split; [|split]; bits_in_range.
  - intros _. cbn [f_x f_y f_z decodeButtonsV3 set_f_xyz].
    destruct (nonzero (Z.land (byte_at p 0) 4));
      (split; [|split]; first [bits_in_range | lia]).
Qed.

Lemma decoded_bitmaps_range d f p :
  f_is_mp (decode_fields d f p) = true ->
  let bits := match d with
              | Pinnacle => (15, 11) | Rushmore => (16, 12) | Dolphin => (23, 12)
              end in
  0 <= f_x_map (decode_fields d f p) < 2 ^ fst bits
  /\ 0 <= f_y_map (decode_fields d f p) < 2 ^ snd bits.
Proof.
  assert (W : forall a A B, 0 <= a <= A -> A < B -> 0 <= a < B) by (intros; lia).
  destruct d; cbn [decode_fields fst snd];
    unfold decodePinnacle, decodeRushmore, decodeDolphin.
  - cbn [f_is_mp set_f_mp].
    destruct (nonzero (Z.land (byte_at p 0) 64)); cbn [f_is_mp set_f_maps set_f_mp];
      [|cbn [f_is_mp decodeButtonsV3 set_f_xyz set_f_mp]; discriminate].
    intros _. cbn [f_x_map f_y_map set_f_maps].
    split; (eapply W; [bound_bits | reflexivity]).
  - cbn [f_is_mp set_f_mp].
    destruct (nonzero (Z.land (byte_at p 5) 64)); cbn [f_is_mp set_f_maps set_f_mp];
      [|cbn [f_is_mp decodeButtonsV3 set_f_xyz set_f_mp]; discriminate].
    intros _. cbn [f_x_map f_y_map set_f_maps].
    split; (eapply W; [bound_bits | reflexivity]).
  - intros _. cbn [f_x_map f_y_map decodeButtonsV3 set_f_xyz set_f_maps].
    split; (eapply W; [bound_bits | reflexivity]).
Qed.

Section IdentificationProperties.
Context `{PS2Port}.

Lemma identify_cases s dev r s' dev' :
  identify s dev = (r, s', dev') ->
  (r <> kIOReturnSuccess /\ s' = s)
  \/ (r = kIOReturnSuccess
      /\ ((exists e7 ec, matchTable e7 ec s = (true, s'))
          \/ s' = setDefaults (set_proto_version ALPS_PROTO_V5 s)
          \/ s' = setDefaults (set_proto_version ALPS_PROTO_V3 s)
          \/ exists fl,
               let s3 := setDefaults (set_proto_version ALPS_PROTO_V3 s) in
               let m := modelData s3 in
               s' = mk_profile
                      (set_flags fl
                         (set_profile_defaults (proto_version m) (byte0 m)
                            (mask0 m) (flags m) (x_max m) (y_max m) 16 12
                            (nibble_commands m) (addr_command m) m))
                      (Some hwInitRushmoreV3) (process_packet s3)
                      (Some Rushmore))).
Proof.
  unfold identify.
  destruct (repeatCmd _ _ kDP_SetMouseScaling1To1 dev) as [[ok6 e6] dev1].
  destruct ok6; cbn [negb];
    [|intros E; inversion E; left; split; [discriminate | reflexivity]].
  destruct (e6_accepted e6); cbn [negb];
    [|intros E; inversion E; left; split; [discriminate | reflexivity]].
  destruct (repeatCmd _ _ kDP_SetMouseScaling2To1 dev1) as [[ok7 e7] dev2].
  destruct ok7; cbn [negb];
    [|intros E; inversion E; left; split; [discriminate | reflexivity]].
  destruct (repeatCmd _ _ kDP_MouseResetWrap dev2) as [[okc ec] dev3].
  destruct okc; cbn [negb];
    [|intros E; inversion E; left; split; [discriminate | reflexivity]].
  destruct (exitCommandMode dev3) as [okx dev4].
  destruct okx; cbn [negb];
    [|intros E; inversion E; left; split; [discriminate | reflexivity]].
  destruct (matchTable e7 ec s) as [matched s1] eqn:M.
  destruct matched.
  { intros E; inversion E; subst. right. split; [reflexivity|].
    left. exists e7, ec. exact M. }
  destruct (_ && _).
  { intros E; inversion E; subst. right. split; [reflexivity|]. right; left.
    reflexivity. }
  destruct (_ && _).
  { destruct (probeTrackstickV3 _ _ dev4) as [pr dev5].
    intros E; inversion E; subst. right. split; [reflexivity|]. do 3 right.
    cbv zeta.
    destruct pr; eexists; unfold set_flags, set_profile_defaults;
      cbn [flags]; reflexivity. }
  destruct (_ && _).
  { intros E; inversion E; subst. right. split; [reflexivity|]. right; right; left.
    reflexivity. }
  intros E; inversion E; left; split; [discriminate | reflexivity].
Qed.

Lemma matchTable_from_handlers models e7 ec s s' :
  matchTable_from models e7 ec s = (true, s') ->
  Forall (fun model => model_proto_version model <> ALPS_PROTO_V3
                       /\ model_proto_version model <> ALPS_PROTO_V5) models ->
  exists model,
    In model models
    /\ signature_eqb e7 (signature model) = true
    /\ proto_version (modelData s') = model_proto_version model
    /\ byte0 (modelData s') = model_byte0 model
    /\ mask0 (modelData s') = model_mask0 model
    /\ flags (modelData s') = model_flags model
    /\ pktsize (modelData s') = pktsize (modelData s)
    /\ decode_fields_ptr s' = decode_fields_ptr s
    /\ ((hw_init s' = Some hwInitV1V2
         /\ process_packet s' = Some ptr_processPacketV1V2)
        \/ (hw_init s' = Some hwInitV4
            /\ process_packet s' = Some ptr_processPacketV4
            /\ nibble_commands (modelData s') = alps_v4_nibble_commands)).
Proof.
  induction models as [|model rest IH]; cbn [matchTable_from];
    [discriminate|].
  intros E F. inversion F as [|? ? [N3 N5] F']; subst.
  destruct (signature_eqb e7 (signature model)
            && ((command_mode_resp model =? 0)
                || (command_mode_resp model =? bytes2 ec))) eqn:T.
  - apply andb_true_iff in T as [T _].
    inversion E; subst. exists model. split; [left; reflexivity|].
    split; [exact T|].
    unfold setDefaults, set_proto_version, set_profile_defaults, set_modelData.
    cbn [modelData proto_version].
    destruct (model_proto_version model); try congruence;
      cbn; repeat split; auto.
  - destruct (IH E F') as (m & Hin & R). exists m. split; [right; exact Hin|].
    exact R.
Qed.

Lemma table_protocols :
  Forall (fun model => model_proto_version model <> ALPS_PROTO_V3
                       /\ model_proto_version model <> ALPS_PROTO_V5)
    alps_model_data.
Proof. repeat constructor; discriminate. Qed.

(** X13.  [identify] leaves the profile as it was when it fails.  When it
    succeeds the profile has a hardware initialisation routine and a packet
    handler, a decoder whenever the packet handler is the V3 one, the packet
    size it had before, and maxima of at most 2000 with at least 11 bitmap
    bits per axis. *)
Theorem identify_sets_handlers (s : profile) (dev : Device) :
  let r := identify s dev in
  (fst (fst r) <> kIOReturnSuccess -> snd (fst r) = s)
  /\ (fst (fst r) = kIOReturnSuccess ->
      hw_init (snd (fst r)) <> None
      /\ process_packet (snd (fst r)) <> None
      /\ (process_packet (snd (fst r)) = Some ptr_processPacketV3 ->
          decode_fields_ptr (snd (fst r)) <> None)
      /\ pktsize (modelData (snd (fst r))) = pktsize (modelData s)
      /\ profile_in_range (modelData (snd (fst r)))).
Proof.
  cbv zeta. pose proof (identify_in_range s dev) as R.
  destruct (identify s dev) as [[r s'] dev'] eqn:E. cbn [fst snd] in *.
  destruct (identify_cases _ _ _ _ _ E) as [[N ->] | [-> C]].
  - split; [reflexivity | contradiction].
  - split; [congruence|]. intros _. specialize (R eq_refl).
    (split; [|split; [|split; [|split; [|exact R]]]]);
      destruct C as [(e7 & ec & M) | [-> | [-> | (fl & ->)]]];
      try (unfold setDefaults, set_proto_version; cbn;
           first [discriminate | reflexivity]);
      destruct (matchTable_from_handlers _ _ _ _ _ M table_protocols)
        as (model & _ & _ & _ & _ & _ & _ & P & _ & [[A B] | (A & B & _)]);
      rewrite ?A, ?B; first [discriminate | exact P].
Qed.

(** X7.  When [identify] succeeds and selects the V3 packet handler, it has
    also selected a decoder, and every bitmap that this decoder extracts from
    a bitmap packet fits in the number of bits per axis that [identify]
    stored in the profile ([x_bits] and [y_bits]). *)
Theorem identified_decoder_fits_profile (s : profile) (dev : Device) :
  let s' := snd (fst (identify s dev)) in
  fst (fst (identify s dev)) = kIOReturnSuccess ->
  process_packet s' = Some ptr_processPacketV3 ->
  exists d,
    decode_fields_ptr s' = Some d
    /\ forall f p,
         f_is_mp (decode_fields d f p) = true ->
         0 <= f_x_map (decode_fields d f p) < 2 ^ x_bits (modelData s')
         /\ 0 <= f_y_map (decode_fields d f p) < 2 ^ y_bits (modelData s').
Proof.
  cbv zeta. destruct (identify s dev) as [[r s'] dev'] eqn:E. cbn [fst snd].
  intros -> PP.
  destruct (identify_cases _ _ _ _ _ E) as [[N _] | [_ C]]; [congruence|].
  destruct C as [(e7 & ec & M) | [-> | [-> | (fl & ->)]]].
  - destruct (matchTable_from_handlers _ _ _ _ _ M table_protocols)
      as (model & _ & _ & _ & _ & _ & _ & _ & _ & [[A B] | (A & B & _)]);
      congruence.
  - exists Dolphin. split; [reflexivity|]. intros f p Hmp.
    exact (decoded_bitmaps_range Dolphin f p Hmp).
  - exists Pinnacle. split; [reflexivity|]. intros f p Hmp.
    exact (decoded_bitmaps_range Pinnacle f p Hmp).
  - exists Rushmore. split; [reflexivity|]. intros f p Hmp.
    exact (decoded_bitmaps_range Rushmore f p Hmp).
Qed.

(** X14.  Table lookup finds every entry of [alps_model_data]: given the E7
    signature of an entry, and an EC report whose third byte is the entry's
    command mode response when the entry has one, [matchTable] succeeds and
    installs the protocol version, [byte0], [mask0] and flags of that very
    entry (no earlier entry shadows it). *)
Theorem matchTable_selects_entry (model : alps_model_info) (ec : ALPSStatus_t)
    (s : profile) :
  In model alps_model_data ->
  command_mode_resp model = 0 \/ command_mode_resp model = bytes2 ec ->
  exists s',
    matchTable (signature model) ec s = (true, s')
    /\ proto_version (modelData s') = model_proto_version model
    /\ byte0 (modelData s') = model_byte0 model
    /\ mask0 (modelData s') = model_mask0 model
    /\ flags (modelData s') = model_flags model.
Proof.
  intros Hin Hresp.
  assert (Hsig : forall m1 m2, In m1 alps_model_data -> In m2 alps_model_data ->
            signature_eqb (signature m1) (signature m2) = true -> m1 = m2).
  { intros m1 m2 H1 H2.
    repeat (destruct H1 as [<- | H1]; [|]); try contradiction;
      repeat (destruct H2 as [<- | H2]; [|]); try contradiction;
      (reflexivity || (vm_compute; discriminate)). }
  destruct (matchTable (signature model) ec s) as [b s'] eqn:M.
  destruct b.
  - exists s'. split; [reflexivity|].
    destruct (matchTable_from_handlers _ _ _ _ _ M table_protocols)
      as (m & Hm & Hs & A & B & C & D & _).
    assert (model = m) as <- by (apply Hsig; assumption).
    repeat split; assumption.
  - exfalso. revert M. unfold matchTable.
    generalize alps_model_data at 1 as models, Hin. clear Hsig.
    intros models. revert Hin. generalize alps_model_data. intros all _.
    revert s. change (forall s, In model models ->
                        matchTable_from models (signature model) ec s
                        = (false, s') -> False).
    induction models as [|m rest IH]; intros s0 Hin'; [destruct Hin'|].
    cbn [matchTable_from].
    destruct (signature_eqb (signature model) (signature m)
              && ((command_mode_resp m =? 0)
                  || (command_mode_resp m =? bytes2 ec))) eqn:T;
      [discriminate|].
    destruct Hin' as [-> | Hin']; [|apply IH; exact Hin'].
    exfalso. apply andb_false_iff in T as [T | T].
    + unfold signature_eqb in T. rewrite !Z.eqb_refl in T. discriminate.
    + apply orb_false_iff in T as [T1 T2].
      apply Z.eqb_neq in T1, T2. destruct Hresp; contradiction.
Qed.

(** X15.  When [deviceSpecificInit] succeeds, the device was identified, a
    hardware initialisation routine is selected, and the packet size is 8
    for a V4 profile and 6 for every other. *)
Theorem deviceSpecificInit_packet_size (s : profile) (dev : Device) :
  fst (fst (deviceSpecificInit s dev)) = true ->
  let s' := snd (fst (deviceSpecificInit s dev)) in
  fst (fst (identify s (snd (resetMouse dev)))) = kIOReturnSuccess
  /\ hw_init s' <> None
  /\ pktsize (modelData s')
     = (if alps_proto_eqb (proto_version (modelData s')) ALPS_PROTO_V4
        then 8 else 6).
Proof.
  unfold deviceSpecificInit.
  destruct (resetMouse dev) as [b dev1]. cbn [snd].
  destruct (identify s dev1) as [[r s1] dev2]. cbn [fst].
  destruct r; try (destruct (resetMouse dev2); cbn; discriminate).
  cbn [hw_init set_modelData].
  destruct (hw_init s1) as [h|] eqn:Hh;
    [|destruct (resetMouse dev2); cbn; discriminate].
  destruct (run_hw_init h _ dev2) as [[ok fl] dev3].
  destruct ok; [|destruct (resetMouse dev3); cbn; discriminate].
  cbn. intros _. split; [reflexivity|]. split; [rewrite Hh; discriminate|].
  reflexivity.
Qed.

End IdentificationProperties.

(** X5.  When both bitmaps are non-empty and the stored corner index is -1
    or between 0 and 3, [processBitmap] leaves a corner index between 0 and
    3, reports the single-touch coordinate as the first contact, and reports
    as the second contact the corner of the bounding box with that index, so
    the read of the four-element corner array stays inside it. *)
Theorem processBitmap_reports_corner (modelData : alps_data) (f : alps_fields) :
  f_x_map f <> 0 -> f_y_map f <> 0 ->
  second_touch modelData = -1 \/ 0 <= second_touch modelData <= 3 ->
  let '(_, modelData', f') := processBitmap modelData f in
  0 <= second_touch modelData' <= 3
  /\ (f_x1 f', f_y1 f') = (f_x f, f_y f)
  /\ (f_x2 f', f_y2 f')
     = corner_at (corners_of modelData (f_x_map f) (f_y_map f))
         (second_touch modelData')
  /\ In (f_x2 f', f_y2 f') (corners_of modelData (f_x_map f) (f_y_map f)).
Proof.
  intros Hx Hy Hst. rewrite processBitmap_effect.
  assert ((f_x_map f =? 0) || (f_y_map f =? 0) = false) as ->.
  { apply orb_false_iff. split; apply Z.eqb_neq; assumption. }
  cbv zeta. cbn [second_touch set_second_touch f_x1 f_y1 f_x2 f_y2 set_f_mt].
  set (corner := corners_of modelData (f_x_map f) (f_y_map f)).
  set (st := select_second_touch f corner (second_touch modelData)).
  assert (Hr : 0 <= st <= 3).
  { subst st. unfold select_second_touch.
    destruct (second_touch modelData =? -1) eqn:E.
    - cbn [fold_left]. unfold closest_step. cbn [snd].
      apply Z.eqb_eq in E. rewrite E.
      repeat match goal with
             | |- context [if ?c then _ else _] => destruct c; cbn [snd]
             end; cbn; lia.
    - apply Z.eqb_neq in E. lia. }
  split; [exact Hr|]. split; [reflexivity|].
  split; [destruct (corner_at corner st); reflexivity|].
  rewrite <- surjective_pairing. unfold corner_at. apply nth_In.
  subst corner. rewrite corners_of_length. lia.
Qed.

(** X8.  If the fragment counter of a V4 profile is between 0 and 2 and its
    buffer holds 6 bytes, then after any packet the counter is again between
    0 and 2 and the buffer still holds 6 bytes, the packet is not rejected,
    and bytes 6 and 7 of the packet were stored in one slot of two bytes
    inside the buffer (slot 0 when the packet carries the start flag) while
    every other byte of the buffer is unchanged. *)
Theorem packetV4_buffer_safe (modelData : alps_data) (packet : list Z) :
  0 <= multi_packet modelData <= 2 ->
  length (multi_data modelData) = 6%nat ->
  let modelData' := fst (packetV4_fields modelData packet) in
  0 <= multi_packet modelData' <= 2
  /\ length (multi_data modelData') = 6%nat
  /\ snd (packetV4_fields modelData packet) <> None
  /\ exists k,
       (k = 0 \/ k = 1 \/ k = 2)%nat
       /\ (nonzero (Z.land (byte_at packet 6) 0x40) = true -> k = 0%nat)
       /\ multi_packet modelData' = Z.of_nat ((k + 1) mod 3)
       /\ byte_at (multi_data modelData') (2 * k) = byte_at packet 6
       /\ byte_at (multi_data modelData') (2 * k + 1) = byte_at packet 7
       /\ forall i, i <> (2 * k)%nat -> i <> (2 * k + 1)%nat ->
            byte_at (multi_data modelData') i
            = byte_at (multi_data modelData) i.
Proof.
  intros Hmp Hlen. cbv zeta.
  pose proof (packetV4_fragment modelData packet) as F. cbv zeta in F.
  set (mp := if nonzero (Z.land (byte_at packet 6) 64) then 0
             else multi_packet modelData) in *.
  assert (Hm : 0 <= mp <= 2) by (subst mp; destruct (nonzero _); lia).
  assert (E : (2 <? mp) = false) by (apply Z.ltb_ge; lia).
  destruct (F E) as [D P]. rewrite D, P.
  destruct (multi_data modelData) as [|b0 [|b1 [|b2 [|b3 [|b4 [|b5 [|]]]]]]];
    try discriminate.
  assert (Hsome : snd (packetV4_fields modelData packet) <> None).
  { unfold packetV4_fields. fold mp.
    assert (multi_packet
              (if nonzero (Z.land (byte_at packet 6) 64)
               then set_multi_packet 0 modelData else modelData) = mp) as ->.
    { subst mp. destruct (nonzero _); reflexivity. }
    rewrite E. cbn [snd]. discriminate. }
  assert (mp = 0 \/ mp = 1 \/ mp = 2) as [Em | [Em | Em]] by lia; rewrite Em.
  - cbn. repeat split; try lia; [exact Hsome|]. exists 0%nat.
    repeat split; auto.
    intros i H0 H1. destruct i as [|[|i]]; try lia. reflexivity.
  - cbn. repeat split; try lia; [exact Hsome|]. exists 1%nat.
    repeat split; auto.
    + intros Hs. subst mp. rewrite Hs in Em. discriminate.
    + intros i H0 H1. destruct i as [|[|[|[|i]]]]; try lia; reflexivity.
  - cbn. repeat split; try lia; [exact Hsome|]. exists 2%nat.
    repeat split; auto.
    + intros Hs. subst mp. rewrite Hs in Em. discriminate.
    + intros i H0 H1. destruct i as [|[|[|[|[|[|i]]]]]]; try lia; reflexivity.
Qed.

Lemma byte_cases (P : Z -> bool) :
  forallb P (List.map Z.of_nat (seq 0 256)) = true ->
  forall v, is_byte v -> P v = true.
Proof.
  intros H v [Hl Hu]. rewrite forallb_forall in H. apply H.
  rewrite in_map_iff. exists (Z.to_nat v). split; [lia|].
  apply in_seq. lia.
Qed.

Lemma shiftl_land_bit b k n :
  0 <= k -> 0 <= n ->
  Z.land (Z.shiftl b k) (2 ^ (n + k)) = if Z.testbit b n then 2 ^ (n + k) else 0.
Proof.
  intros Hk Hn. apply Z.bits_inj'. intros i Hi.
  rewrite Z.land_spec, Z.shiftl_spec by exact Hi.
  rewrite Z.pow2_bits_eqb by lia.
  destruct (Z.eqb_spec (n + k) i) as [<- | Hne].
  - replace (n + k - k) with n by lia.
    destruct (Z.testbit b n).
    + rewrite Z.pow2_bits_true by lia. reflexivity.
    + rewrite Z.bits_0. reflexivity.
  - rewrite andb_false_r. destruct (Z.testbit b n).
    + rewrite Z.pow2_bits_false by lia. reflexivity.
    + rewrite Z.bits_0. reflexivity.
Qed.

(** X9.  For a three-byte bare PS/2 packet,
    [dispatchRelativePointerEventWithPacket] dispatches exactly one relative
    pointer event: its buttons are the low three bits of byte 0, dx is byte
    1 minus 256 when the x sign bit (bit 4 of byte 0) is set and byte 1 is
    non-zero, dy is the negated byte 2 plus 256 when the y sign bit (bit 5)
    is set and byte 2 is non-zero, and both deltas lie between -255 and
    255. *)
Theorem relative_packet_deltas (packet : list Z) (packetSize now_abs : Z) :
  is_byte (byte_at packet 0) -> is_byte (byte_at packet 1) ->
  is_byte (byte_at packet 2) ->
  exists dx dy,
    dispatchRelativePointerEventWithPacket packet packetSize now_abs
    = [dispatchRelativePointerEventX dx dy (Z.land (byte_at packet 0) 7) now_abs]
    /\ dx = (if Z.testbit (byte_at packet 0) 4 && nonzero (byte_at packet 1)
             then byte_at packet 1 - 256 else byte_at packet 1)
    /\ dy = (if Z.testbit (byte_at packet 0) 5 && nonzero (byte_at packet 2)
             then 256 - byte_at packet 2 else - byte_at packet 2)
    /\ -255 <= dx <= 255 /\ -255 <= dy <= 255.
Proof.
  unfold is_byte. intros H0 H1 H2.
  unfold dispatchRelativePointerEventWithPacket.
  set (p0 := byte_at packet 0) in *. set (p1 := byte_at packet 1) in *.
  set (p2 := byte_at packet 2) in *.
  pose proof (shiftl_land_bit p0 4 4 ltac:(lia) ltac:(lia)) as Sx.
  pose proof (shiftl_land_bit p0 3 5 ltac:(lia) ltac:(lia)) as Sy.
  change (2 ^ (4 + 4)) with 256 in Sx. change (2 ^ (5 + 3)) with 256 in Sy.
  rewrite Sx, Sy.
  assert (Hb : (if nonzero (Z.land p0 4)
                then Z.lor (if nonzero (Z.land p0 2)
                            then Z.lor (if nonzero (Z.land p0 1)
                                        then Z.lor 0 1 else 0) 2
                            else (if nonzero (Z.land p0 1) then Z.lor 0 1 else 0)) 4
                else (if nonzero (Z.land p0 2)
                      then Z.lor (if nonzero (Z.land p0 1)
                                  then Z.lor 0 1 else 0) 2
                      else (if nonzero (Z.land p0 1) then Z.lor 0 1 else 0)))
               = Z.land p0 7).
  { apply Z.eqb_eq.
    apply (byte_cases
             (fun v =>
                (if nonzero (Z.land v 4)
                 then Z.lor (if nonzero (Z.land v 2)
                             then Z.lor (if nonzero (Z.land v 1)
                                         then Z.lor 0 1 else 0) 2
                             else (if nonzero (Z.land v 1) then Z.lor 0 1 else 0)) 4
                 else (if nonzero (Z.land v 2)
                       then Z.lor (if nonzero (Z.land v 1)
                                   then Z.lor 0 1 else 0) 2
                       else (if nonzero (Z.land v 1) then Z.lor 0 1 else 0)))
                =? Z.land v 7)); [vm_compute; reflexivity | exact H0]. }
  rewrite Hb. clear Hb.
  eexists. eexists. split; [reflexivity|].
  unfold nonzero.
  destruct (Z.eqb_spec p1 0) as [E1 | E1], (Z.eqb_spec p2 0) as [E2 | E2];
    destruct (Z.testbit p0 4), (Z.testbit p0 5); cbn [negb andb];
    repeat split; lia.
Qed.

Lemma decoded_position_in_range_witness :
  f_is_mp (decode_fields Pinnacle uninitialised_fields position_packet) = false
  /\ 0 <= f_x (decode_fields Pinnacle uninitialised_fields position_packet)
     <= 2047
  /\ 0 <= f_y (decode_fields Pinnacle uninitialised_fields position_packet)
     <= 2047
  /\ 0 <= f_z (decode_fields Pinnacle uninitialised_fields position_packet)
     <= 127.
Proof.
  split; [reflexivity|].
  exact (decoded_position_in_range Pinnacle uninitialised_fields
           position_packet eq_refl).
Defined.

Lemma identified_decoder_fits_profile_witness :
  let s' := snd (fst (@identify rushmore_port unidentified 0%nat)) in
  (fst (fst (@identify rushmore_port unidentified 0%nat)) = kIOReturnSuccess
   /\ process_packet s' = Some ptr_processPacketV3)
  /\ exists d,
       decode_fields_ptr s' = Some d
       /\ forall f p,
            f_is_mp (decode_fields d f p) = true ->
            0 <= f_x_map (decode_fields d f p) < 2 ^ x_bits (modelData s')
            /\ 0 <= f_y_map (decode_fields d f p) < 2 ^ y_bits (modelData s').
Proof.
  cbv zeta. split; [split; reflexivity|].
  exact (@identified_decoder_fits_profile rushmore_port unidentified 0%nat
           eq_refl eq_refl).
Defined.

Lemma matchTable_selects_entry_witness :
  let model := mk_model (0x73, 0x02, 0x64) 0x8a ALPS_PROTO_V4 0x8f 0x8f 0 in
  (In model alps_model_data
   /\ (command_mode_resp model = 0
       \/ command_mode_resp model = bytes2 (0x88, 0x07, 0x8a)))
  /\ exists s',
       @matchTable v4_port (signature model) (0x88, 0x07, 0x8a) unidentified
       = (true, s')
       /\ proto_version (modelData s') = model_proto_version model
       /\ byte0 (modelData s') = model_byte0 model
       /\ mask0 (modelData s') = model_mask0 model
       /\ flags (modelData s') = model_flags model.
Proof.
  cbv zeta.
  assert (Hin : In (mk_model (0x73, 0x02, 0x64) 0x8a ALPS_PROTO_V4 0x8f 0x8f 0)
                  alps_model_data).
  { unfold alps_model_data. do 21 right. left. reflexivity. }
  assert (Hresp : command_mode_resp
                    (mk_model (0x73, 0x02, 0x64) 0x8a ALPS_PROTO_V4 0x8f 0x8f 0)
                  = 0
                  \/ command_mode_resp
                       (mk_model (0x73, 0x02, 0x64) 0x8a ALPS_PROTO_V4 0x8f
                          0x8f 0)
                     = bytes2 (0x88, 0x07, 0x8a)) by (right; reflexivity).
  split; [split; [exact Hin | exact Hresp]|].
  exact (@matchTable_selects_entry v4_port _ (0x88, 0x07, 0x8a) unidentified
           Hin Hresp).
Defined.

Lemma deviceSpecificInit_packet_size_witness :
  let s' := snd (fst (@deviceSpecificInit v4_port unidentified 0%nat)) in
  fst (fst (@deviceSpecificInit v4_port unidentified 0%nat)) = true
  /\ fst (fst (@identify v4_port unidentified
                 (snd (@resetMouse v4_port 0%nat)))) = kIOReturnSuccess
  /\ hw_init s' <> None
  /\ pktsize (modelData s')
     = (if alps_proto_eqb (proto_version (modelData s')) ALPS_PROTO_V4
        then 8 else 6).
Proof.
  cbv zeta. split; [reflexivity|].
  exact (@deviceSpecificInit_packet_size v4_port unidentified 0%nat eq_refl).
Defined.

Lemma processBitmap_reports_corner_witness :
  (f_x_map two_finger_fields <> 0 /\ f_y_map two_finger_fields <> 0
   /\ (second_touch pinnacle_data = -1
       \/ 0 <= second_touch pinnacle_data <= 3))
  /\ let '(_, modelData', f') := processBitmap pinnacle_data two_finger_fields in
     0 <= second_touch modelData' <= 3
     /\ (f_x1 f', f_y1 f') = (f_x two_finger_fields, f_y two_finger_fields)
     /\ (f_x2 f', f_y2 f')
        = corner_at (corners_of pinnacle_data (f_x_map two_finger_fields)
                       (f_y_map two_finger_fields))
            (second_touch modelData')
     /\ In (f_x2 f', f_y2 f')
          (corners_of pinnacle_data (f_x_map two_finger_fields)
             (f_y_map two_finger_fields)).
Proof.
  assert (Hx : f_x_map two_finger_fields <> 0) by (vm_compute; discriminate).
  assert (Hy : f_y_map two_finger_fields <> 0) by (vm_compute; discriminate).
  assert (Hs : second_touch pinnacle_data = -1
               \/ 0 <= second_touch pinnacle_data <= 3) by (left; reflexivity).
  split; [split; [exact Hx | split; [exact Hy | exact Hs]]|].
  exact (processBitmap_reports_corner pinnacle_data two_finger_fields Hx Hy Hs).
Defined.

Lemma packetV4_buffer_safe_witness :
  (0 <= multi_packet v4_data <= 2 /\ length (multi_data v4_data) = 6%nat)
  /\ let modelData' := fst (packetV4_fields v4_data v4_fragment_1) in
     0 <= multi_packet modelData' <= 2
     /\ length (multi_data modelData') = 6%nat
     /\ snd (packetV4_fields v4_data v4_fragment_1) <> None
     /\ exists k,
          (k = 0 \/ k = 1 \/ k = 2)%nat
          /\ (nonzero (Z.land (byte_at v4_fragment_1 6) 0x40) = true -> k = 0%nat)
          /\ multi_packet modelData' = Z.of_nat ((k + 1) mod 3)
          /\ byte_at (multi_data modelData') (2 * k) = byte_at v4_fragment_1 6
          /\ byte_at (multi_data modelData') (2 * k + 1)
             = byte_at v4_fragment_1 7
          /\ forall i, i <> (2 * k)%nat -> i <> (2 * k + 1)%nat ->
               byte_at (multi_data modelData') i
               = byte_at (multi_data v4_data) i.
Proof.
  assert (Hmp : 0 <= multi_packet v4_data <= 2) by (cbn; lia).
  assert (Hlen : length (multi_data v4_data) = 6%nat) by reflexivity.
  split; [split; [exact Hmp | exact Hlen]|].
  exact (packetV4_buffer_safe v4_data v4_fragment_1 Hmp Hlen).
Defined.

Lemma relative_packet_deltas_witness :
  (is_byte (byte_at relative_packet 0) /\ is_byte (byte_at relative_packet 1)
   /\ is_byte (byte_at relative_packet 2))
  /\ exists dx dy,
       dispatchRelativePointerEventWithPacket relative_packet 3 7
       = [dispatchRelativePointerEventX dx dy
            (Z.land (byte_at relative_packet 0) 7) 7]
       /\ dx = (if Z.testbit (byte_at relative_packet 0) 4
                   && nonzero (byte_at relative_packet 1)
                then byte_at relative_packet 1 - 256
                else byte_at relative_packet 1)
       /\ dy = (if Z.testbit (byte_at relative_packet 0) 5
                   && nonzero (byte_at relative_packet 2)
                then 256 - byte_at relative_packet 2
                else - byte_at relative_packet 2)
       /\ -255 <= dx <= 255 /\ -255 <= dy <= 255.
Proof.
  assert (H0 : is_byte (byte_at relative_packet 0)) by (unfold is_byte; cbn; lia).
  assert (H1 : is_byte (byte_at relative_packet 1)) by (unfold is_byte; cbn; lia).
  assert (H2 : is_byte (byte_at relative_packet 2)) by (unfold is_byte; cbn; lia).
  split; [split; [exact H0 | split; [exact H1 | exact H2]]|].
  exact (relative_packet_deltas relative_packet 3 7 H0 H1 H2).
Defined.

(* ------------------------------------------------------------------------- *)
(** * V3 packets and gesture processing *)

Lemma processBitmap_multi_packet md f :
  multi_packet (snd (fst (processBitmap md f))) = multi_packet md
  /\ multi_data (snd (fst (processBitmap md f))) = multi_data md.
Proof.
  rewrite processBitmap_effect.
  destruct ((f_x_map f =? 0) || (f_y_map f =? 0)); split; reflexivity.
Qed.

Lemma assign_member_same m k v : assign_member m k v k = v.
Proof.
  unfold assign_member. destruct (member_eq_dec k k); [reflexivity | congruence].
Qed.

Lemma assign_member_other m k v k' :
  k' <> k -> assign_member m k v k' = m k'.
Proof.
  intros Hne. unfold assign_member.
  destruct (member_eq_dec k' k); [contradiction | reflexivity].
Qed.

Lemma SInt8_range v : 0 <= v <= 255 -> -128 <= SInt8 v <= 127.
Proof. intros H. unfold SInt8. destruct (Z.leb_spec 128 v); lia. Qed.

Lemma trackstick_motion_range packet :
  -128 <= fst (trackstick_motion packet) <= 127
  /\ -127 <= snd (trackstick_motion packet) <= 128.
Proof.
  unfold trackstick_motion.
  set (bx := Z.lor _ _). set (by_ := Z.lor _ _).
  assert (Hx : 0 <= bx <= 255) by (subst bx; bits_in_range).
  assert (Hy : 0 <= by_ <= 255) by (subst by_; bits_in_range).
  pose proof (SInt8_range bx Hx). pose proof (SInt8_range by_ Hy).
  destruct (_ && _); cbn [fst snd]; lia.
Qed.

Lemma half_range v lo hi :
  lo <= v <= hi -> lo / 2 <= Z.shiftr v 1 <= hi / 2.
Proof.
  intros H. rewrite Z.shiftr_div_pow2 by lia. change (2 ^ 1) with 2.
  split; apply Z.div_le_mono; lia.
Qed.

Section DispatchProperties.
Context `{TouchPadBase}.
Variable gestureTail :
  driver -> bool -> Z -> Z -> Z -> Z -> Z -> Z -> Z -> Z -> Z ->
  driver * list Event.

(** X20.  The packet counter of a V3 profile stays 0 or 1 across
    [processTouchpadPacketV3].  Whenever it is 1 afterwards no sample is
    passed on, and when it goes from 0 to 1 the first six bytes of the
    packet were stored for the bitmap packet to come. *)
Theorem touchpadPacketV3_counter (decode : decoder) (modelData : alps_data)
    (f0 : alps_fields) (packet : list Z) :
  0 <= multi_packet modelData <= 1 ->
  let modelData' := fst (touchpadPacketV3_fields decode modelData f0 packet) in
  0 <= multi_packet modelData' <= 1
  /\ (multi_packet modelData' = 1 ->
      snd (touchpadPacketV3_fields decode modelData f0 packet) = None)
  /\ (multi_packet modelData = 0 -> multi_packet modelData' = 1 ->
      multi_data modelData' = firstn 6 packet).
Proof.
  intros Hmp. cbv zeta. unfold touchpadPacketV3_fields.
  destruct (2 <? multi_packet modelData) eqn:E2; [apply Z.ltb_lt in E2; lia|].
  set (f := decode_fields decode f0 packet).
  destruct (nonzero (multi_packet modelData)) eqn:Enz.
  - (* a position packet is stored *)
    assert (Hone : multi_packet modelData = 1).
    { unfold nonzero in Enz. apply negb_true_iff, Z.eqb_neq in Enz. lia. }
    destruct (f_is_mp f) eqn:Emp.
    + pose proof (processBitmap_multi_packet modelData
                    (decode_fields decode f (multi_data modelData))) as [PM PD].
      destruct (processBitmap modelData _) as [[n md'] f'].
      cbn [fst snd] in PM, PD.
      set (f'' := if f_fingers f =? 1 then set_f_z 0 f' else f').
      destruct (f_is_mp f'') eqn:Emp2; cbn [fst snd].
      * rewrite PM. split; [lia|]. split; [reflexivity|]. lia.
      * rewrite PM, Hone. cbn [Z.eqb andb].
        destruct (f_fingers f <? 2);
          cbn [multi_packet set_multi_packet set_second_touch fst snd];
          (split; [lia|]); split; intros; lia.
    + rewrite Emp. cbn [multi_packet set_multi_packet Z.eqb andb].
      destruct (f_first_mp f); cbn [fst snd multi_packet set_multi_packet
                                     set_multi_data multi_data].
      * split; [lia|]. split; [reflexivity|]. lia.
      * destruct (0 <? 2); cbn [multi_packet set_multi_packet set_second_touch
                                  fst snd];
          (split; [lia|]); split; intros; lia.
  - assert (Hzero : multi_packet modelData = 0).
    { unfold nonzero in Enz. apply negb_false_iff, Z.eqb_eq in Enz. exact Enz. }
    destruct (f_is_mp f) eqn:Emp; cbn [fst snd].
    + rewrite Hzero. split; [lia|]. split; [reflexivity|]. lia.
    + rewrite Hzero. cbn [Z.eqb andb].
      destruct (f_first_mp f); cbn [fst snd multi_packet set_multi_packet
                                     set_multi_data multi_data].
      * split; [lia|]. split; [reflexivity|]. reflexivity.
      * destruct (0 <? 2); cbn [multi_packet set_multi_packet set_second_touch
                                  fst snd];
          (split; [lia|]); split; intros; lia.
Qed.

(** X21.  A V3 trackstick packet dispatches no event, or one pointer event
    with dx between -192 and 190 and dy between -191 and 192, or one scroll
    event with amounts between -128 and 128 of which at least one is
    non-zero. *)
Theorem trackstick_packet_event (d : driver) (packet : list Z) (now_abs : Z) :
  let ev := snd (processTrackstickPacketV3 d packet now_abs) in
  ev = []
  \/ (exists dx dy buttons,
        ev = [dispatchRelativePointerEventX dx dy buttons now_abs]
        /\ -192 <= dx <= 190 /\ -191 <= dy <= 192)
  \/ (exists dy dx,
        ev = [dispatchScrollWheelEventX dy dx 0 now_abs]
        /\ -128 <= dy <= 127 /\ -127 <= dx <= 128 /\ (dx <> 0 \/ dy <> 0)).
Proof.
  cbv zeta. unfold processTrackstickPacketV3.
  destruct (Z.land (byte_at packet 0) 64 =? 0); [left; reflexivity|].
  destruct (_ && _ && _); [left; reflexivity|].
  pose proof (trackstick_motion_range packet) as [Rx Ry].
  destruct (trackstick_motion packet) as [x y]. cbn [fst snd] in Rx, Ry.
  match goal with
  | |- context [if 0 =? ?rb then (mem ?t lastbuttons, mem ?t) else ?e] =>
      destruct (if 0 =? rb then (mem t lastbuttons, mem t) else e) as [b m]
  end.
  destruct (((0 =? x) && (0 =? y)) || (0 =? Z.land b 4)) eqn:E; cbn [snd].
  - right; left. do 3 eexists. split; [reflexivity|].
    pose proof (half_range x (-128) 127 Rx) as Hx.
    pose proof (half_range y (-127) 128 Ry) as Hy.
    change (-128 / 2) with (-64) in Hx. change (127 / 2) with 63 in Hx.
    change (-127 / 2) with (-64) in Hy. change (128 / 2) with 64 in Hy.
    lia.
  - right; right. do 2 eexists. split; [reflexivity|].
    apply orb_false_iff in E as [E _]. apply andb_false_iff in E.
    repeat split; lia.
Qed.

(** X22.  The finger-lift block of [dispatchEventsWithInfo], up to the reset
    of the histories, empties both scroll histories, records the time in
    [untouchtime], clears the rest values, the swipe flags, the moved
    distances and [tracksecondary], and leaves the touch mode alone; the
    only event it can issue is arming the scroll timer with the momentum
    timer interval, and then the touch mode is MultiTouch, momentum
    scrolling and its timer are switched on, the history holds more samples
    than the minimum and spans a non-zero time. *)
Theorem finger_lift_resets (t : touchpad) (now_ns : Z) :
  let t' := fst (fingerLifted t now_ns) in
  let ev := snd (fingerLifted t now_ns) in
  dy_history t' = [] /\ time_history t' = []
  /\ touchmode t' = touchmode t
  /\ mem t' untouchtime = now_ns
  /\ (forall k,
        In k [xrest; yrest; scrollrest; inSwipeLeft; inSwipeRight; inSwipeUp;
              inSwipeDown; inSwipe4Left; inSwipe4Right; inSwipe4Up;
              inSwipe4Down; xmoved; ymoved; tracksecondary] ->
        mem t' k = 0)
  /\ (ev = []
      \/ (ev = [setTimerTimeout scrollTimer (mem t momentumscrolltimer)]
          /\ touchmode t = MODE_MTOUCH
          /\ mem t momentumscroll <> 0 /\ mem t momentumscrolltimer <> 0
          /\ mem t momentumscrollsamplesmin < history_count (dy_history t)
          /\ u64_sub (history_newest (time_history t))
                     (history_oldest (time_history t)) <> 0)).
Proof.
  cbv zeta. unfold fingerLifted.
  set (m0 := assign_member
               (assign_member
                  (assign_members
                     (assign_members
                        (assign_members
                           (assign_members (mem t) [scrollrest; yrest; xrest] 0)
                           [inSwipeDown; inSwipeUp; inSwipeRight; inSwipeLeft] 0)
                        [inSwipe4Down; inSwipe4Up; inSwipe4Right; inSwipe4Left] 0)
                     [ymoved; xmoved] 0) untouchtime now_ns) tracksecondary 0).
  assert (M0 : forall k,
             m0 k = if member_eq_dec k untouchtime then now_ns
                    else if in_dec member_eq_dec k
                              [xrest; yrest; scrollrest; inSwipeLeft;
                               inSwipeRight; inSwipeUp; inSwipeDown;
                               inSwipe4Left; inSwipe4Right; inSwipe4Up;
                               inSwipe4Down; xmoved; ymoved; tracksecondary]
                    then 0 else mem t k).
  { intros k. subst m0. unfold assign_members, assign_member. cbn [fold_left].
    destruct k; reflexivity. }
  set (c := if touch_mode_eqb MODE_MTOUCH (touchmode t)
               && nonzero (m0 momentumscroll)
               && nonzero (m0 momentumscrolltimer) then _ else (m0, [])).
  assert (C : (forall k,
                 k <> momentumscrollinterval -> k <> momentumscrollsum ->
                 k <> momentumscrollcurrent -> k <> momentumscrollrest1 ->
                 k <> momentumscrollrest2 -> fst c k = m0 k)
              /\ (snd c = []
                  \/ (snd c = [setTimerTimeout scrollTimer
                                 (mem t momentumscrolltimer)]
                      /\ touchmode t = MODE_MTOUCH
                      /\ mem t momentumscroll <> 0
                      /\ mem t momentumscrolltimer <> 0
                      /\ mem t momentumscrollsamplesmin
                         < history_count (dy_history t)
                      /\ u64_sub (history_newest (time_history t))
                                 (history_oldest (time_history t)) <> 0))).
  { subst c.
    destruct (touch_mode_eqb MODE_MTOUCH (touchmode t)) eqn:Em;
      [|split; [reflexivity | left; reflexivity]].
    assert (Hm : touchmode t = MODE_MTOUCH)
      by (destruct (touchmode t); try discriminate; reflexivity).
    rewrite (M0 momentumscroll), (M0 momentumscrolltimer).
    cbn [member_eq_dec].
    change (if member_eq_dec momentumscroll untouchtime then _ else _)
      with (mem t momentumscroll).
    change (if member_eq_dec momentumscrolltimer untouchtime then _ else _)
      with (mem t momentumscrolltimer).
    unfold nonzero.
    destruct (mem t momentumscroll =? 0) eqn:E1;
      [split; [reflexivity | left; reflexivity]|].
    destruct (mem t momentumscrolltimer =? 0) eqn:E2;
      [split; [reflexivity | left; reflexivity]|].
    cbn [negb andb].
    rewrite (M0 momentumscrollsamplesmin).
    change (if member_eq_dec momentumscrollsamplesmin untouchtime then _ else _)
      with (mem t momentumscrollsamplesmin).
    destruct (mem t momentumscrollsamplesmin <? history_count (dy_history t))
      eqn:E3; [|split; [reflexivity | left; reflexivity]].
    set (w := u64_sub _ _).
    rewrite (assign_member_same m0 momentumscrollinterval w).
    destruct (w =? 0) eqn:E4; cbn [negb fst snd].
    - split; [|left; reflexivity].
      intros k K1 _ _ _ _. apply assign_member_other. exact K1.
    - split.
      + intros k K1 K2 K3 K4 K5.
        rewrite !assign_member_other by assumption. reflexivity.
      + right. apply Z.eqb_neq in E1, E2, E4. apply Z.ltb_lt in E3.
        split; [|repeat split; assumption].
        rewrite !assign_member_other by discriminate.
        rewrite (M0 momentumscrolltimer). reflexivity. }
  destruct c as [m ev]. cbn [fst snd] in *. destruct C as [Cm Cev].
  cbn [dy_history time_history touchmode mem set_histories set_mem].
  unfold history_reset.
  split; [reflexivity|]. split; [reflexivity|]. split; [reflexivity|].
  split; [rewrite Cm, M0 by discriminate; reflexivity|].
  split; [|exact Cev].
  intros k Hk. rewrite Cm, M0.
  - cbn in Hk.
    repeat (destruct Hk as [<- | Hk]; [reflexivity|]). contradiction.
  - intros ->. cbn in Hk. intuition discriminate.
  - intros ->. cbn in Hk. intuition discriminate.
  - intros ->. cbn in Hk. intuition discriminate.
  - intros ->. cbn in Hk. intuition discriminate.
  - intros ->. cbn in Hk. intuition discriminate.
Qed.

End DispatchProperties.

Lemma touchpadPacketV3_counter_witness :
  let r := @touchpadPacketV3_fields plain_base Pinnacle pinnacle_data
             uninitialised_fields position_packet in
  0 <= multi_packet pinnacle_data <= 1
  /\ 0 <= multi_packet (fst r) <= 1
  /\ (multi_packet (fst r) = 1 -> snd r = None)
  /\ (multi_packet pinnacle_data = 0 -> multi_packet (fst r) = 1 ->
      multi_data (fst r) = firstn 6 position_packet).
Proof.
  cbv zeta.
  assert (Hmp : 0 <= multi_packet pinnacle_data <= 1) by (cbn; lia).
  split; [exact Hmp|].
  exact (@touchpadPacketV3_counter plain_base Pinnacle pinnacle_data
           uninitialised_fields position_packet Hmp).
Defined.

Section TypingProofs.
Context `{TouchPadBase}.
Variable gestureTail :
  driver -> bool -> Z -> Z -> Z -> Z -> Z -> Z -> Z -> Z -> Z ->
  driver * list Event.

Lemma beforeIgnoreAll_unfiltered t xraw yraw z fingers' buttonsraw now_abs now_ns :
  mem t xupmm = mem t yupmm ->
  mem t unsmoothinput = 0 -> mem t smoothinput = 0 ->
  let '(t', (x, y, _, _, _), _, after_typing) :=
    beforeIgnoreAll t xraw yraw z fingers' buttonsraw now_abs now_ns in
  x = xraw /\ y = yraw
  /\ after_typing
     = (nonzero (mem t outzone_wt) && (mem t z_finger <? z)
        && (u64_sub now_ns (mem t keytime) <? mem t maxaftertyping)
        && ((xraw <? mem t zonel) || (mem t zoner <? xraw)
            || (yraw <? mem t zoneb) || (mem t zonet <? yraw))).
Proof.
  intros Hup Hun Hsm. unfold beforeIgnoreAll.
  rewrite Hup, Z.ltb_irrefl.
  set (t1 := set_mem (assign_member (mem t) lastbuttons buttonsraw) t).
  assert (K1 : kept_before_ignoreall t t1) by (apply kept_set_mem; auto).
  set (c1 := if (mem t1 clickpadtype =? 0) || (fingers' =? 3) then _ else _).
  assert (C1 : kept_before_ignoreall t1 (fst (fst c1))).
  { subst c1. destruct ((mem t1 clickpadtype =? 0) || (fingers' =? 3)).
    - destruct (middleButton _ _ _ _ _) as [[mb b] ev]. cbn [fst snd].
      apply kept_set_mbutton.
    - apply kept_refl. }
  destruct c1 as [[t2 b2] ev1]. cbn [fst snd] in C1.
  set (c2 := if (0 =? mem t2 last_fingers) && (0 <? fingers') then _ else _).
  assert (C2 : kept_before_ignoreall t2 (fst (fst c2))).
  { subst c2. destruct ((0 =? mem t2 last_fingers) && (0 <? fingers')).
    - destruct (middleButton _ _ _ _ _) as [[mb b] ev]. cbn [fst snd].
      apply kept_set_mbutton.
    - apply kept_refl. }
  destruct c2 as [[t3 b3] ev2]. cbn [fst snd] in C2.
  set (t4 := if (0 <? mem t3 last_fingers) && (0 <? fingers')
                && negb (mem t3 last_fingers =? fingers') then _ else t3).
  assert (K4 : kept_before_ignoreall t3 t4).
  { subst t4.
    destruct ((0 <? mem t3 last_fingers) && (0 <? fingers')
              && negb (mem t3 last_fingers =? fingers'));
      [apply kept_set_mem; auto | apply kept_refl]. }
  set (t5 := if negb (mem t4 last_fingers =? fingers') then reset_filters t4 else t4).
  assert (K5 : kept_before_ignoreall t4 t5).
  { subst t5. destruct (negb (mem t4 last_fingers =? fingers'));
      [apply kept_reset_filters | apply kept_refl]. }
  assert (K : kept_before_ignoreall t t5).
  { eapply kept_trans; [exact K1|]. eapply kept_trans; [exact C1|].
    eapply kept_trans; [exact C2|]. eapply kept_trans; [exact K4|]. exact K5. }
  destruct K as (_ & _ & _ & _ & K).
  unfold nonzero at 1. rewrite (K unsmoothinput), Hun by discriminate.
  cbn [Z.eqb negb].
  unfold nonzero at 1. rewrite (K smoothinput), Hsm by discriminate.
  cbn [Z.eqb negb].
  match goal with
  | |- context [if nonzero (mem t5 ignoredeltas) then ?a else t5] =>
      set (t8 := if nonzero (mem t5 ignoredeltas) then a else t5)
  end.
  assert (K8 : kept_before_ignoreall t5 t8).
  { subst t8. destruct (nonzero (mem t5 ignoredeltas)); [|apply kept_refl].
    set (ta := set_mem (assign_member (mem t5) lastx xraw) t5).
    set (tb := set_mem (assign_member (mem ta) lasty yraw) ta).
    set (tc := set_mem (assign_member (mem tb) ignoredeltas
                          (mem tb ignoredeltas - 1)) tb).
    assert (Kc : kept_before_ignoreall t5 tc).
    { apply kept_trans with ta; [apply kept_set_mem; auto|].
      apply kept_trans with tb; apply kept_set_mem; auto. }
    destruct (mem tc ignoredeltas =? 0); [|exact Kc].
    eapply kept_trans; [exact Kc | apply kept_reset_filters]. }
  destruct K8 as (_ & _ & _ & _ & K8).
  split; [reflexivity|]. split; [reflexivity|].
  rewrite !K8, !K by discriminate. reflexivity.
Qed.

(** X23.  When the option to ignore touches outside the zone while typing
    is on ([outzone_wt] non-zero), the input filters are off and both axes
    have the same resolution, a touch above the finger threshold that lies
    outside the typing zone and arrives less than [maxaftertyping] after the
    last key press is dropped before any gesture processing: the profile is
    unchanged, the touchpad members other than [lastbuttons], [lastx],
    [lasty] and [ignoredeltas], the touch mode and the histories are
    unchanged, and only the middle-button simulation can have dispatched
    events. *)
Theorem touch_after_typing_dropped (d : driver)
    (xraw yraw z fingers' buttonsraw now_abs now_ns : Z) :
  let t := touchpad_of d in
  mem t xupmm = mem t yupmm ->
  mem t unsmoothinput = 0 -> mem t smoothinput = 0 ->
  mem t outzone_wt <> 0 ->
  mem t z_finger < z ->
  u64_sub now_ns (mem t keytime) < mem t maxaftertyping ->
  xraw < mem t zonel \/ mem t zoner < xraw
  \/ yraw < mem t zoneb \/ mem t zonet < yraw ->
  let r := dispatchEventsWithInfo gestureTail d xraw yraw z fingers'
             buttonsraw now_abs now_ns in
  modelData_of (fst r) = modelData_of d
  /\ kept_before_ignoreall t (touchpad_of (fst r))
  /\ Forall (from_middleButton now_abs) (snd r).
Proof.
  intros t Hup Hun Hsm Hwt Hz Hk Hzone r. subst r.
  unfold dispatchEventsWithInfo.
  pose proof (beforeIgnoreAll_keeps t xraw yraw z fingers' buttonsraw
                now_abs now_ns) as K.
  pose proof (beforeIgnoreAll_unfiltered t xraw yraw z fingers' buttonsraw
                now_abs now_ns Hup Hun Hsm) as U.
  fold t.
  destruct (beforeIgnoreAll _ _ _ _ _ _ _ _)
    as [[[t' [[[[x y] xr] yr] b]] ev] at_].
  destruct K as (K1 & K2 & _). destruct U as (_ & _ & ->).
  assert (nonzero (mem t outzone_wt) && (mem t z_finger <? z)
          && (u64_sub now_ns (mem t keytime) <? mem t maxaftertyping)
          && ((xraw <? mem t zonel) || (mem t zoner <? xraw)
              || (yraw <? mem t zoneb) || (mem t zonet <? yraw)) = true) as ->.
  { unfold nonzero.
    repeat (apply andb_true_iff; split).
    - apply negb_true_iff, Z.eqb_neq. exact Hwt.
    - apply Z.ltb_lt. exact Hz.
    - apply Z.ltb_lt. exact Hk.
    - rewrite !orb_true_iff, !Z.ltb_lt. tauto. }
  cbn [fst snd modelData_of touchpad_of].
  split; [reflexivity|]. split; assumption.
Qed.

End TypingProofs.

Lemma touch_after_typing_dropped_witness :
  let t := touchpad_of typing_driver in
  let r := @dispatchEventsWithInfo plain_base no_tail typing_driver
             50 400 40 1 0 7 1200 in
  (mem t outzone_wt <> 0 /\ mem t z_finger < 40
   /\ u64_sub 1200 (mem t keytime) < mem t maxaftertyping
   /\ 50 < mem t zonel)
  /\ modelData_of (fst r) = modelData_of typing_driver
  /\ kept_before_ignoreall t (touchpad_of (fst r))
  /\ Forall (@from_middleButton plain_base 7) (snd r).
Proof.
  cbv zeta.
  assert (Hwt : mem (touchpad_of typing_driver) outzone_wt <> 0)
    by (cbn; discriminate).
  assert (Hz : mem (touchpad_of typing_driver) z_finger < 40) by (cbn; lia).
  assert (Hk : u64_sub 1200 (mem (touchpad_of typing_driver) keytime)
               < mem (touchpad_of typing_driver) maxaftertyping)
    by (vm_compute; reflexivity).
  assert (Hl : 50 < mem (touchpad_of typing_driver) zonel) by (cbn; lia).
  split; [split; [exact Hwt | split; [exact Hz | split; [exact Hk | exact Hl]]]|].
  exact (@touch_after_typing_dropped plain_base no_tail typing_driver
           50 400 40 1 0 7 1200 eq_refl eq_refl eq_refl Hwt Hz Hk
           (or_introl Hl)).
Defined.

(* ------------------------------------------------------------------------- *)
(** * V1 and V2 packets *)

Section PacketsV1V2Proofs.
Context `{TouchPadBase}.
Variable gestureTail :
  driver -> bool -> Z -> Z -> Z -> Z -> Z -> Z -> Z -> Z -> Z ->
  driver * list Event.

Lemma packetV1V2_buttons md packet :
  let '(_, _, z, buttons, ges, fin) := packetV1V2_fields md packet in
  0 <= buttons <= 7
  /\ z = byte_at packet 5
  /\ ges = Z.land (byte_at packet 2) 1
  /\ fin = Z.land (byte_at packet 2) 2
  /\ (nonzero (Z.land (flags md) ALPS_FW_BK_2) = true ->
      Z.testbit buttons 2
      = nonzero (Z.land (byte_at packet 2) 4)
        && nonzero (Z.land (byte_at packet 3) 4)).
Proof.
  unfold packetV1V2_fields.
  destruct (alps_proto_eqb (proto_version md) ALPS_PROTO_V1);
    destruct (nonzero (Z.land (flags md) ALPS_FW_BK_1));
    destruct (nonzero (Z.land (flags md) ALPS_FW_BK_2));
    cbv zeta;
    repeat match goal with
           | |- context [nonzero ?v] =>
               lazymatch v with
               | context [flags] => fail
               | _ => destruct (nonzero v) eqn:?
               end
           end;
    cbn; repeat split; try lia; try discriminate; intros; try reflexivity.
Qed.

(** X10.  On a V1/V2 model with a trackstick, a packet with pressure byte
    127 is a trackstick packet: [processPacketV1V2] dispatches exactly one
    relative pointer event with a button mask between 0 and 7 and leaves the
    driver object, including [prev_fin] and the touch mode, as it was. *)
Theorem trackstick_packet_v1v2 (d : driver) (packet : list Z)
    (now_abs now_abs' now_ns' : Z) :
  nonzero (Z.land (flags (modelData_of d)) ALPS_DUALPOINT) = true ->
  byte_at packet 5 = 127 ->
  exists dx dy buttons,
    processPacketV1V2 gestureTail d packet now_abs now_abs' now_ns'
    = (d, [dispatchRelativePointerEventX dx dy buttons now_abs])
    /\ 0 <= buttons <= 7.
Proof.
  intros Hd Hz. unfold processPacketV1V2.
  pose proof (packetV1V2_buttons (modelData_of d) packet) as B.
  destruct (packetV1V2_fields (modelData_of d) packet)
    as [[[[[x y] z] buttons] ges] fin].
  destruct B as (Hb & -> & _). rewrite Hd, Hz. cbn [andb Z.eqb Pos.eqb].
  eexists. eexists. eexists. split; [reflexivity | exact Hb].
Qed.

Lemma fingers_of_pressure_cases z :
  fingers_of_pressure z
  = if z <=? 0 then 0 else if z <? 98 then 1 else 2.
Proof.
  unfold fingers_of_pressure.
  destruct (Z.ltb_spec 0 z), (Z.leb_spec z 0), (Z.leb_spec 98 z),
    (Z.ltb_spec z 98); try lia; reflexivity.
Qed.

(** X11.  Any other V1/V2 packet is passed to [dispatchEventsWithInfo] once:
    the pressure is the finger threshold plus one for a hardware tap
    (gesture bit set, finger bit clear) and byte 5 otherwise, the finger
    count is 0 for a pressure of 0, 1 below 98 and 2 from 98 on, the button
    mask is between 0 and 7 (with [ALPS_FW_BK_2] its middle bit is set only
    when the forward and the back bit are both set), [prev_fin] is the
    finger bit, and the touch mode becomes drag exactly when the gesture
    and finger bits are set and [prev_fin] was clear. *)
Theorem touchpad_packet_v1v2 (d : driver) (packet : list Z)
    (now_abs now_abs' now_ns' : Z) :
  nonzero (Z.land (flags (modelData_of d)) ALPS_DUALPOINT) = false
  \/ byte_at packet 5 <> 127 ->
  let ges := Z.land (byte_at packet 2) 1 in
  let fin := Z.land (byte_at packet 2) 2 in
  let z := if nonzero ges && negb (nonzero fin)
           then mem (touchpad_of d) z_finger + 1 else byte_at packet 5 in
  let drag := nonzero ges && nonzero fin
              && negb (nonzero (prev_fin (modelData_of d))) in
  exists x y buttons d1,
    processPacketV1V2 gestureTail d packet now_abs now_abs' now_ns'
    = (let '(d', ev) :=
         dispatchEventsWithInfo gestureTail d1 x y z
           (if z <=? 0 then 0 else if z <? 98 then 1 else 2)
           buttons now_abs' now_ns' in
       (d', ev ++ wheel_events (modelData_of d) packet now_abs))
    /\ 0 <= buttons <= 7
    /\ (nonzero (Z.land (flags (modelData_of d)) ALPS_FW_BK_2) = true ->
        Z.testbit buttons 2
        = nonzero (Z.land (byte_at packet 2) 4)
          && nonzero (Z.land (byte_at packet 3) 4))
    /\ prev_fin (modelData_of d1) = fin
    /\ touchmode (touchpad_of d1)
       = (if drag then MODE_DRAG else touchmode (touchpad_of d))
    /\ mem (touchpad_of d1) = mem (touchpad_of d).
Proof.
  intros Hk. cbv zeta. unfold processPacketV1V2.
  pose proof (packetV1V2_buttons (modelData_of d) packet) as B.
  destruct (packetV1V2_fields (modelData_of d) packet)
    as [[[[[x y] z] buttons] ges] fin].
  destruct B as (Hb & -> & -> & -> & Hm).
  assert (nonzero (Z.land (flags (modelData_of d)) ALPS_DUALPOINT)
          && (byte_at packet 5 =? 127) = false) as ->.
  { destruct Hk as [-> | Hne]; [reflexivity|].
    apply Z.eqb_neq in Hne. rewrite Hne. apply andb_false_r. }
  rewrite fingers_of_pressure_cases.
  eexists x, y, buttons, _. split.
  - unfold wheel_events. cbn [flags set_prev_fin]. reflexivity.
  - split; [exact Hb|]. split; [exact Hm|].
    cbn [modelData_of touchpad_of prev_fin set_prev_fin].
    split; [reflexivity|].
    destruct (_ && _ && _); cbn [touchmode set_touchmode mem];
      split; reflexivity.
Qed.

Lemma wheel_amount_range a b :
  -7 <= Z.land (Z.shiftl a 1) 0x08 - Z.land (Z.shiftr b 4) 0x07 <= 8.
Proof.
  pose proof (land_le_r (Z.shiftl a 1) 8 ltac:(lia)).
  pose proof (land_le_r (Z.shiftr b 4) 7 ltac:(lia)). lia.
Qed.

(** X12.  The wheel code at the end of [processPacketV1V2] dispatches
    nothing, or one scroll event whose amount is non-zero, lies between -7
    and 8, and equals 8 times bit 2 of byte 2 minus bits 4 to 6 of byte 0;
    it dispatches only on a model with [ALPS_WHEEL]. *)
Theorem wheel_event_range (modelData : alps_data) (packet : list Z)
    (now_abs : Z) :
  wheel_events modelData packet now_abs = []
  \/ exists amount,
       wheel_events modelData packet now_abs
       = [dispatchScrollWheelEventX amount 0 0 now_abs]
       /\ nonzero (Z.land (flags modelData) ALPS_WHEEL) = true
       /\ amount <> 0 /\ -7 <= amount <= 8
       /\ amount = (if Z.testbit (byte_at packet 2) 2 then 8 else 0)
                   - Z.land (Z.shiftr (byte_at packet 0) 4) 7.
Proof.
  unfold wheel_events.
  destruct (nonzero (Z.land (flags modelData) ALPS_WHEEL)); [|left; reflexivity].
  destruct (nonzero _) eqn:E; [|left; reflexivity].
  right. eexists. split; [reflexivity|]. split; [reflexivity|].
  split; [unfold nonzero in E; apply negb_true_iff, Z.eqb_neq in E; exact E|].
  split; [apply wheel_amount_range|].
  f_equal. exact (shiftl_land_bit (byte_at packet 2) 1 2 ltac:(lia) ltac:(lia)).
Qed.

End PacketsV1V2Proofs.

Lemma trackstick_packet_v1v2_witness :
  (nonzero (Z.land (flags (modelData_of v2_driver)) ALPS_DUALPOINT) = true
   /\ byte_at v2_trackstick_packet 5 = 127)
  /\ exists dx dy buttons,
       @processPacketV1V2 plain_base no_tail v2_driver v2_trackstick_packet
         7 8 9
       = (v2_driver, [dispatchRelativePointerEventX dx dy buttons 7])
       /\ 0 <= buttons <= 7.
Proof.
  split; [split; reflexivity|].
  exact (@trackstick_packet_v1v2 plain_base no_tail v2_driver
           v2_trackstick_packet 7 8 9 eq_refl eq_refl).
Defined.

Lemma touchpad_packet_v1v2_witness :
  let ges := Z.land (byte_at v2_touch_packet 2) 1 in
  let fin := Z.land (byte_at v2_touch_packet 2) 2 in
  let z := if nonzero ges && negb (nonzero fin)
           then mem (touchpad_of v2_driver) z_finger + 1
           else byte_at v2_touch_packet 5 in
  let drag := nonzero ges && nonzero fin
              && negb (nonzero (prev_fin (modelData_of v2_driver))) in
  byte_at v2_touch_packet 5 <> 127
  /\ exists x y buttons d1,
       @processPacketV1V2 plain_base no_tail v2_driver v2_touch_packet 7 8 9
       = (let '(d', ev) :=
            @dispatchEventsWithInfo plain_base no_tail d1 x y z
              (if z <=? 0 then 0 else if z <? 98 then 1 else 2)
              buttons 8 9 in
          (d', ev ++ wheel_events (modelData_of v2_driver) v2_touch_packet 7))
       /\ 0 <= buttons <= 7
       /\ (nonzero (Z.land (flags (modelData_of v2_driver)) ALPS_FW_BK_2) = true ->
           Z.testbit buttons 2
           = nonzero (Z.land (byte_at v2_touch_packet 2) 4)
             && nonzero (Z.land (byte_at v2_touch_packet 3) 4))
       /\ prev_fin (modelData_of d1) = fin
       /\ touchmode (touchpad_of d1)
          = (if drag then MODE_DRAG else touchmode (touchpad_of v2_driver))
       /\ mem (touchpad_of d1) = mem (touchpad_of v2_driver).
Proof.
  cbv zeta.
  assert (Hz : byte_at v2_touch_packet 5 <> 127) by (cbn; discriminate).
  split; [exact Hz|].
  exact (@touchpad_packet_v1v2 plain_base no_tail v2_driver v2_touch_packet
           7 8 9 (or_intror Hz)).
Defined.

(* ------------------------------------------------------------------------- *)
(** * Hardware initialisation *)

Section HwInitProofs.
Context `{PS2Port} `{PS2CommandBytes}.

Import HwInit.

Lemma defined_ret {A} (a : A) : defined (ret a).
Proof. intros dev. discriminate. Qed.

Lemma defined_bind {A B} (m : io A) (k : A -> io B) :
  defined m -> (forall a, defined (k a)) -> defined (bind m k).
Proof.
  intros Hm Hk dev. unfold bind. specialize (Hm dev).
  destruct (m dev) as [[a dev']|]; [apply Hk | congruence].
Qed.

Lemma defined_submit request : defined (submit request).
Proof.
  intros dev. unfold submit.
  destruct (submitRequestAndBlock dev request) as [[? ?] ?]. discriminate.
Qed.

Lemma defined_submit_all request : defined (submit_all request).
Proof.
  apply defined_bind; [apply defined_submit | intros; apply defined_ret].
Qed.

Lemma defined_repeatCmd a b c : defined (repeatCmd_io a b c).
Proof.
  intros dev. unfold repeatCmd_io.
  destruct (repeatCmd a b c dev) as [[? ?] ?]. discriminate.
Qed.

Lemma defined_exitCommandMode : defined exitCommandMode_io.
Proof. intros dev. discriminate. Qed.

Lemma defined_if {A} (c : bool) (m1 m2 : io A) :
  defined m1 -> defined m2 -> defined (if c then m1 else m2).
Proof. destruct c; auto. Qed.

Lemma nibble_entry_in_range table nibble :
  table <> no_nibble_commands -> 0 <= nibble <= 15 ->
  exists entry, nibble_entry table nibble = Some entry.
Proof.
  intros Ht Hn. unfold nibble_entry.
  destruct (Z.ltb_spec nibble 0); [lia|].
  assert (Hlt : (Z.to_nat nibble < 16)%nat) by lia.
  destruct table; [congruence | |];
    match goal with
    | |- exists e, nth_error ?l ?n = Some e =>
        destruct (nth_error l n) as [e|] eqn:E;
          [exists e; reflexivity
          | apply nth_error_None in E;
            unfold v3_nibble_commands, v4_nibble_commands in E;
            cbn [length] in E; lia]
    end.
Qed.

Lemma defined_commandModeSendNibble m nibble :
  nibble_commands m <> no_nibble_commands -> 0 <= nibble <= 15 ->
  defined (commandModeSendNibble m nibble).
Proof.
  intros Ht Hn. unfold commandModeSendNibble.
  destruct (nibble_entry_in_range _ _ Ht Hn) as [e ->].
  cbv zeta. apply defined_if; [apply defined_ret | apply defined_submit_all].
Qed.

Lemma nibble_of_range v : 0 <= Z.land v 0xf <= 15.
Proof. apply land_le_r. lia. Qed.

Lemma defined_send_addr_nibbles m addr shifts :
  nibble_commands m <> no_nibble_commands ->
  defined (send_addr_nibbles m addr shifts).
Proof.
  intros Ht. induction shifts as [|i rest IH]; cbn [send_addr_nibbles].
  - apply defined_ret.
  - apply defined_bind.
    + apply defined_commandModeSendNibble; [exact Ht | apply nibble_of_range].
    + intros ok. apply defined_if; [apply defined_ret | exact IH].
Qed.

Lemma defined_commandModeSetAddr m addr :
  nibble_commands m <> no_nibble_commands ->
  defined (commandModeSetAddr m addr).
Proof.
  intros Ht. unfold commandModeSetAddr. apply defined_bind.
  - apply defined_submit.
  - intros r. apply defined_if;
      [apply defined_ret | apply defined_send_addr_nibbles; exact Ht].
Qed.

Lemma defined_commandModeReadReg m addr :
  nibble_commands m <> no_nibble_commands ->
  defined (commandModeReadReg m addr).
Proof.
  intros Ht. unfold commandModeReadReg. apply defined_bind.
  - apply defined_commandModeSetAddr; exact Ht.
  - intros ok. apply defined_if; [apply defined_ret|].
    apply defined_bind; [apply defined_submit|].
    intros r. cbv zeta. repeat apply defined_if; apply defined_ret.
Qed.

Lemma defined_commandModeWriteReg m value :
  nibble_commands m <> no_nibble_commands ->
  defined (commandModeWriteReg m value).
Proof.
  intros Ht. unfold commandModeWriteReg. cbv zeta. apply defined_bind.
  - apply defined_commandModeSendNibble; [exact Ht | apply nibble_of_range].
  - intros ok. apply defined_if; [apply defined_ret|].
    apply defined_bind.
    + apply defined_commandModeSendNibble; [exact Ht | apply nibble_of_range].
    + intros ok'. apply defined_if; apply defined_ret.
Qed.

Lemma defined_commandModeWriteRegAt m addr value :
  nibble_commands m <> no_nibble_commands ->
  defined (commandModeWriteRegAt m addr value).
Proof.
  intros Ht. unfold commandModeWriteRegAt. apply defined_bind.
  - apply defined_commandModeSetAddr; exact Ht.
  - intros ok. apply defined_if;
      [apply defined_ret | apply defined_commandModeWriteReg; exact Ht].
Qed.

Lemma defined_enterCommandMode : defined enterCommandMode.
Proof.
  unfold enterCommandMode. apply defined_bind; [apply defined_repeatCmd|].
  intros r. cbv zeta. apply defined_if; apply defined_ret.
Qed.

Ltac defined_step Ht :=
  first
    [ apply defined_ret
    | apply defined_submit
    | apply defined_submit_all
    | apply defined_repeatCmd
    | apply defined_exitCommandMode
    | apply defined_enterCommandMode
    | apply defined_commandModeReadReg; exact Ht
    | apply defined_commandModeWriteReg; exact Ht
    | apply defined_commandModeWriteRegAt; exact Ht
    | apply defined_commandModeSetAddr; exact Ht
    | apply defined_commandModeSendNibble; [exact Ht | lia]
    | assumption
    | apply defined_bind; [|intros ?]
    | apply defined_if ].

Ltac defined_auto Ht := cbv zeta; repeat defined_step Ht.

Lemma defined_passthroughModeV3 m regBase enable :
  nibble_commands m <> no_nibble_commands ->
  defined (passthroughModeV3 m regBase enable).
Proof. intros Ht. unfold passthroughModeV3. defined_auto Ht. Qed.

Lemma defined_probeTrackstickV3 m regBase :
  nibble_commands m <> no_nibble_commands ->
  defined (probeTrackstickV3 m regBase).
Proof. intros Ht. unfold probeTrackstickV3. defined_auto Ht. Qed.

Lemma defined_setupTrackstickV3 m regBase :
  nibble_commands m <> no_nibble_commands ->
  defined (setupTrackstickV3 m regBase).
Proof.
  intros Ht. unfold setupTrackstickV3.
  pose proof (defined_passthroughModeV3 m regBase true Ht).
  pose proof (defined_passthroughModeV3 m regBase false Ht).
  defined_auto Ht.
Qed.

Lemma defined_hwInitV3 m :
  nibble_commands m <> no_nibble_commands -> defined (hwInitV3 m).
Proof.
  intros Ht. unfold hwInitV3, fail_in_command_mode, absoluteModeV3,
    setSampleRateAndResolution.
  pose proof (defined_probeTrackstickV3 m ALPS_REG_BASE_PINNACLE Ht).
  pose proof (defined_setupTrackstickV3 m ALPS_REG_BASE_PINNACLE Ht).
  defined_auto Ht.
Qed.

Lemma defined_hwInitRushmoreV3 m :
  nibble_commands m <> no_nibble_commands -> defined (hwInitRushmoreV3 m).
Proof.
  intros Ht. unfold hwInitRushmoreV3.
  pose proof (defined_setupTrackstickV3 m ALPS_REG_BASE_RUSHMORE Ht).
  assert (Ht' : forall fl, nibble_commands (set_flags fl m) <> no_nibble_commands)
    by (intros; exact Ht).
  cbv zeta.
  repeat first
    [ apply defined_commandModeReadReg; apply Ht'
    | apply defined_commandModeWriteReg; apply Ht'
    | apply defined_commandModeWriteRegAt; apply Ht'
    | defined_step Ht ].
Qed.

Lemma defined_write_registers m writes :
  nibble_commands m <> no_nibble_commands -> defined (write_registers m writes).
Proof.
  intros Ht. induction writes as [|[a v] rest IH]; cbn [write_registers];
    defined_auto Ht.
Qed.

Lemma defined_hwInitV4 m :
  nibble_commands m <> no_nibble_commands -> defined (hwInitV4 m).
Proof.
  intros Ht. unfold hwInitV4, fail_in_command_mode, absoluteModeV4,
    setSampleRateAndResolution.
  pose proof (defined_write_registers m
                [(0x0007, 0x8c); (0x0149, 0x03); (0x0160, 0x03); (0x017f, 0x15);
                 (0x0151, 0x01); (0x0168, 0x03); (0x014a, 0x03); (0x0161, 0x03)]
                Ht).
  defined_auto Ht.
Qed.

Lemma defined_hwInitV1V2 m : defined (hwInitV1V2 m).
Proof.
  unfold hwInitV1V2, passthroughModeV2, tapMode, getStatus, absoluteModeV1V2,
    v1v2MagicEnable.
  assert (Ht : True) by exact I. defined_auto Ht.
Qed.

Lemma defined_hwInitDolphinV1 : defined hwInitDolphinV1.
Proof.
  unfold hwInitDolphinV1. assert (Ht : True) by exact I. defined_auto Ht.
Qed.

End HwInitProofs.

Section HwInitTheorems.
Context `{PS2Port} `{PS2CommandBytes}.

Import HwInit.

Lemma byte_plain_command c :
  is_byte c ->
  Z.land c 0xff = c
  /\ Z.land (Z.shiftr c 12) 0xf = 0 /\ Z.land (Z.shiftr c 8) 0xf = 0.
Proof.
  intros Hc.
  pose proof (byte_cases
                (fun c => (Z.land c 0xff =? c)
                          && (Z.land (Z.shiftr c 12) 0xf =? 0)
                          && (Z.land (Z.shiftr c 8) 0xf =? 0))
                ltac:(vm_compute; reflexivity) c Hc) as E.
  cbv beta in E. apply andb_true_iff in E as [E E3].
  apply andb_true_iff in E as [E1 E2].
  apply Z.eqb_eq in E1, E2, E3. auto.
Qed.

Lemma byte_send_command c :
  is_byte c ->
  Z.land (Z.lor c 0x1000) 0xff = c
  /\ Z.land (Z.shiftr (Z.lor c 0x1000) 12) 0xf = 1
  /\ Z.land (Z.shiftr (Z.lor c 0x1000) 8) 0xf = 0.
Proof.
  intros Hc.
  pose proof (byte_cases
                (fun c => (Z.land (Z.lor c 0x1000) 0xff =? c)
                          && (Z.land (Z.shiftr (Z.lor c 0x1000) 12) 0xf =? 1)
                          && (Z.land (Z.shiftr (Z.lor c 0x1000) 8) 0xf =? 0))
                ltac:(vm_compute; reflexivity) c Hc) as E.
  cbv beta in E. apply andb_true_iff in E as [E E3].
  apply andb_true_iff in E as [E1 E2].
  apply Z.eqb_eq in E1, E2, E3. auto.
Qed.

Lemma byte_receive_command c :
  is_byte c ->
  Z.land (Z.lor c 0x0100) 0xff = c
  /\ Z.land (Z.shiftr (Z.lor c 0x0100) 12) 0xf = 0
  /\ Z.land (Z.shiftr (Z.lor c 0x0100) 8) 0xf = 1.
Proof.
  intros Hc.
  pose proof (byte_cases
                (fun c => (Z.land (Z.lor c 0x0100) 0xff =? c)
                          && (Z.land (Z.shiftr (Z.lor c 0x0100) 12) 0xf =? 0)
                          && (Z.land (Z.shiftr (Z.lor c 0x0100) 8) 0xf =? 1))
                ltac:(vm_compute; reflexivity) c Hc) as E.
  cbv beta in E. apply andb_true_iff in E as [E E3].
  apply andb_true_iff in E as [E1 E2].
  apply Z.eqb_eq in E1, E2, E3. auto.
Qed.

Lemma send_plain m nibble c d :
  is_byte c ->
  nibble_entry (nibble_commands m) nibble = Some (mk_nibble c d) ->
  commandModeSendNibble m nibble = submit_all [send c].
Proof.
  intros Hc E. unfold commandModeSendNibble. rewrite E.
  cbn [nibble_command nibble_data].
  destruct (byte_plain_command c Hc) as (-> & -> & ->). reflexivity.
Qed.

Lemma send_with_data m nibble c d :
  is_byte c ->
  nibble_entry (nibble_commands m) nibble
  = Some (mk_nibble (Z.lor c 0x1000) d) ->
  commandModeSendNibble m nibble = submit_all [send c; send d].
Proof.
  intros Hc E. unfold commandModeSendNibble. rewrite E.
  cbn [nibble_command nibble_data].
  destruct (byte_send_command c Hc) as (-> & -> & ->). reflexivity.
Qed.

Lemma send_with_read m nibble c d :
  is_byte c ->
  nibble_entry (nibble_commands m) nibble
  = Some (mk_nibble (Z.lor c 0x0100) d) ->
  commandModeSendNibble m nibble = submit_all [send c; read_port].
Proof.
  intros Hc E. unfold commandModeSendNibble. rewrite E.
  cbn [nibble_command nibble_data].
  destruct (byte_receive_command c Hc) as (-> & -> & ->). reflexivity.
Qed.

(** X16.  With a nibble table installed and a nibble between 0 and 15,
    [commandModeSendNibble] reads an entry inside the table and submits one
    request of at most two commands, which the command word of the entry
    determines: its low byte is the command byte sent first; when its send
    count (bits 12 to 15) is 1 the data byte of the entry follows, when its
    receive count (bits 8 to 11) is 1 one read of the data port follows,
    and otherwise nothing follows; no entry has another combination of
    counts.  (The command bytes of the PS/2 header are assumed to be
    bytes.) *)
Theorem commandModeSendNibble_request (modelData : alps_data) (nibble : Z) :
  nibble_commands_are_bytes ->
  nibble_commands modelData <> no_nibble_commands ->
  0 <= nibble <= 15 ->
  exists entry,
    nibble_entry (nibble_commands modelData) nibble = Some entry
    /\ let c := Z.land (nibble_command entry) 0xff in
       let send_count := Z.land (Z.shiftr (nibble_command entry) 12) 0xf in
       let receive := Z.land (Z.shiftr (nibble_command entry) 8) 0xf in
       is_byte c
       /\ ((send_count = 0 /\ receive = 0
            /\ commandModeSendNibble modelData nibble = submit_all [send c])
           \/ (send_count = 1 /\ receive = 0
               /\ commandModeSendNibble modelData nibble
                  = submit_all [send c; send (nibble_data entry)])
           \/ (send_count = 0 /\ receive = 1
               /\ commandModeSendNibble modelData nibble
                  = submit_all [send c; read_port])).
Proof.
  intros (B1 & B2 & B3 & B4 & B5 & B6 & B7 & B8) Ht Hn.
  assert (Hcases : nibble = 0 \/ nibble = 1 \/ nibble = 2 \/ nibble = 3
                   \/ nibble = 4 \/ nibble = 5 \/ nibble = 6 \/ nibble = 7
                   \/ nibble = 8 \/ nibble = 9 \/ nibble = 10 \/ nibble = 11
                   \/ nibble = 12 \/ nibble = 13 \/ nibble = 14 \/ nibble = 15)
    by lia.
  destruct (nibble_commands modelData) eqn:T; [congruence | |];
    repeat (destruct Hcases as [-> | Hcases]; [|]); try subst nibble;
    match goal with
    | |- exists entry, nibble_entry ?t ?n = Some entry /\ _ =>
        let e := eval cbv [nibble_entry Z.ltb Z.compare Z.to_nat Pos.to_nat
                           Pos.iter_op Nat.add nth_error v3_nibble_commands
                           v4_nibble_commands] in (nibble_entry t n) in
        match e with
        | Some (mk_nibble (Z.lor ?c 0x1000) ?d) =>
            exists (mk_nibble (Z.lor c 0x1000) d);
            split; [reflexivity|]; cbv zeta; cbn [nibble_command nibble_data];
            assert (Hc : is_byte c) by assumption;
            destruct (byte_send_command c Hc) as (E1 & E2 & E3);
            rewrite E1, E2, E3; split; [exact Hc|];
            right; left; split; [reflexivity|]; split; [reflexivity|];
            apply (send_with_data _ _ c d); [exact Hc|];
            rewrite T; reflexivity
        | Some (mk_nibble (Z.lor ?c 0x0100) ?d) =>
            exists (mk_nibble (Z.lor c 0x0100) d);
            split; [reflexivity|]; cbv zeta; cbn [nibble_command nibble_data];
            assert (Hc : is_byte c) by assumption;
            destruct (byte_receive_command c Hc) as (E1 & E2 & E3);
            rewrite E1, E2, E3; split; [exact Hc|];
            right; right; split; [reflexivity|]; split; [reflexivity|];
            apply (send_with_read _ _ c d); [exact Hc|];
            rewrite T; reflexivity
        | Some (mk_nibble ?c ?d) =>
            exists (mk_nibble c d);
            split; [reflexivity|]; cbv zeta; cbn [nibble_command nibble_data];
            assert (Hc : is_byte c) by assumption;
            destruct (byte_plain_command c Hc) as (E1 & E2 & E3);
            rewrite E1, E2, E3; split; [exact Hc|];
            left; split; [reflexivity|]; split; [reflexivity|];
            apply (send_plain _ _ c d); [exact Hc|];
            rewrite T; reflexivity
        end
    end.
Qed.

Lemma nth_byte (l : list PS2Command) i :
  Forall (fun c => is_byte (inOrOut c)) l ->
  is_byte (inOrOut (nth i l read_port)).
Proof.
  intros F. destruct (Nat.lt_ge_cases i (length l)) as [Hl | Hl].
  - rewrite Forall_forall in F. apply F. apply nth_In. exact Hl.
  - rewrite nth_overflow by exact Hl. cbn. unfold is_byte. lia.
Qed.

(** X17.  When the device completes the status request with bytes,
    [commandModeReadReg] returns -1 or a value between 0 and 255, and it can
    return a value other than -1 only for an address between 0 and
    0xffff. *)
Theorem commandModeReadReg_result (modelData : alps_data) (addr : Z)
    (dev dev' : Device) (r : Z) :
  status_reads_are_bytes ->
  commandModeReadReg modelData addr dev = Some (r, dev') ->
  r = -1 \/ (0 <= r <= 255 /\ 0 <= addr <= 0xffff).
Proof.
  intros Hp. unfold commandModeReadReg, bind.
  destruct (commandModeSetAddr modelData addr dev) as [[ok dev1]|];
    [|discriminate].
  destruct ok; cbn [negb]; [|intros E; inversion E; left; reflexivity].
  unfold submit. specialize (Hp dev1). unfold status_request in Hp.
  destruct (submitRequestAndBlock dev1 _) as [[dev2 cmds] n].
  cbn [fst snd] in *.
  destruct (n =? 4); cbn [negb]; [|intros E; inversion E; left; reflexivity].
  cbn [bytes0 bytes1 bytes2 fst snd].
  pose proof (nth_byte cmds 1 Hp) as H1.
  pose proof (nth_byte cmds 2 Hp) as H2.
  pose proof (nth_byte cmds 3 Hp) as H3.
  destruct (Z.eqb_spec addr
              (Z.lor (Z.shiftl (inOrOut (nth 1 cmds read_port)) 8)
                     (inOrOut (nth 2 cmds read_port)))) as [E | E];
    cbn [negb]; intros R; inversion R; subst; [|left; reflexivity].
  right. split; [exact H3|].
  pose proof (bounded_lor _ _ _ _
                (bounded_shiftl _ 255 8 H1 ltac:(lia)) H2) as B.
  unfold bounded in B. change (255 * 2 ^ 8 + 255) with 65535 in B. exact B.
Qed.

End HwInitTheorems.

Lemma commandModeSendNibble_request_witness :
  (@nibble_commands_are_bytes v4_port standard_bytes
   /\ nibble_commands pinnacle_data <> no_nibble_commands /\ 0 <= 3 <= 15)
  /\ exists entry,
       @HwInit.nibble_entry v4_port standard_bytes
         (nibble_commands pinnacle_data) 3 = Some entry
       /\ let c := Z.land (nibble_command entry) 0xff in
          let send_count := Z.land (Z.shiftr (nibble_command entry) 12) 0xf in
          let receive := Z.land (Z.shiftr (nibble_command entry) 8) 0xf in
          is_byte c
          /\ ((send_count = 0 /\ receive = 0
               /\ @HwInit.commandModeSendNibble v4_port standard_bytes
                    pinnacle_data 3
                  = @HwInit.submit_all v4_port [send c])
              \/ (send_count = 1 /\ receive = 0
                  /\ @HwInit.commandModeSendNibble v4_port standard_bytes
                       pinnacle_data 3
                     = @HwInit.submit_all v4_port
                         [send c; send (nibble_data entry)])
              \/ (send_count = 0 /\ receive = 1
                  /\ @HwInit.commandModeSendNibble v4_port standard_bytes
                       pinnacle_data 3
                     = @HwInit.submit_all v4_port [send c; read_port])).
Proof.
  assert (Hb : @nibble_commands_are_bytes v4_port standard_bytes)
    by (unfold nibble_commands_are_bytes, is_byte; cbn; lia).
  assert (Ht : nibble_commands pinnacle_data <> no_nibble_commands)
    by (cbn; discriminate).
  assert (Hn : 0 <= 3 <= 15) by lia.
  split; [split; [exact Hb | split; [exact Ht | exact Hn]]|].
  exact (@commandModeSendNibble_request v4_port standard_bytes pinnacle_data 3
           Hb Ht Hn).
Defined.

Lemma commandModeReadReg_result_witness :
  (@status_reads_are_bytes v4_port
   /\ @HwInit.commandModeReadReg v4_port standard_bytes pinnacle_data 0 0%nat
      = Some (0, 6%nat))
  /\ (0 = -1 \/ (0 <= 0 <= 255 /\ 0 <= 0 <= 0xffff)).
Proof.
  assert (Hp : @status_reads_are_bytes v4_port).
  { intros dev. cbn. repeat constructor; cbn; lia. }
  assert (Hr : @HwInit.commandModeReadReg v4_port standard_bytes pinnacle_data
                 0 0%nat = Some (0, 6%nat)) by (vm_compute; reflexivity).
  split; [split; [exact Hp | exact Hr]|].
  exact (@commandModeReadReg_result v4_port standard_bytes pinnacle_data 0
           0%nat 6%nat 0 Hp Hr).
Defined.

Section IdentifiedInit.
Context `{PS2Port} `{PS2CommandBytes}.

(** X18.  The hardware initialisation routine that a successful [identify]
    selects never indexes a null or too short nibble table: run on the
    identified profile (with any packet size), it has defined behaviour
    whatever the device answers. *)
Theorem selected_hw_init_is_defined (s : profile) (dev : Device) :
  fst (fst (identify s dev)) = kIOReturnSuccess ->
  exists h,
    hw_init (snd (fst (identify s dev))) = Some h
    /\ forall size,
         defined (call_hw_init h
                    (set_pktsize size (modelData (snd (fst (identify s dev)))))).
Proof.
  destruct (identify s dev) as [[r s'] dev'] eqn:E. cbn [fst snd].
  intros ->.
  assert (D : forall A (m : HwInit.io A) (fl : Z),
             defined m ->
             defined (HwInit.bind m (fun ok => HwInit.ret (ok, fl)))).
  { intros A m fl Hm. apply defined_bind; [exact Hm|].
    intros a. apply defined_ret. }
  destruct (identify_cases _ _ _ _ _ E) as [[N _] | [_ C]]; [congruence|].
  destruct C as [(e7 & ec & M) | [-> | [-> | (fl & ->)]]].
  - destruct (matchTable_from_handlers _ _ _ _ _ M table_protocols)
      as (model & _ & _ & _ & _ & _ & _ & _ & _ & [[A B] | (A & B & T)]);
      rewrite A; eexists; (split; [reflexivity|]); intros size;
      cbn [call_hw_init]; apply D.
    + apply defined_hwInitV1V2.
    + apply defined_hwInitV4. cbn [nibble_commands set_pktsize]. rewrite T.
      discriminate.
  - eexists. split; [reflexivity|]. intros size. cbn [call_hw_init]. apply D.
    apply defined_hwInitDolphinV1.
  - eexists. split; [reflexivity|]. intros size. cbn [call_hw_init]. apply D.
    apply defined_hwInitV3. cbn. discriminate.
  - eexists. split; [reflexivity|]. intros size. cbn [call_hw_init].
    apply defined_hwInitRushmoreV3. cbn. discriminate.
Qed.

End IdentifiedInit.

Section Recorded.
Variable P : PS2Port.
Context `{PS2CommandBytes}.

Lemma appends_ret {A} (a : A) : appends (@HwInit.ret (recording P) A a).
Proof.
  intros d r d' E. inversion E; subst. exists []. rewrite app_nil_r. reflexivity.
Qed.

Lemma appends_bind {A B} (m : @HwInit.io (recording P) A) (k : A -> @HwInit.io (recording P) B) :
  appends m -> (forall a, appends (k a)) -> appends (HwInit.bind m k).
Proof.
  intros Hm Hk d r d' E. unfold HwInit.bind in E.
  destruct (m d) as [[a d1]|] eqn:E1; [|discriminate].
  destruct (Hm _ _ _ E1) as [t1 T1]. destruct (Hk a _ _ _ E) as [t2 T2].
  exists (t1 ++ t2). rewrite T2, T1, app_assoc. reflexivity.
Qed.

Lemma appends_if {A} (c : bool) (m1 m2 : @HwInit.io (recording P) A) :
  appends m1 -> appends m2 -> appends (if c then m1 else m2).
Proof. destruct c; auto. Qed.

Lemma submit_recorded request d r d' :
  @HwInit.submit (recording P) request d = Some (r, d') -> snd d' = snd d ++ [request].
Proof.
  unfold HwInit.submit. cbn [submitRequestAndBlock recording].
  destruct (@submitRequestAndBlock P (fst d) request) as [[dev' c] n].
  intros E. inversion E; subst. reflexivity.
Qed.

Lemma appends_submit request : appends (@HwInit.submit (recording P) request).
Proof. intros d r d' E. exists [request]. eapply submit_recorded; eauto. Qed.

Lemma appends_submit_all request : appends (@HwInit.submit_all (recording P) request).
Proof.
  apply appends_bind; [apply appends_submit | intros; apply appends_ret].
Qed.

Lemma submit_all_recorded request d r d' :
  @HwInit.submit_all (recording P) request d = Some (r, d') -> snd d' = snd d ++ [request].
Proof.
  unfold HwInit.submit_all, HwInit.bind.
  destruct (@HwInit.submit (recording P) request d) as [[a d1]|] eqn:E; [|discriminate].
  apply submit_recorded in E. intros E'. inversion E'; subst. exact E.
Qed.

Lemma exit_recorded d r d' :
  @HwInit.exitCommandMode_io (recording P) d = Some (r, d') ->
  snd d' = snd d ++ [@exit_request P].
Proof.
  unfold HwInit.exitCommandMode_io, exitCommandMode.
  cbn [submitRequestAndBlock recording kDP_SetMouseStreamMode].
  destruct (@submitRequestAndBlock P (fst d) _) as [[dev' c] n].
  intros E. inversion E; subst. reflexivity.
Qed.

Lemma appends_exitCommandMode : appends (@HwInit.exitCommandMode_io (recording P)).
Proof. intros d r d' E. eexists. eapply exit_recorded; eauto. Qed.

Lemma appends_repeatCmd a b c : appends (@HwInit.repeatCmd_io (recording P) a b c).
Proof.
  intros d r d'. unfold HwInit.repeatCmd_io, repeatCmd.
  cbn [submitRequestAndBlock recording].
  destruct (@submitRequestAndBlock P (fst d) _) as [[dev' cs] n].
  intros E. inversion E; subst. eexists. reflexivity.
Qed.

Lemma appends_commandModeSendNibble m nibble :
  appends (@HwInit.commandModeSendNibble (recording P) _ m nibble).
Proof.
  unfold HwInit.commandModeSendNibble.
  destruct (HwInit.nibble_entry _ _); [|intros d r d' E; discriminate].
  cbv zeta. apply appends_if; [apply appends_ret | apply appends_submit_all].
Qed.

Ltac appends_step :=
  first
    [ apply appends_ret
    | apply appends_submit
    | apply appends_submit_all
    | apply appends_repeatCmd
    | apply appends_exitCommandMode
    | apply appends_commandModeSendNibble
    | assumption
    | apply appends_bind; [|intros ?]
    | apply appends_if ].

Ltac appends_auto := cbv zeta; repeat appends_step.

Lemma appends_send_addr_nibbles m addr shifts :
  appends (@HwInit.send_addr_nibbles (recording P) _ m addr shifts).
Proof.
  induction shifts as [|i rest IH]; cbn [HwInit.send_addr_nibbles];
    appends_auto.
Qed.

Lemma appends_commandModeSetAddr m addr :
  appends (@HwInit.commandModeSetAddr (recording P) _ m addr).
Proof.
  unfold HwInit.commandModeSetAddr.
  pose proof (appends_send_addr_nibbles m addr [12; 8; 4; 0]). appends_auto.
Qed.

Lemma appends_commandModeReadReg m addr :
  appends (@HwInit.commandModeReadReg (recording P) _ m addr).
Proof.
  unfold HwInit.commandModeReadReg.
  pose proof (appends_commandModeSetAddr m addr). appends_auto.
Qed.

Lemma appends_commandModeWriteReg m value :
  appends (@HwInit.commandModeWriteReg (recording P) _ m value).
Proof. unfold HwInit.commandModeWriteReg. appends_auto. Qed.

Lemma appends_commandModeWriteRegAt m addr value :
  appends (@HwInit.commandModeWriteRegAt (recording P) _ m addr value).
Proof.
  unfold HwInit.commandModeWriteRegAt.
  pose proof (appends_commandModeSetAddr m addr).
  pose proof (appends_commandModeWriteReg m value). appends_auto.
Qed.

Lemma appends_enterCommandMode : appends (@HwInit.enterCommandMode (recording P)).
Proof. unfold HwInit.enterCommandMode. appends_auto. Qed.

Lemma appends_passthroughModeV3 m regBase enable :
  appends (@HwInit.passthroughModeV3 (recording P) _ m regBase enable).
Proof.
  unfold HwInit.passthroughModeV3.
  pose proof appends_enterCommandMode.
  pose proof (appends_commandModeReadReg m (regBase + 8)).
  pose proof (fun v => appends_commandModeWriteReg m v).
  appends_auto; auto.
Qed.

Lemma appends_probeTrackstickV3 m regBase :
  appends (@HwInit.probeTrackstickV3 (recording P) _ m regBase).
Proof.
  unfold HwInit.probeTrackstickV3.
  pose proof appends_enterCommandMode.
  pose proof (appends_commandModeReadReg m (regBase + 8)).
  appends_auto.
Qed.

Lemma appends_setupTrackstickV3 m regBase :
  appends (@HwInit.setupTrackstickV3 (recording P) _ m regBase).
Proof.
  unfold HwInit.setupTrackstickV3.
  pose proof appends_enterCommandMode.
  pose proof (appends_passthroughModeV3 m regBase true).
  pose proof (appends_passthroughModeV3 m regBase false).
  pose proof (appends_commandModeWriteRegAt m (regBase + 8) 0x82).
  appends_auto.
Qed.

Lemma appends_write_registers m writes :
  appends (@HwInit.write_registers (recording P) _ m writes).
Proof.
  induction writes as [|[a v] rest IH]; cbn [HwInit.write_registers].
  - apply appends_ret.
  - pose proof (appends_commandModeWriteRegAt m a v). appends_auto.
Qed.

Lemma leaves_bind {A B} Q (m : @HwInit.io (recording P) A) (k : A -> @HwInit.io (recording P) B) :
  appends m -> (forall a, leaves_command_mode Q (k a)) ->
  leaves_command_mode Q (HwInit.bind m k).
Proof.
  intros Hm Hk d r d' E. unfold HwInit.bind in E.
  destruct (m d) as [[a d1]|] eqn:E1; [|discriminate].
  destruct (Hm _ _ _ E1) as [t1 T1].
  destruct (Hk a _ _ _ E) as (pre & post & T2 & HQ).
  exists (t1 ++ pre), post. split; [|exact HQ].
  rewrite T2, T1, <- !app_assoc. reflexivity.
Qed.

Lemma leaves_if {A} Q (c : bool) (m1 m2 : @HwInit.io (recording P) A) :
  leaves_command_mode Q m1 -> leaves_command_mode Q m2 ->
  leaves_command_mode Q (if c then m1 else m2).
Proof. destruct c; auto. Qed.

Lemma leaves_exit_then {A} (Q : A -> list (list PS2Command) -> Prop)
    (k : bool -> @HwInit.io (recording P) A) :
  (forall b d r d', k b d = Some (r, d') ->
     exists post, snd d' = snd d ++ post /\ Q r post) ->
  leaves_command_mode Q (HwInit.bind (@HwInit.exitCommandMode_io (recording P)) k).
Proof.
  intros Hk d r d' E. unfold HwInit.bind in E.
  destruct (@HwInit.exitCommandMode_io (recording P) d) as [[b d1]|] eqn:E1; [|discriminate].
  apply exit_recorded in E1.
  destruct (Hk b _ _ _ E) as (post & T & HQ).
  exists [], post. split; [|exact HQ].
  rewrite T, E1, <- app_assoc. reflexivity.
Qed.

Lemma leaves_fail (Q : bool -> list (list PS2Command) -> Prop) :
  Q false [] -> leaves_command_mode Q (@HwInit.fail_in_command_mode (recording P)).
Proof.
  intros HQ. unfold HwInit.fail_in_command_mode. apply leaves_exit_then.
  intros b d r d' E. inversion E; subst. exists []. rewrite app_nil_r. auto.
Qed.

Ltac leaves_step :=
  lazymatch goal with
  | |- leaves_command_mode _ HwInit.fail_in_command_mode =>
      apply leaves_fail; left; split; reflexivity
  | |- leaves_command_mode _ (HwInit.bind HwInit.exitCommandMode_io _) => fail
  | |- leaves_command_mode _ (HwInit.bind _ _) =>
      apply leaves_bind; [solve [appends_auto; auto] | intros ?]
  | |- leaves_command_mode _ (if _ then _ else _) => apply leaves_if
  end.

(** X19.  On every path through [hwInitV3], [hwInitV4] and
    [hwInitRushmoreV3] the request of [exitCommandMode] is submitted, and
    all register traffic precedes it.  What follows it is nothing (then the
    routine reports failure), or, for V3, the request that sets rate 0x28
    and resolution 0x02; for V4, the request that changes the packet format
    (alone only on failure) and then the one that sets rate 0x64 and
    resolution 0x02; for Rushmore, the request that enables data
    reporting. *)
Theorem hw_init_leaves_command_mode (modelData : alps_data) :
  leaves_command_mode
    (fun ok post =>
       (ok = false /\ post = [])
       \/ post = [@rate_request P _ 0x28 0x02])
    (@HwInit.hwInitV3 (recording P) _ modelData)
  /\ leaves_command_mode
       (fun ok post =>
          (ok = false /\ post = [])
          \/ (ok = false /\ post = [@format_request P _])
          \/ post = [@format_request P _; @rate_request P _ 0x64 0x02])
       (@HwInit.hwInitV4 (recording P) _ modelData)
  /\ leaves_command_mode
       (fun r post =>
          (fst r = false /\ post = [])
          \/ post = [[send (@kDP_Enable _)]])
       (@HwInit.hwInitRushmoreV3 (recording P) _ modelData).
Proof.
  pose proof appends_enterCommandMode as A1.
  pose proof (fun a => appends_commandModeReadReg modelData a) as A2.
  pose proof (fun v => appends_commandModeWriteReg modelData v) as A3.
  pose proof (fun a v => appends_commandModeWriteRegAt modelData a v) as A4.
  pose proof (fun b => appends_probeTrackstickV3 modelData b) as A5.
  pose proof (fun b => appends_setupTrackstickV3 modelData b) as A6.
  pose proof (fun w => appends_write_registers modelData w) as A7.
  split; [|split].
  - unfold HwInit.hwInitV3, HwInit.absoluteModeV3.
    repeat leaves_step.
    apply leaves_exit_then. intros b d r d'.
    unfold HwInit.setSampleRateAndResolution, HwInit.bind.
    destruct (HwInit.submit_all _ d) as [[ok d1]|] eqn:E; [|discriminate].
    apply submit_all_recorded in E.
    destruct ok; cbn [negb]; intros E'; inversion E'; subst;
      (eexists; split; [exact E | right; reflexivity]).
  - unfold HwInit.hwInitV4, HwInit.absoluteModeV4.
    repeat leaves_step.
    apply leaves_exit_then. intros b d r d'.
    unfold HwInit.setSampleRateAndResolution, HwInit.bind.
    destruct (HwInit.submit_all _ d) as [[ok d1]|] eqn:E; [|discriminate].
    apply submit_all_recorded in E.
    destruct ok; cbn [negb].
    + destruct (HwInit.submit_all _ d1) as [[ok2 d2]|] eqn:E2; [|discriminate].
      apply submit_all_recorded in E2.
      destruct ok2; cbn [negb]; intros E'; inversion E'; subst;
        (eexists; split;
         [rewrite E2, E, <- app_assoc; reflexivity | right; right; reflexivity]).
    + intros E'; inversion E'; subst.
      eexists; split; [exact E | right; left; split; reflexivity].
  - unfold HwInit.hwInitRushmoreV3. cbv zeta.
    assert (F : forall fl,
              leaves_command_mode
                (fun (r : bool * Z) post =>
                   (fst r = false /\ post = [])
                   \/ post = [[send (@kDP_Enable _)]])
                (HwInit.bind (@HwInit.exitCommandMode_io (recording P))
                   (fun _ => HwInit.ret (false, fl)))).
    { intros fl. apply leaves_exit_then. intros b d r d' E.
      inversion E; subst. exists []. rewrite app_nil_r. auto. }
    pose proof (fun fl a => appends_commandModeReadReg (set_flags fl modelData) a)
      as A2'.
    pose proof (fun fl v => appends_commandModeWriteReg (set_flags fl modelData) v)
      as A3'.
    pose proof (fun fl a v =>
                  appends_commandModeWriteRegAt (set_flags fl modelData) a v)
      as A4'.
    repeat first [apply F | leaves_step].
    apply leaves_exit_then. intros b d r d'.
    unfold HwInit.bind.
    destruct (HwInit.submit_all _ d) as [[ok d1]|] eqn:E; [|discriminate].
    apply submit_all_recorded in E.
    intros E'; inversion E'; subst.
    eexists; split; [exact E | right; reflexivity].
Qed.

End Recorded.

Lemma selected_hw_init_is_defined_witness :
  fst (fst (@identify v4_port unidentified 0%nat)) = kIOReturnSuccess
  /\ exists h,
       hw_init (snd (fst (@identify v4_port unidentified 0%nat))) = Some h
       /\ forall size,
            @defined v4_port _
              (@call_hw_init v4_port standard_bytes h
                 (set_pktsize size
                    (modelData
                       (snd (fst (@identify v4_port unidentified 0%nat)))))).
Proof.
  split; [reflexivity|].
  exact (@selected_hw_init_is_defined v4_port standard_bytes unidentified
           0%nat eq_refl).
Defined.

(* ------------------------------------------------------------------------- *)
(** * The packet queue *)

Lemma packetReady_loop_drains md :
  forall fuel rb,
    0 < pktsize md -> Ring.count rb <= Z.of_nat fuel ->
    Ring.count (fst (packetReady_loop fuel md rb)) < pktsize md.
Proof.
  induction fuel as [|fuel IH]; intros rb Hp Hc; cbn [packetReady_loop].
  - cbn [fst]. lia.
  - destruct (Z.leb_spec (pktsize md) (Ring.count rb)) as [Hge | Hlt];
      [|cbn [fst]; exact Hlt].
    destruct (Z.land _ _ =? byte0 md).
    + specialize (IH (Ring.advanceTail (pktsize md) rb) Hp).
      destruct (packetReady_loop fuel md _) as [rb' out]. cbn [fst] in *.
      apply IH. unfold Ring.count, Ring.advanceTail in *. cbn [ring_count]. lia.
    + specialize (IH (Ring.advanceTail kPacketLengthSmall rb) Hp).
      destruct (packetReady_loop fuel md _) as [rb' out]. cbn [fst] in *.
      apply IH. unfold Ring.count, Ring.advanceTail, kPacketLengthSmall in *.
      cbn [ring_count]. lia.
Qed.

(** [packetReady] leaves its loop by the test of the loop: fewer than
    [pktsize] bytes are queued when it returns. *)
Lemma packetReady_drains md rb :
  0 < pktsize md -> Ring.count (fst (packetReady md rb)) < pktsize md.
Proof.
  intros Hp. unfold packetReady. apply packetReady_loop_drains; [exact Hp|].
  lia.
Qed.

Lemma bytes_at_S rb p n :
  Ring.bytes_at rb p (S n)
  = Ring.bytes_at rb p n ++ [Ring.load rb p (Z.of_nat n)].
Proof.
  unfold Ring.bytes_at. rewrite seq_S, map_app. reflexivity.
Qed.

Lemma bytes_at_store_above rb p n i v :
  Z.of_nat n <= i ->
  Ring.bytes_at (Ring.store rb p i v) p n = Ring.bytes_at rb p n.
Proof.
  intros Hi. unfold Ring.bytes_at. apply map_ext_in. intros k Hk.
  apply in_seq in Hk. unfold Ring.load, Ring.store. cbn [ring_bytes].
  destruct (Z.eqb_spec (p + Z.of_nat k) (p + i)); [lia | reflexivity].
Qed.

Lemma load_store_same rb p i v : Ring.load (Ring.store rb p i v) p i = v.
Proof.
  unfold Ring.load, Ring.store. cbn [ring_bytes]. rewrite Z.eqb_refl.
  reflexivity.
Qed.

(** The in-progress packet of [interruptOccurred]: the bytes written at the
    head since the packet started. *)
Lemma interruptOccurred_ring_refines md s data :
  0 <= _packetByteCount s ->
  let in_progress s :=
    Ring.bytes_at (_ringBuffer s) (Ring.head (_ringBuffer s))
      (Z.to_nat (_packetByteCount s)) in
  let '(r, s') := interruptOccurred_ring md s data in
  let '(r0, st, packet) := interruptOccurred md (in_progress s) data in
  r = r0 /\ 0 <= _packetByteCount s' /\ in_progress s' = st
  /\ Ring.tail (_ringBuffer s') = Ring.tail (_ringBuffer s)
  /\ match r with
     | kPS2IR_packetBuffering =>
         packet = []
         /\ Ring.head (_ringBuffer s') = Ring.head (_ringBuffer s)
         /\ Ring.count (_ringBuffer s') = Ring.count (_ringBuffer s)
     | kPS2IR_packetReady =>
         Ring.bytes_at (_ringBuffer s') (Ring.head (_ringBuffer s))
           (length packet) = packet
         /\ Ring.head (_ringBuffer s')
            = Ring.head (_ringBuffer s) + pktsize md
         /\ Ring.count (_ringBuffer s')
            = Ring.count (_ringBuffer s) + pktsize md
     end.
Proof.
  intros Hc. cbv zeta. unfold interruptOccurred_ring, interruptOccurred.
  set (n := Z.to_nat (_packetByteCount s)).
  set (st := Ring.bytes_at (_ringBuffer s) (Ring.head (_ringBuffer s)) n).
  assert (Hlen : Z.of_nat (length st) = _packetByteCount s).
  { subst st n. unfold Ring.bytes_at. rewrite length_map, length_seq. lia. }
  rewrite Hlen. rewrite (Z.eqb_sym 0 (_packetByteCount s)).
  destruct ((_packetByteCount s =? 0) && negb (Z.land data 200 =? 8)
            && negb (Z.land data (mask0 md) =? byte0 md)) eqn:Hrej.
  { repeat split; auto. }
  destruct ((1 <=? _packetByteCount s) && (data =? 128)) eqn:Habort.
  { cbn [_packetByteCount _ringBuffer Z.to_nat]. repeat split; auto; lia. }
  rewrite length_app, Nat2Z.inj_add, Hlen. cbn [length Z.of_nat Pos.of_succ_nat].
  set (rb := Ring.store (_ringBuffer s) (Ring.head (_ringBuffer s))
               (_packetByteCount s) data).
  assert (Hnew : Ring.bytes_at rb (Ring.head (_ringBuffer s)) (S n)
                 = st ++ [data]).
  { rewrite bytes_at_S. subst rb st.
    rewrite bytes_at_store_above by (subst n; lia).
    replace (Z.of_nat n) with (_packetByteCount s) by (subst n; lia).
    rewrite load_store_same. reflexivity. }
  assert (Hfirst : Ring.load rb (Ring.head (_ringBuffer s)) 0
                   = byte_at (st ++ [data]) 0).
  { rewrite <- Hnew. unfold Ring.bytes_at. cbn [seq List.map byte_at nth].
    reflexivity. }
  rewrite Hfirst.
  destruct ((pktsize md =? _packetByteCount s + 1)
            || ((kPacketLengthSmall =? _packetByteCount s + 1)
                && (Z.land (byte_at (st ++ [data]) 0) 200 =? 8))).
  - cbn [_packetByteCount _ringBuffer Z.to_nat].
    split; [reflexivity|]. split; [lia|]. split; [reflexivity|].
    split; [reflexivity|]. split; [|split; reflexivity].
    rewrite length_app. cbn [length].
    replace (length st + 1)%nat with (S n)
      by (subst n; apply Nat2Z.inj; lia).
    rewrite <- Hnew. unfold Ring.bytes_at, Ring.load, Ring.advanceHead.
    reflexivity.
  - cbn [_packetByteCount _ringBuffer].
    split; [reflexivity|]. split; [lia|].
    split; [|repeat split; reflexivity].
    replace (Z.to_nat (_packetByteCount s + 1)) with (S n) by (subst n; lia).
    exact Hnew.
Qed.

(** C1 (evaluation at the failing input).  A bare PS/2 packet followed by
    a V3 position packet, fed to a Pinnacle profile whose queue is empty,
    over a buffer with any contents.  [interruptOccurred] completes the two
    packets, but it advances the head by [pktsize] = 6 for the bare packet
    while [packetReady] advances the tail by 3, so the three bytes of the
    buffer behind the bare packet, which no byte of the source was written
    to, stay queued: with the next packet they are taken as a packet of
    their own.  When the first of them carries the profile signature they
    are processed together with the first three bytes of the position
    packet, which is then never processed; otherwise they are ignored as a
    bare packet.  Over a zeroed buffer that packet is [0; 0; 0], which has
    neither an admissible length and first byte nor any place in the
    source. *)
Theorem bare_packet_leaves_bytes_in_queue (bytes : Z -> Z) :
  let input := bare_packet ++ position_packet in
  let left_over := [bytes 3; bytes 4; bytes 5] in
  List.map snd (feed pinnacle_data [] 0 input) = [bare_packet; position_packet]
  /\ snd (deliver pinnacle_data (empty_framer bytes) input)
     = ignored bare_packet
       :: (if Z.land (bytes 3) 0x8f =? 0x8f
           then [processed (left_over ++ [0x8f; 0x20; 0x10])]
           else [ignored left_over; processed position_packet])
  /\ snd (deliver pinnacle_data (empty_framer (fun _ => 0)) input)
     = [ignored bare_packet; ignored [0; 0; 0]; processed position_packet]
  /\ ~ packet_length_ok pinnacle_data [0; 0; 0]
  /\ forall e, ~ source_segment input e [0; 0; 0].
Proof.
  cbv zeta. split; [reflexivity|]. split; [|split; [reflexivity|split]].
  - destruct (Z.land (bytes 3) 143 =? 143) eqn:T;
      unfold deliver, bare_packet, position_packet, empty_framer; cbn [app];
      unfold interruptOccurred_ring, packetReady; cbn;
      change (Pos.to_nat 6) with 6%nat; cbn;
      change (Pos.to_nat 9) with 9%nat; cbn;
      change (bytes kPacketLengthSmall) with (bytes 3); rewrite T;
      vm_compute; reflexivity.
  - unfold packet_length_ok. cbn. intros [H | [_ H]]; discriminate.
  - intros e (before & after & E & _).
    unfold bare_packet, position_packet in E. cbn [app] in E.
    do 9 (destruct before as [|? before]; cbn [app] in E;
          [discriminate E|]; injection E as _ E).
    destruct before; discriminate E.
Qed.

Lemma packetReady_one_packet md rb :
  3 < pktsize md ->
  Ring.count rb = pktsize md ->
  Z.land (Ring.load rb (Ring.tail rb) 0) (mask0 md) = byte0 md ->
  packetReady md rb
  = (Ring.advanceTail (pktsize md) rb,
     [processed (Ring.bytes_at rb (Ring.tail rb) (Z.to_nat (pktsize md)))]).
Proof.
  intros Hp Hc Hsig. unfold packetReady.
  destruct (Z.to_nat (Ring.count rb)) as [|fuel] eqn:F; [lia|].
  cbn [packetReady_loop]. rewrite Hc, Z.leb_refl, Hsig, Z.eqb_refl.
  assert (E : packetReady_loop fuel md (Ring.advanceTail (pktsize md) rb)
              = (Ring.advanceTail (pktsize md) rb, [])).
  { destruct fuel; cbn [packetReady_loop]; [reflexivity|].
    unfold Ring.count, Ring.advanceTail. cbn [ring_count].
    unfold Ring.count in Hc. rewrite Hc, Z.sub_diag.
    destruct (Z.leb_spec (pktsize md) 0); [lia | reflexivity]. }
  rewrite E. reflexivity.
Qed.

Lemma full_packets_handed_over_from md :
  3 < pktsize md ->
  forall input s st c,
    idle_queue s st ->
    (st <> [] -> starts_packet md (byte_at st 0)) ->
    ((3 <= length st)%nat -> Z.land (byte_at st 0) 0xc8 <> 0x08) ->
    (forall e p, In (e, p) (feed md st c input) ->
       Z.of_nat (length p) = pktsize md) ->
    snd (deliver md s input)
    = List.map (fun ep => processed (snd ep)) (feed md st c input).
Proof.
  intros Hp. induction input as [|data rest IH]; intros s st c I Hst H3 Hall;
    [reflexivity|].
  cbn [deliver feed] in *.
  destruct I as (Hc & Hst_eq & Hcount & Htail).
  pose proof (interruptOccurred_ring_refines md s data Hc) as R.
  cbv beta zeta in R.
  rewrite Hst_eq in R.
  pose proof (eq_refl (interruptOccurred md st data)) as U.
  unfold interruptOccurred at 2 in U.
  destruct (interruptOccurred_ring md s data) as [r s1].
  destruct (interruptOccurred md st data) as [[r0 st1] packet].
  destruct R as (<- & Hc1 & Hst1 & Htail1 & R).
  destruct ((Z.of_nat (length st) =? 0) && negb (Z.land data 200 =? 8)
            && negb (Z.land data (mask0 md) =? byte0 md)) eqn:Hrej.
  { (* the byte is rejected *)
    injection U as -> -> ->. destruct R as (_ & Hh & Hcnt).
    apply IH with (c := S c); try assumption.
    repeat split; try assumption; congruence. }
  destruct ((1 <=? Z.of_nat (length st)) && (data =? 128)) eqn:Habort.
  { (* the packet is abandoned *)
    injection U as -> -> ->. destruct R as (_ & Hh & Hcnt).
    apply IH with (c := S c); try assumption.
    - repeat split; try assumption; congruence.
    - congruence.
    - cbn [length]. lia. }
  assert (Hstart : starts_packet md (byte_at (st ++ [data]) 0)).
  { destruct st as [|b t]; [|apply Hst; discriminate].
    cbn [app byte_at nth]. cbn [length Z.of_nat Z.eqb andb] in Hrej.
    unfold starts_packet.
    destruct (Z.eqb_spec (Z.land data 200) 8); [left; assumption|].
    destruct (Z.eqb_spec (Z.land data (mask0 md)) (byte0 md));
      [right; assumption | discriminate]. }
  destruct ((pktsize md =? Z.of_nat (length (st ++ [data])))
            || ((kPacketLengthSmall =? Z.of_nat (length (st ++ [data])))
                && (Z.land (byte_at (st ++ [data]) 0) 200 =? 8))) eqn:Hdone.
  - (* a packet is complete *)
    injection U as -> -> ->. destruct R as (Hbytes & Hh & Hcnt).
    assert (Hlen : Z.of_nat (length (st ++ [data])) = pktsize md)
      by (apply (Hall (S c)); left; reflexivity).
    assert (Hsig : Z.land (byte_at (st ++ [data]) 0) (mask0 md) = byte0 md).
    { destruct Hstart as [Hl | Hs]; [|exact Hs]. exfalso.
      assert (L : (3 <= length st)%nat).
      { rewrite length_app in Hlen. cbn [length] in Hlen. lia. }
      apply (H3 L). destruct st; [cbn in L; lia | exact Hl]. }
    assert (Hc1' : Ring.count (_ringBuffer s1) = pktsize md) by lia.
    assert (Ht1 : Ring.tail (_ringBuffer s1) = Ring.head (_ringBuffer s))
      by congruence.
    assert (Hfirst : Ring.load (_ringBuffer s1) (Ring.tail (_ringBuffer s1)) 0
                     = byte_at (st ++ [data]) 0).
    { rewrite Ht1.
      transitivity (byte_at (Ring.bytes_at (_ringBuffer s1)
                               (Ring.head (_ringBuffer s))
                               (length (st ++ [data]))) 0);
        [|rewrite Hbytes; reflexivity].
      destruct (length (st ++ [data])) eqn:L; [destruct st; discriminate L|].
      unfold Ring.bytes_at. cbn [seq List.map byte_at nth]. reflexivity. }
    rewrite packetReady_one_packet by (try rewrite Hfirst; assumption).
    rewrite Ht1.
    replace (Z.to_nat (pktsize md)) with (length (st ++ [data])) by lia.
    rewrite Hbytes.
    specialize (IH (mk_framer (Ring.advanceTail (pktsize md) (_ringBuffer s1))
                      (_packetByteCount s1)) [] (S c)).
    destruct (deliver md _ rest) as [s2 out']. cbn [snd app List.map] in *.
    f_equal. apply IH.
    + unfold idle_queue. cbn [_ringBuffer _packetByteCount].
      split; [exact Hc1|]. split; [exact Hst1|].
      unfold Ring.count, Ring.tail, Ring.head, Ring.advanceTail in *.
      cbn [ring_count ring_tail ring_head]. split; lia.
    + congruence.
    + cbn [length]. lia.
    + intros e p Hin. apply (Hall e). right. exact Hin.
  - (* the packet goes on *)
    injection U as -> -> ->. destruct R as (_ & Hh & Hcnt).
    apply IH with (c := S c).
    + repeat split; try assumption; congruence.
    + intros _. exact Hstart.
    + intros L. apply orb_false_iff in Hdone as [_ Hdone].
      rewrite length_app in L, Hdone. cbn [length] in L, Hdone.
      destruct (Nat.eq_dec (length st + 1) 3) as [E3 | E3].
      * rewrite E3 in Hdone. cbn [Z.of_nat Pos.of_succ_nat] in Hdone.
        change (kPacketLengthSmall =? 3) with true in Hdone.
        cbn [andb] in Hdone. apply Z.eqb_neq in Hdone. exact Hdone.
      * destruct st as [|b t]; [cbn in L; lia|]. cbn [app byte_at nth].
        apply H3. lia.
    + exact Hall.
Qed.

(** X24.  When the packet size is above 3 and every packet that
    [interruptOccurred] completes has the packet size (no bare PS/2 packet
    is completed), the queue hands the packets over exactly: starting from
    an empty queue, over a buffer with any contents, [packetReady] calls
    the packet handler on the completed packets, each once and in order,
    and ignores nothing. *)
Theorem full_packets_handed_over (modelData : alps_data) (bytes : Z -> Z)
    (input : list Z) :
  3 < pktsize modelData ->
  (forall e p, In (e, p) (feed modelData [] 0 input) ->
     Z.of_nat (length p) = pktsize modelData) ->
  snd (deliver modelData (empty_framer bytes) input)
  = List.map (fun ep => processed (snd ep)) (feed modelData [] 0 input).
Proof.
  intros Hp Hall. apply full_packets_handed_over_from; try assumption.
  - unfold idle_queue, empty_framer. cbn. repeat split; lia.
  - intros H. contradiction.
  - cbn [length]. lia.
Qed.

Lemma full_packets_handed_over_witness :
  (3 < pktsize pinnacle_data
   /\ forall e p,
        In (e, p) (feed pinnacle_data [] 0 (position_packet ++ bitmap_packet)) ->
        Z.of_nat (length p) = pktsize pinnacle_data)
  /\ snd (deliver pinnacle_data (empty_framer (fun _ => 0))
            (position_packet ++ bitmap_packet))
     = List.map (fun ep => processed (snd ep))
         (feed pinnacle_data [] 0 (position_packet ++ bitmap_packet)).
Proof.
  assert (Hp : 3 < pktsize pinnacle_data) by (cbn; lia).
  assert (Hall : forall e p,
             In (e, p)
               (feed pinnacle_data [] 0 (position_packet ++ bitmap_packet)) ->
             Z.of_nat (length p) = pktsize pinnacle_data).
  { intros e p Hin. vm_compute in Hin.
    destruct Hin as [E | [E | []]]; inversion E; reflexivity. }
  split; [split; [exact Hp | exact Hall]|].
  exact (full_packets_handed_over pinnacle_data (fun _ => 0)
           (position_packet ++ bitmap_packet) Hp Hall).
Defined.
